(** * Edge-AI smart irrigation controller: the numeric pipeline and the pump
      state machine of the Raspberry Pi Pico scripts

    The development embeds three source files:
    - [mlp_et0_predictotr.py] (module [MLP]): the hard-coded perceptron;
    - [main.py] (module [Main]): the MQTT-configured control script;
    - [main5.py] (module [Main5]): the interactive-setup control script.

    The modules [MLPSpec], [InterpolationSpec], [IrrigationSpec],
    [DayClockSpec], [SamplingSpec], [ConfigSpec], [FloatSpec] and [PumpSpec]
    hold the vocabulary the scripts are compared with; [Runtime] holds
    concrete stand-ins for MicroPython functions, used in worked examples
    only.

    Numbers.  In [MLP], [Main] and [Main5] Python floats are modelled by
    exact rationals [Q]: every arithmetic operation of the scripts is the
    corresponding exact operation, so the rounding error of the
    floating-point unit is outside these modules.  Where a property depends
    on that error (the two-decimal rounding of the available water, the mean
    of the soil readings) the code is embedded once more in [MainFloat] and
    [Main5Float]: every operation is followed by a rounding [fl] to the
    float format, and a parsed payload may be an infinity or NaN.  The
    theorems there hold for every monotone rounding; [Fp] defines IEEE
    round-to-nearest-even in double and single precision, which are proved
    to be such.  Overflow is modelled for the sums of [Main5Float] only.
    Integers ([int]) are [Z].  [max]/[min] are [Qmax]/[Qmin].  Results that
    depend on the representation of a rational are stated with [==].

    Exceptions.  Code that can raise returns a [result]; a [try/except] is a
    match on it.

    Logging.  [log_message] and [print] calls do not change any state the
    properties talk about and are left out. *)

From Stdlib Require Import QArith ZArith List Lia Lqa Qminmax Qround Qpower Ascii.
From stdpp Require Import gmap strings list.

(** ** Python runtime helpers *)

Module Py.

Inductive exn : Type :=
| ValueError
| IndexError
| TypeError
| ZeroDivisionError
| OSError.

Inductive result (A : Type) : Type :=
| Ok (a : A)
| Raise (e : exn).
Arguments Ok {A} a.
Arguments Raise {A} e.

Definition bind {A B : Type} (m : result A) (k : A -> result B) : result B :=
  match m with
  | Ok a => k a
  | Raise e => Raise e
  end.

(** [l[i]] for a non-negative index. *)
Definition getitem {A : Type} (l : list A) (i : nat) : result A :=
  match l !! i with
  | Some x => Ok x
  | None => Raise IndexError
  end.

(** [l[i] = x] on a list: in place, [IndexError] out of range. *)
Definition setitem {A : Type} (l : list A) (i : nat) (x : A) : result (list A) :=
  if (i <? length l)%nat then Ok (<[i:=x]> l) else Raise IndexError.

(** [for i in idx: s = body(i, s)], stopping at the first exception. *)
Fixpoint for_loop {S : Type} (idx : list nat) (body : nat -> S -> result S)
  (s : S) : result S :=
  match idx with
  | [] => Ok s
  | i :: rest => bind (body i s) (for_loop rest body)
  end.

(** [for i in range(n)]. *)
Definition for_range {S : Type} (n : nat) (body : nat -> S -> result S)
  (s : S) : result S :=
  for_loop (seq 0 n) body s.

(** [[g(j) for j in idx]]. *)
Fixpoint comprehension {A : Type} (g : nat -> result A) (idx : list nat)
  : result (list A) :=
  match idx with
  | [] => Ok []
  | j :: rest =>
      bind (g j) (fun x => bind (comprehension g rest) (fun xs => Ok (x :: xs)))
  end.

Definition Qlt_bool (a b : Q) : bool := negb (Qle_bool b a).

(** [round(x)] to the nearest integer, halves to the even neighbour
    (MicroPython's [nearbyint]). *)
Definition round_half_even (x : Q) : Z :=
  let f := Qfloor x in
  match (x - inject_Z f) ?= (1 # 2) with
  | Lt => f
  | Gt => (f + 1)%Z
  | Eq => if Z.even f then f else (f + 1)%Z
  end%Q.

(** [round(x, 2)]: scale by [10**2], round to the nearest integer, scale
    back. *)
Definition round2 (x : Q) : Q :=
  (inject_Z (round_half_even (x * 100)) / 100)%Q.

End Py.

Notation "'let*' x ':=' m 'in' k" := (Py.bind m (fun x => k))
  (at level 10, x name, m at level 100, k at level 200, only parsing).

(** ** Floating point

    The scripts compute with the floats of the runtime.  [Finite q] is a
    float with the rational value [q]; every arithmetic operation returns
    the float nearest to its exact result. *)

Module Fp.
Import Py.
Local Open Scope Q_scope.

Inductive pyfloat : Type :=
| Finite (q : Q)
| PosInf
| NegInf
| NaN.

(** [a <= b] on floats: false as soon as one side is NaN. *)
Definition le (a b : pyfloat) : bool :=
  match a, b with
  | NaN, _ | _, NaN => false
  | NegInf, _ => true
  | _, PosInf => true
  | Finite x, Finite y => Qle_bool x y
  | Finite _, NegInf => false
  | PosInf, _ => false
  end.

Section Format.
(** A binary format: [prec] bits of precision, [emin] the exponent of the
    smallest positive float. *)
Variable prec : Z.
Variable emin : Z.

(** The integer [k] with [2^k <= x < 2^(k+1)], for [x > 0]. *)
Definition ilog2 (x : Q) : Z :=
  let k := (Z.log2 (Qnum x) - Z.log2 (Zpos (Qden x)))%Z in
  if Qle_bool (2 ^ k) x then k else (k - 1)%Z.

(** The exponent of the last bit of the floats next to [x]. *)
Definition exponent (x : Q) : Z := Z.max emin (ilog2 x - (prec - 1)).

Definition round_positive (x : Q) : Q :=
  inject_Z (round_half_even (x / 2 ^ exponent x)) * 2 ^ exponent x.

(** Round to nearest, ties to even, without overflow. *)
Definition nearest (x : Q) : Q :=
  match x ?= 0 with
  | Eq => 0
  | Gt => round_positive x
  | Lt => - round_positive (- x)
  end.

End Format.

(** IEEE 754 double and single precision. *)
Definition binary64 : Q -> Q := nearest 53 (-1074).
Definition binary32 : Q -> Q := nearest 24 (-149).

Definition max_binary64 : Q := inject_Z (2 ^ 53 - 1) * 2 ^ 971.
Definition max_binary32 : Q := inject_Z (2 ^ 24 - 1) * 2 ^ 104.

Section Arithmetic.
(** [fl] rounds an exact result to the format; results beyond [fmax]
    overflow to an infinity. *)
Variable fl : Q -> Q.
Variable fmax : Q.

Definition of_exact (r : Q) : pyfloat :=
  let v := fl r in
  if Qlt_bool fmax v then PosInf
  else if Qlt_bool v (- fmax) then NegInf
  else Finite v.

Definition add (a b : pyfloat) : pyfloat :=
  match a, b with
  | NaN, _ | _, NaN => NaN
  | PosInf, NegInf | NegInf, PosInf => NaN
  | PosInf, _ | _, PosInf => PosInf
  | NegInf, _ | _, NegInf => NegInf
  | Finite x, Finite y => of_exact (x + y)
  end.

(** [round(x, 2)] as MicroPython computes it:
    [nearbyint(x * 100) / 100], each step a float operation. *)
Definition round2_micropython (x : Q) : Q :=
  fl (inject_Z (round_half_even (fl (x * 100))) / 100).

(** [round(x, 2)] as CPython computes it: the float nearest to the
    two-decimal number nearest to [x]. *)
Definition round2_cpython (x : Q) : Q := fl (round2 x).

End Arithmetic.

End Fp.


(** ** [mlp_et0_predictotr.py] *)

Module MLP.
Import Py.

Definition SCALER_MEAN : list Q :=
  [30.523708026575687; 67.71459507990662; 18.924402944873407]%Q.
Definition SCALER_SCALE : list Q :=
  [3.5751311909811117; 15.723214825593704; 48.63370888697871]%Q.

Definition WEIGHTS_0 : list (list Q) := [
  [0.053256736082930384; 0.4556614644198747; 0.2956831098132046; 0.390611203857762; -0.49573082787825595; -0.26712442338928777; -0.4410235572435593; 0.3151124934653342; -2.0374896975933982e-147; -6.093239597537111e-106; -0.20590779631744852; 0.7770397050391823; 0.3815640516921651; -0.7107079169172609; -0.002707618226200019; 0.09307386063733245];
  [-0.16791817815558072; 0.08396617595601202; 0.04362431244958579; -0.42207432737964884; 0.4441163443582557; -0.48997516700048205; 0.3513257685067875; -0.004191927572604342; -1.239003522970632e-174; -1.4862611111652933e-84; 0.6979751005863711; -0.13542948790788364; -0.0042729855928596155; -0.23871321463091302; -0.02134113163304481; -0.5223530333312946];
  [-1.4340603348132237; -0.05623138321566759; 1.7802483055245486; 1.304945190351235; 0.9776157424983497; 0.3139871734563571; 0.6882998578682952; 0.7509840348275748; -1.6051166764073653e-63; -1.1210733326638123e-185; -1.7166667434170877; 1.2848190660888648; -1.1185322851024773; 0.060356849975963626; 1.2126690761625336; 1.0232338882640604]
]%Q.

Definition WEIGHTS_1 : list (list Q) := [
  [-0.2847830853942866; -0.04894336945156456; 1.4583131433425092; 1.5143253850143812e-88; -0.7264039088864096; 0.42587725204011; 0.11949961610694788; -0.36591673142405284];
  [-0.2728998340358246; 0.24023646185119688; 0.20597304427292465; 8.446412413067904e-108; 0.5784438720016305; -0.46510428666278403; -0.2148554543803399; -0.16401721895707813];
  [0.7254694744452723; 0.04824566701970705; -0.173761248281168; 6.272802759676992e-62; 0.27607020056716475; -0.23090869429103414; 0.018611815288953167; 0.49879112742900256];
  [0.7285477397563662; -0.11779578123363092; -0.30222207999295625; -1.7846750911207596e-112; 0.6570346079299098; 0.008007215865847352; 0.08755759404773678; 0.33411984891123125];
  [0.38566036718287616; -0.11015269727783522; -0.48726546431718504; -7.538667466497139e-70; 0.04892677014818802; 0.08756335073999622; -0.43456544962087124; 0.37059220426233663];
  [0.7148494488495825; -0.3706853387737396; -0.03162654699387281; -4.968561076246304e-100; 0.13579624047710168; -0.4750581572187915; -0.4092720315250236; -0.03229553741430834];
  [0.8141288665073991; 0.29615426316505034; 0.17812947377421573; 3.652025208159293e-74; 0.7728911644083547; -0.32875867990806895; 0.03664436727722565; 0.4227755184441739];
  [0.6159664563699541; 0.321362806693978; 0.0037792297391362364; -6.357920888698645e-70; 0.1434289041190022; -0.1258979069632879; 0.15496368113763198; 0.6679399768785638];
  [-3.624311282752862e-52; -9.734464534961656e-185; 1.2227100458183595e-160; 3.6768523804866795e-95; 6.254653188883465e-72; 2.3453651086205982e-129; 3.1130640866873725e-60; 1.5318229952195728e-123];
  [2.5065569859141277e-183; -4.736891421768007e-115; 2.5873796880493072e-138; -1.352226087584374e-55; 6.539773669408313e-57; 5.221895600786153e-102; 5.75951463657817e-186; -1.4956683598249917e-116];
  [-0.7018792326039285; -0.4566868649430578; -0.37596590389659923; -5.214925711343096e-186; -0.9691546031029429; 1.2066615381531683e-109; 1.0163128906141286; -0.7468579314889985];
  [0.0063916082016488626; -0.09838164764903408; 0.5512446426326887; -1.2147597931374713e-99; 0.5673896116942954; 0.19613574244491702; -0.4296771100893114; 0.5888254689718364];
  [-0.17109912955552728; 0.04836384267418337; 0.9328249649835226; -3.400976765060054e-179; -0.5248353305947155; 0.2778542717164251; -0.29509812468990027; -0.3519718611312421];
  [-0.5764362857485142; 0.0031381195131248833; -0.566643017773637; -7.490191247189335e-54; -0.14028206866182227; -0.28066032131588753; -0.20175338138508545; -0.44347037925567717];
  [0.5809873822504297; -0.14880527949533928; 0.0006068468133094703; -1.6157652203472783e-75; 0.3741559035340779; -0.4424730018969445; 0.16706676966043313; 0.766240728279984];
  [0.09518650821029383; 0.04455443646256285; 0.24434554403252773; -2.8504645051703925e-172; 0.3522879938885286; -0.10786214919336565; -0.6042224395835604; 0.7340580447695334]
]%Q.

Definition WEIGHTS_2 : list (list Q) := [
  [0.5664609979160748];
  [-0.6356844552555531];
  [-0.790921774976537];
  [1.0174909008196275e-29];
  [0.6648815872830408];
  [-0.7581555113582894];
  [-0.5808776834343329];
  [0.6389814925338703]
]%Q.

Definition BIASES_0 : list Q :=
  [-0.0900813784109052; -0.32239141701777874; 0.9895977041668974; 0.6468650926165534; 0.8748347751862976; 0.6685067157960585; 0.508265633763575; 0.7579812511181253; -0.4624945007251862; -0.34168576504309; -0.4208648595662413; 0.22662123091992215; -0.054544680440006044; -0.2806397368438346; 0.8259691546186022; 0.12604276939324174]%Q.

Definition BIASES_1 : list Q :=
  [0.6926480824329304; 0.053241274443864485; -0.18648836023061607; -0.1507904253873391; 0.6334437732214047; 0.3417859021747934; 0.2062404013732311; 0.5709789833548106]%Q.

Definition BIASES_2 : list Q := [-0.5699131677038413]%Q.

(** [scale_features]: the length check, then the in-place loop over
    [scaled = [0.0] * len(raw_features)]. *)
Definition scale_features (raw_features means scales : list Q)
  : result (list Q) :=
  if negb (length raw_features =? length means)%nat
     || negb (length raw_features =? length scales)%nat
  then Raise ValueError
  else
    for_range (length raw_features)
      (fun i scaled =>
         let* s := getitem scales i in
         if Qeq_bool s 0 then setitem scaled i 0%Q
         else
           let* r := getitem raw_features i in
           let* m := getitem means i in
           setitem scaled i ((r - m) / s)%Q)
      (repeat 0%Q (length raw_features)).

Definition relu (x : Q) : Q := Qmax 0 x.

Definition identity (x : Q) : Q := x.

(** [dot_product]: the length check, then [result += a[i] * b[i]]. *)
Definition dot_product (vector_a vector_b : list Q) : result Q :=
  if negb (length vector_a =? length vector_b)%nat then Raise ValueError
  else
    for_range (length vector_a)
      (fun i acc =>
         let* a := getitem vector_a i in
         let* b := getitem vector_b i in
         Ok (acc + a * b)%Q)
      0%Q.

(** One of the three layer loops of [predict_et0], which differ only in the
    tables, the input and the activation:
<<
    out = [0.0] * len(B)
    for i in range(len(B)):
        neuron_input_weights = [W[j][i] for j in range(len(inp))]
        activation = dot_product(inp, neuron_input_weights) + B[i]
        out[i] = act(activation)
>> *)
Definition layer_loop (W : list (list Q)) (B : list Q) (act : Q -> Q)
  (inp : list Q) : result (list Q) :=
  for_range (length B)
    (fun i out =>
       let* neuron_input_weights :=
         comprehension
           (fun j => let* row := getitem W j in getitem row i)
           (seq 0 (length inp)) in
       let* d := dot_product inp neuron_input_weights in
       let* b := getitem B i in
       setitem out i (act (d + b)%Q))
    (repeat 0%Q (length B)).

Definition predict_et0 (raw_features : list Q) : result Q :=
  if negb (length raw_features =? length SCALER_MEAN)%nat then Raise ValueError
  else
    let* scaled_input := scale_features raw_features SCALER_MEAN SCALER_SCALE in
    let* layer1_output := layer_loop WEIGHTS_0 BIASES_0 relu scaled_input in
    let* layer2_output := layer_loop WEIGHTS_1 BIASES_1 relu layer1_output in
    let* output_value := layer_loop WEIGHTS_2 BIASES_2 identity layer2_output in
    (* both branches of [if len(output_value) != 1] return [output_value[0]] *)
    getitem output_value 0.

(** [matrix_vector_multiply].  [None] is Python's [None], returned when the
    function runs off its end: everything after the first [if] is commented
    out in the source. *)
Definition matrix_vector_multiply (matrix : list (list Q)) (vector : list Q)
  : result (option (list Q)) :=
  match matrix with
  | [] => Ok (Some [])
  | row0 :: _ =>
      if negb (length row0 =? length vector)%nat then
        let transposed_rows := length row0 in
        if negb (transposed_rows =? length vector)%nat then Raise ValueError
        else
          let* result_vector :=
            for_range (length matrix)
              (fun i result_vector =>
                 let* neuron_weights := getitem matrix i in
                 if negb (length neuron_weights =? length vector)%nat
                 then Raise ValueError
                 else
                   let* d := dot_product neuron_weights vector in
                   setitem result_vector i d)
              (repeat 0%Q (length matrix)) in
          Ok (Some result_vector)
      else Ok None
  end.

End MLP.

(** ** The inference pipeline in the words of the specification *)

Module MLPSpec.

(** Standardisation of one feature. *)
Definition standardize (x mean scale : Q) : Q :=
  if Qeq_bool scale 0 then 0%Q else ((x - mean) / scale)%Q.

Fixpoint standardize_all (xs means scales : list Q) : list Q :=
  match xs, means, scales with
  | x :: xs', m :: means', s :: scales' =>
      standardize x m s :: standardize_all xs' means' scales'
  | _, _, _ => []
  end.

(** Dot product: the sum of the pairwise products, left to right. *)
Definition dot (a b : list Q) : Q :=
  fold_left (fun acc p => (acc + fst p * snd p)%Q) (combine a b) 0%Q.

(** The weight vector of neuron [i]: one element from every row. *)
Definition column (W : list (list Q)) (i : nat) : list Q :=
  map (fun row => nth i row 0%Q) W.

(** A dense layer of [n] neurons. *)
Definition dense (n : nat) (W : list (list Q)) (B : list Q) (act : Q -> Q)
  (inp : list Q) : list Q :=
  map (fun i => act (dot inp (column W i) + nth i B 0)%Q) (seq 0 n).

Definition pipeline (features : list Q) : Q :=
  let scaled := standardize_all features MLP.SCALER_MEAN MLP.SCALER_SCALE in
  let layer1 := dense 16 MLP.WEIGHTS_0 MLP.BIASES_0 (Qmax 0) scaled in
  let layer2 := dense 8 MLP.WEIGHTS_1 MLP.BIASES_1 (Qmax 0) layer1 in
  (dot layer2 (column MLP.WEIGHTS_2 0) + nth 0 MLP.BIASES_2 0)%Q.

(** The wrong reading the specification warns against: neuron [i] takes
    row [i] of the table. *)
Definition row_gather (W : list (list Q)) (i : nat) : list Q := nth i W [].

(** The pipeline with every intermediate vector reduced to lowest terms,
    for evaluation on concrete inputs. *)
Definition pipeline_reduced (features : list Q) : Q :=
  let scaled := standardize_all features MLP.SCALER_MEAN MLP.SCALER_SCALE in
  let layer1 :=
    map Qred (dense 16 MLP.WEIGHTS_0 MLP.BIASES_0 (Qmax 0) scaled) in
  let layer2 :=
    map Qred (dense 8 MLP.WEIGHTS_1 MLP.BIASES_1 (Qmax 0) layer1) in
  (dot layer2 (column MLP.WEIGHTS_2 0) + nth 0 MLP.BIASES_2 0)%Q.

End MLPSpec.

(** ** [main.py]: the MQTT-configured control script *)

Module Main.
Import Py.

(** *** Nursery profiles and interpolation *)

Definition profile : Type := list (Z * Q).

Definition crop_kc_profile : gmap string profile :=
  list_to_map [
    ("onion"%string,
     [(0%Z, 0.7%Q); (15%Z, 0.7%Q); (21%Z, 0.8%Q); (24%Z, 0.9%Q); (29%Z, 0.94%Q); (33%Z, 1.0%Q);
      (82%Z, 1.1%Q); (106%Z, 0.8%Q)]);
    ("maize"%string,
     [(0%Z, 0.3%Q); (20%Z, 0.3%Q); (40%Z, 0.7%Q); (60%Z, 1.0%Q); (80%Z, 0.8%Q); (100%Z, 0.6%Q)])
  ].

Definition crop_root_profile : gmap string profile :=
  list_to_map [
    ("onion"%string,
     [(0%Z, 0.05%Q); (18%Z, 0.25%Q); (38%Z, 0.43%Q); (73%Z, 0.60%Q); (106%Z, 0.60%Q)]);
    ("maize"%string,
     [(0%Z, 0.30%Q); (20%Z, 0.50%Q); (40%Z, 0.80%Q); (60%Z, 1.20%Q); (80%Z, 1.50%Q)])
  ].

(** The value returned inside the loop for the pair [(d0,v0),(d1,v1)]:
    [v0 + (v1-v0)*(day-d0)/(d1-d0) if (d1-d0) != 0 else v0]. *)
Definition bracket_value (day d0 : Z) (v0 : Q) (d1 : Z) (v1 : Q) : Q :=
  if negb (d1 - d0 =? 0)%Z
  then (v0 + (v1 - v0) * inject_Z (day - d0) / inject_Z (d1 - d0))%Q
  else v0.

(** The [for ... in zip(profile, profile[1:])] loop: [Some] at the first
    pair with [d0 <= day <= d1], [None] when the loop runs to its end. *)
Fixpoint scan_brackets (day : Z) (pairs : list ((Z * Q) * (Z * Q)))
  : option Q :=
  match pairs with
  | [] => None
  | ((d0, v0), (d1, v1)) :: rest =>
      if ((d0 <=? day) && (day <=? d1))%Z
      then Some (bracket_value day d0 v0 d1 v1)
      else scan_brackets day rest
  end.

Definition linear_interpolate (day : Z) (prof : profile) : Q :=
  match prof with
  | [] => 0%Q
  | first :: _ =>
      if (day <=? fst first)%Z then snd first
      else
        let final := List.last prof first in
        if (day >=? fst final)%Z then snd final
        else
          match scan_brackets day (combine prof (tail prof)) with
          | Some v => v
          | None => snd final
          end
  end.

(** *** Day clock *)

Section DayClock.
(** [time.mktime] on an 8-tuple ([None]: it raises) and the tuple
    [time.localtime()] returns now; both belong to the MicroPython
    runtime. *)
Variable mktime : Z * Z * Z * Z * Z * Z * Z * Z -> option Z.
Variable localtime : Z * Z * Z * Z * Z * Z * Z * Z.

(** [-1] is the error value of the [except] branch. *)
Definition get_days_after_planting (Y M D : Z) : Z :=
  if negb ((1 <=? M) && (M <=? 12) && (1 <=? D) && (D <=? 31))%Z
  then (-1)%Z
  else
    match mktime (Y, M, D, 0, 0, 0, 0, 0)%Z with
    | None => (-1)%Z
    | Some sow =>
        match mktime localtime with
        | None => (-1)%Z
        | Some now => Z.max 0 ((now - sow) / 86400)
        end
    end.
End DayClock.

(** *** MQTT configuration *)

Definition TOPIC_SOIL_SUB : string := "esp32/soilMoisture".
Definition TOPIC_CONFIG_BASE : string := "User/Input/".
Definition TOPIC_CONFIG_CROP : string := TOPIC_CONFIG_BASE +:+ "Crop".
Definition TOPIC_CONFIG_PLANTING_DATE : string :=
  TOPIC_CONFIG_BASE +:+ "Planting/Date".
Definition TOPIC_CONFIG_PLANTS_NUMBER : string :=
  TOPIC_CONFIG_BASE +:+ "Plants/Number".
Definition TOPIC_CONFIG_PLANTS_SPACING : string :=
  TOPIC_CONFIG_BASE +:+ "Plants/Spacing".
Definition TOPIC_CONFIG_ROW_SPACING : string :=
  TOPIC_CONFIG_BASE +:+ "Row/Spacing".
Definition TOPIC_CONFIG_PUMP_FLOWRATE : string :=
  TOPIC_CONFIG_BASE +:+ "Pump/Flowrate".

(** The values stored in the [config_params] dictionary. *)
Inductive cfg_value : Type :=
| VStr (s : string)
| VInt (n : Z)
| VFloat (q : Q).

Definition required_configs : gset string :=
  {[ "crop"; "planting_date"; "plants_number"; "plant_spacing_cm";
     "row_spacing_cm"; "pump_flow_lph" ]}%string.

(** The globals the callback reads and writes. *)
Record CbState : Type := mkCbState {
  soil_buffer : list Q;
  sampling_active : bool;
  config_params : gmap string cfg_value
}.

Definition set_config (k : string) (v : cfg_value) (st : CbState) : CbState :=
  mkCbState (soil_buffer st) (sampling_active st) (<[k:=v]> (config_params st)).

Section Callback.
(** String functions of the runtime: [int(s)] and [float(s)] ([None]:
    [ValueError]), [s.lower()], [s.split('-')].  The payload [msg_str] is
    the decoded, stripped message. *)
Variable py_int : string -> option Z.
Variable py_float : string -> option Q.
Variable str_lower : string -> string.
Variable str_split_dash : string -> list string.

(** [sub_cb], without its log lines.  In the four numeric branches the
    assignment [config_params[...] = value] comes before the conditional
    expression that only chooses which line is logged. *)
Definition sub_cb (topic_str msg_str : string) (st : CbState) : CbState :=
  if String.eqb topic_str TOPIC_SOIL_SUB then
    if sampling_active st then
      match py_float msg_str with
      | Some v =>
          mkCbState (soil_buffer st ++ [v]) (sampling_active st)
            (config_params st)
      | None => st
      end
    else st
  else if String.eqb topic_str TOPIC_CONFIG_CROP then
    let crop_name := str_lower msg_str in
    match crop_kc_profile !! crop_name with
    | Some _ => set_config "crop" (VStr crop_name) st
    | None => st
    end
  else if String.eqb topic_str TOPIC_CONFIG_PLANTING_DATE then
    match str_split_dash msg_str with
    | [a; b; c] =>
        match py_int a, py_int b, py_int c with
        | Some y, Some m, Some d =>
            if ((1 <=? m) && (m <=? 12) && (1 <=? d) && (d <=? 31))%Z
            then set_config "planting_date" (VStr msg_str) st
            else st
        | _, _, _ => st
        end
    | _ => st
    end
  else if String.eqb topic_str TOPIC_CONFIG_PLANTS_NUMBER then
    match py_int msg_str with
    | Some num => set_config "plants_number" (VInt num) st
    | None => st
    end
  else if String.eqb topic_str TOPIC_CONFIG_PLANTS_SPACING then
    match py_float msg_str with
    | Some spacing => set_config "plant_spacing_cm" (VFloat spacing) st
    | None => st
    end
  else if String.eqb topic_str TOPIC_CONFIG_ROW_SPACING then
    match py_float msg_str with
    | Some spacing => set_config "row_spacing_cm" (VFloat spacing) st
    | None => st
    end
  else if String.eqb topic_str TOPIC_CONFIG_PUMP_FLOWRATE then
    match py_float msg_str with
    | Some flow => set_config "pump_flow_lph" (VFloat flow) st
    | None => st
    end
  else st.

(** The completeness check of [wait_for_configuration]:
    [not (required_configs - set(config_params.keys()))]. *)
Definition config_complete (st : CbState) : bool :=
  bool_decide (required_configs ∖ dom (config_params st) = ∅).

(** What one [client.check_msg()] does. *)
Inductive poll : Type :=
| NoMessage
| Message (topic_str msg_str : string)
| PollOSError.

(** [wait_for_configuration]: one list element per loop iteration; the
    end of the list is the timeout. *)
Fixpoint wait_for_configuration (polls : list poll) (st : CbState)
  : bool * CbState :=
  if config_complete st then (true, st)
  else
    match polls with
    | [] => (false, st)
    | NoMessage :: rest => wait_for_configuration rest st
    | Message t m :: rest => wait_for_configuration rest (sub_cb t m st)
    | PollOSError :: _ => (false, st)
    end.
(** The soil-sampling window of the daily rollover: the flag is raised, the
    buffer cleared, [check_msg] is called once per list element, and the
    flag is lowered.  An [OSError] lowers the flag and leaves the loop. *)
Fixpoint sampling_loop (polls : list poll) (st : CbState) : CbState :=
  match polls with
  | [] => st
  | NoMessage :: rest => sampling_loop rest st
  | Message t m :: rest => sampling_loop rest (sub_cb t m st)
  | PollOSError :: _ =>
      mkCbState (soil_buffer st) false (config_params st)
  end.

Definition sampling_window (polls : list poll) (st : CbState) : CbState :=
  let st1 := mkCbState [] true (config_params st) in
  let st2 := sampling_loop polls st1 in
  mkCbState (soil_buffer st2) false (config_params st2).

(** [check_msg] calls of the main loop outside the window. *)
Fixpoint deliver (polls : list poll) (st : CbState) : CbState :=
  match polls with
  | [] => st
  | Message t m :: rest => deliver rest (sub_cb t m st)
  | _ :: rest => deliver rest st
  end.
End Callback.

(** *** Irrigation calculator *)

Local Open Scope Q_scope.

Definition FC_PCT_DEFAULT : Q := 42.0.
Definition PWP_PCT_DEFAULT : Q := 15.0.

(** [vwc_pct] is [None] for Python's [None]. *)
Definition soil_available_water_depth (vwc_pct : option Q)
  (rz_depth_mm fc_pct pwp_pct : Q) : Q :=
  match vwc_pct with
  | None => 0
  | Some vwc =>
      let theta := vwc / 100.0 in
      let fc := fc_pct / 100.0 in
      let pwp := pwp_pct / 100.0 in
      let rz := rz_depth_mm in
      if Qle_bool fc pwp then 0
      else
        let taw_fraction := fc - pwp in
        let taw_mm := taw_fraction * rz in
        let current_water_above_pwp_fraction := Qmax 0 (theta - pwp) in
        let current_water_above_pwp_mm :=
          current_water_above_pwp_fraction * rz in
        let available_mm := Qmin current_water_above_pwp_mm taw_mm in
        round2 available_mm
  end%Q.

(** [avail_mm] is a parameter of the function and is not read. *)
Definition irrigation_time (Kc ET0 avail_mm area_m2 flow_lph : Q) : Q * Q :=
  let ETc := ET0 * Kc in
  let req_mm := Qmax 0 ETc in
  let req_liters := (req_mm / 1000.0) * area_m2 * 1000.0 in
  if Qle_bool flow_lph 0 then (0, ETc)
  else
    let time_seconds :=
      if Qlt_bool 0 req_liters then (req_liters / flow_lph) * 3600.0 else 0 in
    (time_seconds, ETc).

(** *** Daily ET0 update (step 4 of the daily rollover) *)

(** What a prediction function may return: a number or anything else. *)
Inductive pyobj : Type :=
| Num (q : Q)
| NonNum.

Record WeatherState : Type := mkWeatherState {
  last_tmax : option Q;
  last_rh : option Q;
  last_energy : option Q;
  last_et0 : Q
}.

Definition initial_weather : WeatherState :=
  mkWeatherState None None None 0.

Definition set_et0 (e : Q) (w : WeatherState) : WeatherState :=
  mkWeatherState (last_tmax w) (last_rh w) (last_energy w) e.

(** [weather_data_tuple] is [None] when [fetch_weather] failed. *)
Definition daily_et0_update
  (predict_function : option (list Q -> result pyobj))
  (weather_data_tuple : option (Q * Q * Q)) (w : WeatherState)
  : WeatherState :=
  match weather_data_tuple with
  | Some (tmax, rh, energy) =>
      let w1 := mkWeatherState (Some tmax) (Some rh) (Some energy)
                  (last_et0 w) in
      match predict_function with
      | Some f =>
          match f [tmax; rh; energy] with
          | Ok (Num e) => set_et0 e w1
          | Ok NonNum => set_et0 0 w1
          | Raise _ => w1
          end
      | None => set_et0 0 w1
      end
  | None =>
      match last_tmax w with
      | None => set_et0 0 w
      | Some _ => w
      end
  end.

(** Step 5: the values handed to the irrigation calculator. *)
Definition daily_need (mean_vwc : option Q) (rz_mm Kc_today total_area_m2
  pump_flow_lph : Q) (w : WeatherState) : Q * Q * Q :=
  match mean_vwc with
  | None => (0, 0, 0)
  | Some _ =>
      let avail_mm :=
        soil_available_water_depth mean_vwc rz_mm FC_PCT_DEFAULT
          PWP_PCT_DEFAULT in
      let '(pump_time_s, etc_val) :=
        irrigation_time Kc_today (last_et0 w) avail_mm total_area_m2
          pump_flow_lph in
      (avail_mm, pump_time_s, etc_val)
  end.

(** *** Pump state *)

Inductive command : Type := PUMP_ON | PUMP_OFF.

Record PumpState : Type := mkPumpState {
  pump_running : bool;
  pump_start_time : Q;
  current_pump_run_duration : Q
}.

Definition initial_pump : PumpState := mkPumpState false 0 0.

(** A publish attempt on the pump topic and whether [publish_message]
    returned [True]. *)
Definition attempt : Type := command * bool.

(** Step 6 of the daily rollover.  [now] is the value of [time.time()] read
    after a successful PUMP_ON publish; [pub_ok] is the outcome of the one
    publish this step may make. *)
Definition daily_pump_decision (pump_time_s now : Q) (pub_ok : bool)
  (p : PumpState) : PumpState * list attempt :=
  if Qlt_bool 0.5 pump_time_s then
    if negb (pump_running p) then
      if pub_ok
      then (mkPumpState true now pump_time_s, [(PUMP_ON, pub_ok)])
      else (mkPumpState false (pump_start_time p) 0, [(PUMP_ON, pub_ok)])
    else (mkPumpState (pump_running p) (pump_start_time p) pump_time_s, [])
  else
    if pump_running p then
      if pub_ok
      then (mkPumpState false (pump_start_time p) 0, [(PUMP_OFF, pub_ok)])
      else (p, [(PUMP_OFF, pub_ok)])
    else (mkPumpState false (pump_start_time p) 0, []).

(** The pump OFF check made in every loop iteration. *)
Definition pump_off_check (now : Q) (pub_ok : bool) (p : PumpState)
  : PumpState * list attempt :=
  if pump_running p then
    let elapsed_time := now - pump_start_time p in
    if Qle_bool (current_pump_run_duration p) elapsed_time then
      if pub_ok
      then (mkPumpState false (pump_start_time p) 0, [(PUMP_OFF, pub_ok)])
      else (p, [(PUMP_OFF, pub_ok)])
    else (p, [])
  else (p, []).

(** One iteration of the main loop, as far as the pump is concerned. *)
Record TickInput : Type := mkTick {
  (** [Some pump_time_s] when the date rolled over in this iteration *)
  rollover : option Q;
  decision_time : Q;
  decision_pub_ok : bool;
  check_time : Q;
  check_pub_ok : bool
}.

Inductive tick_kind : Type :=
| Skipped            (** MQTT reconnect failed: [continue] *)
| Ran (i : TickInput).

Definition tick (k : tick_kind) (p : PumpState) : PumpState * list attempt :=
  match k with
  | Skipped => (p, [])
  | Ran i =>
      let '(p1, c1) :=
        match rollover i with
        | Some pump_time_s =>
            daily_pump_decision pump_time_s (decision_time i)
              (decision_pub_ok i) p
        | None => (p, [])
        end in
      let '(p2, c2) := pump_off_check (check_time i) (check_pub_ok i) p1 in
      (p2, c1 ++ c2)
  end.

(** The loop over a finite prefix of iterations: the final pump state and
    the publish attempts of each iteration, in order. *)
Fixpoint run (ticks : list tick_kind) (p : PumpState)
  : PumpState * list (list attempt) :=
  match ticks with
  | [] => (p, [])
  | k :: rest =>
      let '(p1, c) := tick k p in
      let '(p2, cs) := run rest p1 in
      (p2, c :: cs)
  end.

(** *** Remaining pump time (published every iteration) *)

Definition remaining_time (now : Q) (p : PumpState) : Q :=
  if pump_running p then
    let elapsed_time := now - pump_start_time p in
    Qmax 0.0 (current_pump_run_duration p - elapsed_time)
  else 0.0.

(** *** Steps 4 to 6 of the daily rollover, in order *)

Definition daily_steps_4_to_6
  (predict_function : option (list Q -> result pyobj))
  (weather_data_tuple : option (Q * Q * Q))
  (mean_vwc : option Q) (rz_mm Kc_today total_area_m2 pump_flow_lph : Q)
  (now : Q) (pub_ok : bool) (w : WeatherState) (p : PumpState)
  : WeatherState * (Q * Q * Q) * PumpState * list attempt :=
  let w1 := daily_et0_update predict_function weather_data_tuple w in
  let need := daily_need mean_vwc rz_mm Kc_today total_area_m2 pump_flow_lph w1 in
  let '(_, pump_time_s, _) := need in
  let '(p1, c) := daily_pump_decision pump_time_s now pub_ok p in
  (w1, need, p1, c).

(** *** Solar energy (the arithmetic at the end of [fetch_weather]) *)

Definition WH_TO_MJ : Q := 0.0036.

(** [clouds] is the cloud cover in percent and [N] the potential daylight
    hours. *)
Definition solar_energy (clouds N : Q) : Q :=
  let F := Qmin 1 (Qmax 0 (clouds / 100)) in
  let P := 990 * (1 - 0.75 * (F ^ 3)) in
  let E_wh_m2 := P * N in
  round2 (E_wh_m2 * WH_TO_MJ).

(** *** Processing the received configuration (section 8 of the script) *)

Record Derived : Type := mkDerived {
  crop : string;
  planting : Z * Z * Z;
  days : Z;
  Kc_today : Q;
  rz_mm : Q;
  total_area_m2 : Q;
  pump_flow_lph : cfg_value;
  n_plants : Q
}.

(** A configuration value used in arithmetic; a string raises. *)
Definition as_number (v : cfg_value) : option Q :=
  match v with
  | VInt n => Some (inject_Z n)
  | VFloat q => Some q
  | VStr _ => None
  end.

Definition as_string (v : cfg_value) : option string :=
  match v with
  | VStr s => Some s
  | _ => None
  end.

Section Startup.
Variable mktime : Z * Z * Z * Z * Z * Z * Z * Z -> option Z.
Variable localtime : Z * Z * Z * Z * Z * Z * Z * Z.
Variable py_int : string -> option Z.
Variable str_split_dash : string -> list string.

(** [Y, Mo, Da = map(int, planting_date_str.split('-'))]. *)
Definition parse_planting_date (planting_date_str : string)
  : option (Z * Z * Z) :=
  match str_split_dash planting_date_str with
  | [a; b; c] =>
      match py_int a, py_int b, py_int c with
      | Some Y, Some Mo, Some Da => Some (Y, Mo, Da)
      | _, _, _ => None
      end
  | _ => None
  end.

(** The [try] block that reads the configuration.  All three [except]
    branches log and raise [SystemExit]: [None]. *)
Definition process_configuration (config_params : gmap string cfg_value)
  : option Derived :=
  match config_params !! "crop"%string,
        config_params !! "planting_date"%string,
        config_params !! "plants_number"%string,
        config_params !! "plant_spacing_cm"%string,
        config_params !! "row_spacing_cm"%string,
        config_params !! "pump_flow_lph"%string with
  | Some crop_v, Some date_v, Some n_v, Some ps_v, Some rs_v, Some flow_v =>
      match as_string date_v with
      | None => None
      | Some planting_date_str =>
          match parse_planting_date planting_date_str with
          | None => None
          | Some (Y, Mo, Da) =>
              let days := get_days_after_planting mktime localtime Y Mo Da in
              if (days =? -1)%Z then None
              else
                match as_string crop_v with
                | None => None
                | Some crop =>
                    match crop_kc_profile !! crop, crop_root_profile !! crop with
                    | Some kc_prof, Some root_prof =>
                        let Kc_today := linear_interpolate days kc_prof in
                        let rz_m := linear_interpolate days root_prof in
                        let rz_mm := rz_m * 1000.0 in
                        match as_number ps_v, as_number rs_v, as_number n_v with
                        | Some ps_cm, Some rs_cm, Some n_plants =>
                            let area_per_plant_m2 :=
                              (ps_cm / 100.0) * (rs_cm / 100.0) in
                            let total_area_m2 := area_per_plant_m2 * n_plants in
                            Some (mkDerived crop (Y, Mo, Da) days Kc_today
                                    rz_mm total_area_m2 flow_v n_plants)
                        | _, _, _ => None
                        end
                    | _, _ => None
                    end
                end
          end
      end
  | _, _, _, _, _, _ => None
  end.
End Startup.

End Main.

(** ** [main5.py]: the interactive-setup control script *)

Module Main5.
Import Py.

(** *** Interpolation *)

(** The loop of [linear_interpolate]: no guard on [d1 - d0], so the
    division can raise. *)
Fixpoint scan_brackets (day : Z) (pairs : list ((Z * Q) * (Z * Q)))
  : result (option Q) :=
  match pairs with
  | [] => Ok None
  | ((d0, v0), (d1, v1)) :: rest =>
      if ((d0 <=? day) && (day <=? d1))%Z
      then
        if (d1 - d0 =? 0)%Z then Raise ZeroDivisionError
        else
          Ok (Some (v0 + (v1 - v0) * inject_Z (day - d0) / inject_Z (d1 - d0))%Q)
      else scan_brackets day rest
  end.

(** [profile[0]] raises [IndexError] on an empty profile. *)
Definition linear_interpolate (day : Z) (prof : Main.profile) : result Q :=
  match prof with
  | [] => Raise IndexError
  | first :: _ =>
      if (day <=? fst first)%Z then Ok (snd first)
      else
        let final := List.last prof first in
        if (day >=? fst final)%Z then Ok (snd final)
        else
          let* r := scan_brackets day (combine prof (tail prof)) in
          match r with
          | Some v => Ok v
          | None => Ok (snd final)
          end
  end.

(** *** Day clock *)

Section DayClock.
Variable mktime : Z * Z * Z * Z * Z * Z * Z * Z -> option Z.
Variable localtime : Z * Z * Z * Z * Z * Z * Z * Z.

(** Both [except] branches return 0. *)
Definition get_days_after_planting (Y M D : Z) : Z :=
  match mktime (Y, M, D, 0, 0, 0, 0, 0)%Z with
  | None => 0%Z
  | Some sow =>
      match mktime localtime with
      | None => 0%Z
      | Some now => Z.max 0 ((now - sow) / 86400)
      end
  end.

(** The planting-date prompt of the interactive setup accepts a date only
    when month and day are in range and [time.mktime] does not raise. *)
Definition planting_date_accepted (Y Mo Da : Z) : bool :=
  ((1 <=? Mo) && (Mo <=? 12) && (1 <=? Da) && (Da <=? 31))%Z
  && bool_decide (is_Some (mktime (Y, Mo, Da, 0, 0, 0, 0, 0)%Z)).
End DayClock.

Local Open Scope Q_scope.

(** The nursery prompt loops until all four numbers are positive. *)
Definition nursery_inputs_accepted (n_plants : Z) (ps_cm rs_cm pump_flow_lph : Q)
  : bool :=
  negb (n_plants <=? 0)%Z && negb (Qle_bool ps_cm 0)
  && negb (Qle_bool rs_cm 0) && negb (Qle_bool pump_flow_lph 0).

(** *** Irrigation calculator *)

Definition FC_PCT_DEFAULT : Q := 42.0.
Definition PWP_PCT_DEFAULT : Q := 15.0.

Definition soil_available_water_depth (vwc_pct : option Q)
  (rz_depth_mm fc_pct pwp_pct : Q) : Q :=
  match vwc_pct with
  | None => 0
  | Some vwc_pct =>
      if Qle_bool rz_depth_mm 0 then 0
      else
        let theta := vwc_pct / 100.0 in
        let fc := fc_pct / 100.0 in
        let pwp := pwp_pct / 100.0 in
        if Qle_bool fc pwp then 0
        else
          let taw_fraction := fc - pwp in
          let taw_mm := taw_fraction * rz_depth_mm in
          let current_water_above_pwp_fraction := Qmax 0.0 (theta - pwp) in
          let current_water_above_pwp_mm :=
            current_water_above_pwp_fraction * rz_depth_mm in
          let available_mm := Qmin current_water_above_pwp_mm taw_mm in
          round2 available_mm
  end.

Definition irrigation_time (Kc ET0 area_m2 flow_lph : Q) : Q * Q :=
  let ET0 := if Qlt_bool ET0 0 then 0.0 else ET0 in
  let Kc := if Qlt_bool Kc 0 then 0.0 else Kc in
  let ETc := ET0 * Kc in
  let req_mm := Qmax 0.0 ETc in
  let req_liters := req_mm * area_m2 in
  if Qle_bool flow_lph 0 then (0.0, ETc)
  else
    let time_seconds :=
      if Qlt_bool 0 req_liters then (req_liters / flow_lph) * 3600.0 else 0.0 in
    (time_seconds, ETc).

(** *** Daily ET0 update (step 4 of the daily rollover) *)

(** [raw_et0 = mlp_model.predict_et0(features)] followed by the formatted
    print and [last_et0 = max(0.0, raw_et0)]; anything that is not a number
    makes the print raise, and the [except] branch keeps the previous
    value. *)
Definition predict_and_clamp (predict_et0 : list Q -> result Main.pyobj)
  (features : list Q) (w : Main.WeatherState) : Main.WeatherState :=
  match predict_et0 features with
  | Ok (Main.Num raw_et0) => Main.set_et0 (Qmax 0.0 raw_et0) w
  | Ok Main.NonNum => w
  | Raise _ => w
  end.

Definition daily_et0_update (predict_et0 : list Q -> result Main.pyobj)
  (weather_data_tuple : option (Q * Q * Q)) (w : Main.WeatherState)
  : Main.WeatherState :=
  match weather_data_tuple with
  | Some (tmax, rh, energy) =>
      let w1 := Main.mkWeatherState (Some tmax) (Some rh) (Some energy)
                  (Main.last_et0 w) in
      predict_and_clamp predict_et0 [tmax; rh; energy] w1
  | None =>
      match Main.last_tmax w, Main.last_rh w, Main.last_energy w with
      | Some tmax, Some rh, Some energy =>
          predict_and_clamp predict_et0 [tmax; rh; energy] w
      | _, _, _ => Main.set_et0 0.0 w
      end
  end.

(** Step 5: the values handed to the irrigation calculator. *)
Definition daily_need (mean_vwc : option Q) (rz_mm Kc_today total_area_m2
  pump_flow_lph : Q) (w : Main.WeatherState) : Q * Q * Q :=
  match mean_vwc with
  | None => (0, 0, 0)
  | Some _ =>
      let avail_mm :=
        soil_available_water_depth mean_vwc rz_mm FC_PCT_DEFAULT
          PWP_PCT_DEFAULT in
      let '(pump_time_s, etc_val) :=
        irrigation_time Kc_today (Main.last_et0 w) total_area_m2
          pump_flow_lph in
      (avail_mm, pump_time_s, etc_val)
  end.

(** *** Pump state *)

(** Step 6 of the daily rollover: the threshold is one second, a failed
    PUMP_ON leaves the state as it is, and a pump that is already running
    keeps its target. *)
Definition daily_pump_decision (pump_time_s now : Q) (pub_ok : bool)
  (p : Main.PumpState) : Main.PumpState * list Main.attempt :=
  if Qlt_bool 1.0 pump_time_s then
    if negb (Main.pump_running p) then
      if pub_ok
      then (Main.mkPumpState true now pump_time_s, [(Main.PUMP_ON, pub_ok)])
      else (p, [(Main.PUMP_ON, pub_ok)])
    else (p, [])
  else
    if Main.pump_running p then
      if pub_ok
      then (Main.mkPumpState false (Main.pump_start_time p) 0.0,
            [(Main.PUMP_OFF, pub_ok)])
      else (p, [(Main.PUMP_OFF, pub_ok)])
    else (p, []).

(** The pump OFF check made in every loop iteration. *)
Definition pump_off_check (now : Q) (pub_ok : bool) (p : Main.PumpState)
  : Main.PumpState * list Main.attempt :=
  if Main.pump_running p then
    let elapsed_time := now - Main.pump_start_time p in
    if Qle_bool (Main.current_pump_run_duration p) elapsed_time then
      if pub_ok
      then (Main.mkPumpState false (Main.pump_start_time p) 0.0,
            [(Main.PUMP_OFF, pub_ok)])
      else (p, [(Main.PUMP_OFF, pub_ok)])
    else (p, [])
  else (p, []).

(** *** Solar energy (the arithmetic at the end of [fetch_weather]) *)

Definition solar_energy (clouds N : Q) : Q :=
  let F := Qmin 1 (Qmax 0 (clouds / 100)) in
  let P := 990 in
  let E_wh_m2 := P * (1 - 0.75 * (F ^ 3)) * N / 12 in
  round2 (E_wh_m2 * Main.WH_TO_MJ).

End Main5.

(** ** The soil functions in floating point

    The two [soil_available_water_depth] and the soil sampling of
    [main5.py] once more, with the runtime's arithmetic: [fl] rounds the
    exact result of an operation to a float (so [float(x)] is [fl x]),
    [round2] is the runtime's [round(x, 2)], and a parsed payload may be an
    infinity or NaN. *)

Module MainFloat.
Import Py.
Local Open Scope Q_scope.

Section Rounded.
Variable fl : Q -> Q.
Variable round2 : Q -> Q.

Definition soil_available_water_depth (vwc_pct : option Q)
  (rz_depth_mm fc_pct pwp_pct : Q) : Q :=
  match vwc_pct with
  | None => 0.0
  | Some vwc =>
      let theta := fl (fl vwc / 100.0) in
      let fc := fl (fl fc_pct / 100.0) in
      let pwp := fl (fl pwp_pct / 100.0) in
      let rz := fl rz_depth_mm in
      if Qle_bool fc pwp then 0.0
      else
        let taw_fraction := fl (fc - pwp) in
        let taw_mm := fl (taw_fraction * rz) in
        let current_water_above_pwp_fraction := Qmax 0 (fl (theta - pwp)) in
        let current_water_above_pwp_mm :=
          fl (current_water_above_pwp_fraction * rz) in
        let available_mm := Qmin current_water_above_pwp_mm taw_mm in
        round2 available_mm
  end.

End Rounded.
End MainFloat.

Module Main5Float.
Import Py Fp.
Local Open Scope Q_scope.

Record CbState : Type := mkCbState {
  soil_buffer : list pyfloat;
  sampling_active : bool
}.

Section Rounded.
Variable fl : Q -> Q.
Variable fmax : Q.
Variable round2 : Q -> Q.
(** [float(s)]: [None] is [ValueError]; the strings "nan" and "inf" parse. *)
Variable py_float : string -> option pyfloat.

Definition soil_available_water_depth (vwc_pct : option Q)
  (rz_depth_mm fc_pct pwp_pct : Q) : Q :=
  match vwc_pct with
  | None => 0.0
  | Some vwc_pct =>
      let vwc_pct := fl vwc_pct in
      let rz_depth_mm := fl rz_depth_mm in
      let fc_pct := fl fc_pct in
      let pwp_pct := fl pwp_pct in
      if Qle_bool rz_depth_mm 0 then 0.0
      else
        let theta := fl (vwc_pct / 100.0) in
        let fc := fl (fc_pct / 100.0) in
        let pwp := fl (pwp_pct / 100.0) in
        if Qle_bool fc pwp then 0.0
        else
          let taw_fraction := fl (fc - pwp) in
          let taw_mm := fl (taw_fraction * rz_depth_mm) in
          let current_water_above_pwp_fraction :=
            Qmax 0.0 (fl (theta - pwp)) in
          let current_water_above_pwp_mm :=
            fl (current_water_above_pwp_fraction * rz_depth_mm) in
          let available_mm := Qmin current_water_above_pwp_mm taw_mm in
          round2 available_mm
  end.

(** [sub_cb]: only soil readings with [0.0 <= vwc <= 100.0] are kept; the
    comparison is false for NaN. *)
Definition sub_cb (topic_str msg_str : string) (st : CbState) : CbState :=
  if String.eqb topic_str Main.TOPIC_SOIL_SUB && sampling_active st then
    match py_float msg_str with
    | Some vwc =>
        if le (Finite 0.0) vwc && le vwc (Finite 100.0)
        then mkCbState (soil_buffer st ++ [vwc]) (sampling_active st)
        else st
    | None => st
    end
  else st.

(** The sampling window; on [OSError] the client is dropped and the loop
    left. *)
Fixpoint sampling_loop (polls : list Main.poll) (st : CbState) : CbState :=
  match polls with
  | [] => st
  | Main.NoMessage :: rest => sampling_loop rest st
  | Main.Message t m :: rest => sampling_loop rest (sub_cb t m st)
  | Main.PollOSError :: _ => st
  end.

Definition sampling_window (polls : list Main.poll) (st : CbState) : CbState :=
  let st1 := mkCbState [] true in
  let st2 := sampling_loop polls st1 in
  mkCbState (soil_buffer st2) false.

(** [sum(soil_buffer)]: additions from the left, starting from 0. *)
Definition py_sum (l : list pyfloat) : pyfloat :=
  fold_left (add fl fmax) l (Finite 0).

(** [x / n] for a float [x] and the length [n > 0] of a list. *)
Definition div_len (x : pyfloat) (n : nat) : pyfloat :=
  match x with
  | Finite s => of_exact fl fmax (s / fl (inject_Z (Z.of_nat n)))
  | PosInf => PosInf
  | NegInf => NegInf
  | NaN => NaN
  end.

(** Step 2 of the daily rollover: the new value of [mean_vwc]. *)
Definition daily_mean_vwc (soil_buffer : list pyfloat)
  (mean_vwc : option pyfloat) : option pyfloat :=
  match soil_buffer with
  | _ :: _ => Some (div_len (py_sum soil_buffer) (length soil_buffer))
  | [] =>
      match mean_vwc with
      | Some previous => Some previous
      | None => Some (Finite 25.0)
      end
  end.

(** Steps 1 and 2 of a daily rollover, from the value [mean_vwc] had
    before it. *)
Definition daily_steps_1_to_2 (mean_vwc : option pyfloat)
  (polls : list Main.poll) : option pyfloat :=
  daily_mean_vwc
    (soil_buffer (sampling_window polls (mkCbState [] false))) mean_vwc.

End Rounded.
End Main5Float.

(** ** The soil functions in plain terms *)

Module FloatSpec.
Import Fp.
Local Open Scope Q_scope.

(** The total available water as both scripts compute it:
    [(fc_pct / 100.0 - pwp_pct / 100.0) * rz_depth_mm], each operation
    rounded. *)
Definition total_available_water (fl : Q -> Q) (rz_depth_mm fc_pct pwp_pct : Q)
  : Q :=
  fl (fl (fl (fl fc_pct / 100.0) - fl (fl pwp_pct / 100.0)) * fl rz_depth_mm).

(** A float between 0 and 100. *)
Definition percentage (v : pyfloat) : Prop :=
  exists q, v = Finite q /\ 0 <= q <= 100.

End FloatSpec.


(** ** Interpolation in the words of the specification *)

Module InterpolationSpec.

(** Days strictly increasing along the list. *)
Fixpoint increasing (ds : list Z) : bool :=
  match ds with
  | [] => true
  | a :: rest =>
      match rest with
      | [] => true
      | b :: _ => (a <? b)%Z && increasing rest
      end
  end.

Definition sorted_by_day (prof : Main.profile) : bool :=
  increasing (map fst prof).

(** The pairs of neighbouring control points. *)
Definition neighbours (prof : Main.profile) : list ((Z * Q) * (Z * Q)) :=
  combine prof (tail prof).

(** [v0 + (v1-v0)*(day-d0)/(d1-d0)]. *)
Definition on_segment (day : Z) (p0 p1 : Z * Q) : Q :=
  (snd p0
   + (snd p1 - snd p0) * inject_Z (day - fst p0) / inject_Z (fst p1 - fst p0))%Q.

Definition first_point (prof : Main.profile) : Z * Q := hd (0%Z, 0%Q) prof.
Definition last_point (prof : Main.profile) : Z * Q :=
  List.last prof (0%Z, 0%Q).

Definition example_profile : Main.profile :=
  [(0%Z, 0.7%Q); (15%Z, 0.7%Q); (21%Z, 0.8%Q)].


End InterpolationSpec.

(** ** The irrigation calculator in the words of the specification *)

Module IrrigationSpec.
Local Open Scope Q_scope.

(** [min(max(0, vwc/100 - pwp/100) * rz, (fc/100 - pwp/100) * rz)], the
    value that is rounded when the soil parameters make sense. *)
Definition water_above_pwp (vwc rz fc pwp : Q) : Q :=
  Qmin (Qmax 0 (vwc / 100 - pwp / 100) * rz) ((fc / 100 - pwp / 100) * rz).

(** [irrigation_time] with both inputs clamped first. *)
Definition clamped_etc (kc et0 : Q) : Q := Qmax 0 et0 * Qmax 0 kc.

Definition irrigation_seconds (kc et0 area_m2 flow_lph : Q) : Q :=
  let required_liters := clamped_etc kc et0 * area_m2 in
  if Qle_bool flow_lph 0 then 0
  else if Py.Qlt_bool 0 required_liters
       then (required_liters / flow_lph) * 3600
       else 0.

End IrrigationSpec.

(** The perceptron as the prediction function of the control scripts. *)
Definition model_predict (features : list Q) : Py.result Main.pyobj :=
  match MLP.predict_et0 features with
  | Py.Ok e => Py.Ok (Main.Num e)
  | Py.Raise e => Py.Raise e
  end.

(** ** Stand-ins for the runtime, used in the worked examples

    The theorems quantify over the runtime functions; the examples need
    concrete ones.  These cover plain decimal integers, lower-case ASCII
    and a calendar of 31-day months, which is all the examples use. *)

Module Runtime.

Definition digit (c : Ascii.ascii) : option Z :=
  let n := Ascii.nat_of_ascii c in
  if ((48 <=? n) && (n <=? 57))%nat then Some (Z.of_nat (n - 48)) else None.

Fixpoint digits (s : string) (acc : Z) : option Z :=
  match s with
  | String.EmptyString => Some acc
  | String.String c rest =>
      match digit c with
      | Some d => digits rest (10 * acc + d)%Z
      | None => None
      end
  end.

(** [int(s)] on an optional minus sign followed by decimal digits. *)
Definition dec_int (s : string) : option Z :=
  match s with
  | String.EmptyString => None
  | String.String c rest =>
      if Ascii.eqb c "-"%char then
        match rest with
        | String.EmptyString => None
        | _ => option_map Z.opp (digits rest 0)
        end
      else digits s 0
  end.

(** [float(s)] on the same strings. *)
Definition dec_float (s : string) : option Q := option_map inject_Z (dec_int s).

(** [s.lower()] on strings that are already lower case. *)
Definition lower_id (s : string) : string := s.

(** [s.split('-')]. *)
Fixpoint split_dash (s : string) : list string :=
  match s with
  | String.EmptyString => [String.EmptyString]
  | String.String c rest =>
      if Ascii.eqb c "-"%char then String.EmptyString :: split_dash rest
      else
        match split_dash rest with
        | [] => [String.String c String.EmptyString]
        | h :: t => String.String c h :: t
        end
  end.

(** A [time.mktime] that never raises: seconds since year 0 in a calendar
    of twelve 31-day months. *)
Definition flat_mktime (t : Z * Z * Z * Z * Z * Z * Z * Z) : option Z :=
  let '(Y, M, D, h, mi, s, _, _) := t in
  Some (86400 * (372 * Y + 31 * (M - 1) + (D - 1)) + 3600 * h + 60 * mi + s)%Z.

(** A [time.mktime] that raises on every tuple. *)
Definition failing_mktime (t : Z * Z * Z * Z * Z * Z * Z * Z) : option Z := None.

(** [time.localtime()] on 2024-04-28 at 06:30:00. *)
Definition example_localtime : Z * Z * Z * Z * Z * Z * Z * Z :=
  (2024, 4, 28, 6, 30, 0, 6, 119)%Z.

(** The callback state when the configuration phase starts. *)
Definition example_configuring : Main.CbState :=
  Main.mkCbState [] false ∅.

(** Six configuration messages, every number zero or negative. *)
Definition example_bad_configuration : list Main.poll :=
  [ Main.Message Main.TOPIC_CONFIG_CROP "onion";
    Main.NoMessage;
    Main.Message Main.TOPIC_CONFIG_PLANTING_DATE "2024-04-15";
    Main.Message Main.TOPIC_CONFIG_PLANTS_NUMBER "-5";
    Main.Message Main.TOPIC_CONFIG_PLANTS_SPACING "0";
    Main.Message Main.TOPIC_CONFIG_ROW_SPACING "-30";
    Main.Message Main.TOPIC_CONFIG_PUMP_FLOWRATE "0" ].

(** [float(s)] on the payloads of the examples: "nan", "inf" and plain
    decimal integers. *)
Definition dec_pyfloat (s : string) : option Fp.pyfloat :=
  if String.eqb s "nan" then Some Fp.NaN
  else if String.eqb s "inf" then Some Fp.PosInf
  else option_map Fp.Finite (dec_float s).

(** A sampling window with a NaN, an infinite and an out-of-range reading
    among three good ones. *)
Definition example_window : list Main.poll :=
  [ Main.Message Main.TOPIC_SOIL_SUB "nan";
    Main.Message Main.TOPIC_SOIL_SUB "40";
    Main.NoMessage;
    Main.Message Main.TOPIC_SOIL_SUB "250";
    Main.Message Main.TOPIC_SOIL_SUB "inf";
    Main.Message Main.TOPIC_SOIL_SUB "60";
    Main.Message Main.TOPIC_SOIL_SUB "50" ].


End Runtime.

(** ** The day clock in the words of the specification *)

Module DayClockSpec.

(** Month in 1..12 and day in 1..31. *)
Definition in_range (M D : Z) : Prop := (1 <= M <= 12 /\ 1 <= D <= 31)%Z.

End DayClockSpec.

(** ** Soil sampling in plain terms *)

Module SamplingSpec.

(** The readings a sampling window keeps: the payloads of the soil-topic
    messages that parse as numbers, in order of arrival, up to the first
    connection error. *)
Fixpoint soil_readings (py_float : string -> option Q) (polls : list Main.poll)
  : list Q :=
  match polls with
  | [] => []
  | Main.NoMessage :: rest => soil_readings py_float rest
  | Main.PollOSError :: _ => []
  | Main.Message t m :: rest =>
      if String.eqb t Main.TOPIC_SOIL_SUB then
        match py_float m with
        | Some v => v :: soil_readings py_float rest
        | None => soil_readings py_float rest
        end
      else soil_readings py_float rest
  end.

End SamplingSpec.

(** ** Well-formed configurations *)

Module ConfigSpec.

(** What the callback of [main.py] stores under each configuration key: a
    crop name that has a coefficient profile, a date string that parses to
    three integers with month and day in range, an integer, three floats. *)
Definition value_ok (py_int : string -> option Z)
    (str_split_dash : string -> list string)
    (k : string) (v : Main.cfg_value) : Prop :=
  if String.eqb k "crop" then
    exists c, v = Main.VStr c /\ is_Some (Main.crop_kc_profile !! c)
  else if String.eqb k "planting_date" then
    exists s Y M D,
      v = Main.VStr s
      /\ Main.parse_planting_date py_int str_split_dash s = Some (Y, M, D)
      /\ DayClockSpec.in_range M D
  else if String.eqb k "plants_number" then exists n, v = Main.VInt n
  else if String.eqb k "plant_spacing_cm" then exists q, v = Main.VFloat q
  else if String.eqb k "row_spacing_cm" then exists q, v = Main.VFloat q
  else if String.eqb k "pump_flow_lph" then exists q, v = Main.VFloat q
  else True.

Definition cfg_ok (py_int : string -> option Z)
    (str_split_dash : string -> list string)
    (m : gmap string Main.cfg_value) : Prop :=
  map_Forall (value_ok py_int str_split_dash) m.

End ConfigSpec.

(** ** The pump timer in the words of the specification *)

Module PumpSpec.
Import Main.
Local Open Scope Q_scope.

(** [running == true] implies [target_duration_s > 0]. *)
Definition target_positive (p : PumpState) : Prop :=
  pump_running p = true -> 0 < current_pump_run_duration p.

(** An iteration in which the date does not roll over. *)
Definition no_rollover (k : tick_kind) : Prop :=
  match k with
  | Skipped => True
  | Ran i => rollover i = None
  end.

(** An iteration without rollover whose pump check, if it is reached, still
    finds [elapsed < d] for a pump started at [t0]. *)
Definition before_target (t0 d : Q) (k : tick_kind) : Prop :=
  match k with
  | Skipped => True
  | Ran i => rollover i = None /\ check_time i - t0 < d
  end.

(** The first iteration whose pump check finds [elapsed >= d]; its publish
    succeeds. *)
Definition at_target (t0 d : Q) (i : TickInput) : Prop :=
  rollover i = None /\ d <= check_time i - t0 /\ check_pub_ok i = true.

(** A pump check at time [now] whose publish has outcome [ok], in an
    iteration without rollover. *)
Definition check_only (now : Q) (ok : bool) : tick_kind :=
  Ran (mkTick None 0 false now ok).

(** The pump as the relay sees it: on or off according to the last command
    that was delivered. *)
Fixpoint device_after (dev : bool) (l : list attempt) : bool :=
  match l with
  | [] => dev
  | (PUMP_ON, true) :: rest => device_after true rest
  | (PUMP_OFF, true) :: rest => device_after false rest
  | (_, false) :: rest => device_after dev rest
  end.

(** PUMP_ON is attempted only while the relay is off and PUMP_OFF only
    while it is on. *)
Fixpoint in_sync (dev : bool) (l : list attempt) : bool :=
  match l with
  | [] => true
  | (c, ok) :: rest =>
      match c with PUMP_ON => negb dev | PUMP_OFF => dev end
      && in_sync (device_after dev [(c, ok)]) rest
  end.


(** A step of the pump logic that keeps the controller's flag equal to the
    relay's state. *)
Definition tracks (step : PumpState -> PumpState * list attempt) : Prop :=
  forall p,
    in_sync (pump_running p) (snd (step p)) = true
    /\ pump_running (fst (step p))
       = device_after (pump_running p) (snd (step p)).

End PumpSpec.

(** * Properties *)

(** ** The Python helpers *)

Section PyLemmas.
Import Py.
Context {A : Type}.

Lemma getitem_nth (l : list A) (i : nat) (d : A) :
  (i < length l)%nat -> getitem l i = Ok (nth i l d).
Proof.
  intros Hi. unfold getitem.
  destruct (lookup_lt_is_Some_2 l i Hi) as [x Hx].
  rewrite Hx. f_equal. rewrite nth_lookup, Hx. reflexivity.
Qed.

Lemma setitem_app (l1 l2 : list A) (d x : A) :
  setitem (l1 ++ d :: l2) (length l1) x = Ok (l1 ++ x :: l2).
Proof.
  unfold setitem.
  assert (Hlt : (length l1 <? length (l1 ++ d :: l2))%nat = true).
  { apply Nat.ltb_lt. rewrite length_app. simpl. lia. }
  rewrite Hlt. f_equal.
  rewrite insert_app_r_alt by lia.
  rewrite Nat.sub_diag. reflexivity.
Qed.

(** A loop that writes [f i] into slot [i] of a list of [n] defaults
    builds [[f 0; ...; f (n-1)]]. *)
Lemma for_loop_fill (f : nat -> A) (body : nat -> list A -> result (list A))
  (d : A) (n : nat) :
  (forall i out, (i < n)%nat -> length out = n ->
                 body i out = setitem out i (f i)) ->
  forall m k, (k + m = n)%nat ->
    for_loop (seq k m) body (map f (seq 0 k) ++ repeat d m)
    = Ok (map f (seq 0 n)).
Proof.
  intros Hbody m. induction m as [|m IH]; intros k Hk.
  - simpl. rewrite app_nil_r. replace k with n by lia. reflexivity.
  - cbn [seq for_loop repeat].
    rewrite Hbody.
    + replace k with (length (map f (seq 0 k))) at 2
        by (rewrite length_map, length_seq; reflexivity).
      rewrite setitem_app. cbn [bind].
      specialize (IH (S k)).
      rewrite seq_S, map_app in IH. cbn [map] in IH.
      rewrite <- app_assoc in IH. apply IH. lia.
    + lia.
    + rewrite length_app, length_map, length_seq. simpl.
      rewrite repeat_length. lia.
Qed.

Lemma for_range_fill (f : nat -> A) (body : nat -> list A -> result (list A))
  (d : A) (n : nat) :
  (forall i out, (i < n)%nat -> length out = n ->
                 body i out = setitem out i (f i)) ->
  for_range n body (repeat d n) = Ok (map f (seq 0 n)).
Proof.
  intros Hbody. unfold for_range.
  apply (for_loop_fill f body d n Hbody n 0%nat). lia.
Qed.

Lemma comprehension_ok (g : nat -> result A) (h : nat -> A) (idx : list nat) :
  (forall j, In j idx -> g j = Ok (h j)) ->
  comprehension g idx = Ok (map h idx).
Proof.
  induction idx as [|j idx IH]; intros Hg; [reflexivity|].
  cbn [comprehension map]. rewrite Hg by (left; reflexivity).
  cbn [bind]. rewrite IH; [reflexivity|].
  intros j' Hj'. apply Hg. right. exact Hj'.
Qed.

Lemma map_nth_seq {B : Type} (g : A -> B) (l : list A) (d : A) :
  map (fun j => g (nth j l d)) (seq 0 (length l)) = map g l.
Proof.
  induction l as [|x l IH]; [reflexivity|].
  cbn [length seq map nth]. f_equal.
  rewrite <- seq_shift, map_map. exact IH.
Qed.
End PyLemmas.

(** ** The perceptron *)

Section Perceptron.
Import Py MLP MLPSpec.

Lemma standardize_all_nth (xs ms ss : list Q) :
  length xs = length ms -> length xs = length ss ->
  map (fun i => standardize (nth i xs 0%Q) (nth i ms 0%Q) (nth i ss 0%Q))
    (seq 0 (length xs))
  = standardize_all xs ms ss.
Proof.
  revert ms ss. induction xs as [|x xs IH]; intros ms ss Hm Hs.
  - reflexivity.
  - destruct ms as [|m ms]; [discriminate|].
    destruct ss as [|s ss]; [discriminate|].
    cbn [length seq map nth standardize_all]. f_equal.
    rewrite <- seq_shift, map_map. apply IH.
    + simpl in Hm. lia.
    + simpl in Hs. lia.
Qed.

Lemma scale_features_ok (raw means scales : list Q) :
  length raw = length means -> length raw = length scales ->
  scale_features raw means scales = Ok (standardize_all raw means scales).
Proof.
  intros Hm Hs. unfold scale_features.
  rewrite <- Hm, <- Hs, Nat.eqb_refl. cbn [negb orb].
  rewrite <- (standardize_all_nth raw means scales Hm Hs).
  apply for_range_fill. intros i out Hi Hout.
  rewrite (getitem_nth scales i 0%Q) by lia. cbn [bind].
  unfold standardize. destruct (Qeq_bool (nth i scales 0%Q) 0); [reflexivity|].
  rewrite (getitem_nth raw i 0%Q) by lia.
  rewrite (getitem_nth means i 0%Q) by lia. reflexivity.
Qed.

Lemma dot_loop (a b : list Q) :
  length a = length b ->
  forall m k acc, (k + m = length a)%nat ->
    for_loop (seq k m)
      (fun i acc =>
         let* x := getitem a i in
         let* y := getitem b i in
         Ok (acc + x * y)%Q) acc
    = Ok (fold_left (fun acc p => (acc + fst p * snd p)%Q)
            (combine (drop k a) (drop k b)) acc).
Proof.
  intros Hab m. induction m as [|m IH]; intros k acc Hk.
  - rewrite drop_ge by lia. reflexivity.
  - cbn [seq for_loop].
    destruct (lookup_lt_is_Some_2 a k) as [x Hx]; [lia|].
    destruct (lookup_lt_is_Some_2 b k) as [y Hy]; [lia|].
    unfold getitem at 1 2. rewrite Hx, Hy. cbn [bind].
    rewrite (drop_S a x k Hx), (drop_S b y k Hy). cbn [combine fold_left fst snd].
    apply IH. lia.
Qed.

Lemma dot_product_ok (a b : list Q) :
  length a = length b -> dot_product a b = Ok (dot a b).
Proof.
  intros Hab. unfold dot_product, for_range.
  rewrite Hab, Nat.eqb_refl. cbn [negb]. rewrite <- Hab.
  rewrite (dot_loop a b Hab (length a) 0%nat 0%Q) by lia.
  reflexivity.
Qed.

(** Each of the three layer loops computes the dense layer of the
    specification, provided the table has one row per input and every
    row has one entry per neuron. *)
Lemma layer_loop_ok (W : list (list Q)) (B : list Q) (act : Q -> Q)
  (inp : list Q) :
  length W = length inp ->
  Forall (fun row => length row = length B) W ->
  layer_loop W B act inp = Ok (dense (length B) W B act inp).
Proof.
  intros HW Hrows. unfold layer_loop, dense.
  apply for_range_fill. intros i out Hi Hout.
  rewrite (comprehension_ok _ (fun j => nth i (nth j W []) 0%Q)).
  - cbn [bind]. rewrite <- HW.
    rewrite (map_nth_seq (fun row => nth i row 0%Q) W []).
    fold (column W i).
    rewrite dot_product_ok
      by (unfold column; rewrite length_map; symmetry; exact HW).
    cbn [bind]. rewrite (getitem_nth B i 0%Q) by exact Hi.
    reflexivity.
  - intros j Hj. apply in_seq in Hj.
    rewrite (getitem_nth W j []) by lia. cbn [bind].
    apply getitem_nth.
    assert (Hin : In (nth j W []) W) by (apply nth_In; lia).
    rewrite Forall_forall in Hrows.
    rewrite (Hrows _ (proj2 (list_elem_of_In _ _) Hin)). exact Hi.
Qed.

Lemma dense_length (n : nat) W B act inp :
  length (dense n W B act inp) = n.
Proof. unfold dense. rewrite length_map, length_seq. reflexivity. Qed.

Lemma standardize_all_length (xs ms ss : list Q) :
  length xs = length ms -> length xs = length ss ->
  length (standardize_all xs ms ss) = length xs.
Proof.
  intros Hm Hs. rewrite <- (standardize_all_nth xs ms ss Hm Hs).
  rewrite length_map, length_seq. reflexivity.
Qed.

Lemma rows_WEIGHTS_0 :
  Forall (fun row => length row = length BIASES_0) WEIGHTS_0.
Proof. repeat constructor. Qed.

Lemma rows_WEIGHTS_1 :
  Forall (fun row => length row = length BIASES_1) WEIGHTS_1.
Proof. repeat constructor. Qed.

Lemma rows_WEIGHTS_2 :
  Forall (fun row => length row = length BIASES_2) WEIGHTS_2.
Proof. repeat constructor. Qed.

Lemma predict_et0_spec (features : list Q) :
  length features = 3%nat ->
  predict_et0 features = Ok (pipeline features).
Proof.
  intros Hlen. unfold predict_et0, pipeline.
  assert (Hm : length features = length SCALER_MEAN) by exact Hlen.
  assert (Hs : length features = length SCALER_SCALE) by exact Hlen.
  rewrite Hm at 1. rewrite Nat.eqb_refl. cbn [negb].
  rewrite (scale_features_ok _ _ _ Hm Hs). cbn [bind].
  pose proof (standardize_all_length _ _ _ Hm Hs) as Hsc.
  rewrite (layer_loop_ok WEIGHTS_0 BIASES_0 relu) by
    (first [exact rows_WEIGHTS_0 | rewrite Hsc, Hlen; reflexivity]).
  cbn [bind].
  rewrite (layer_loop_ok WEIGHTS_1 BIASES_1 relu) by
    (first [exact rows_WEIGHTS_1 | rewrite dense_length; reflexivity]).
  cbn [bind].
  rewrite (layer_loop_ok WEIGHTS_2 BIASES_2 identity) by
    (first [exact rows_WEIGHTS_2 | rewrite dense_length; reflexivity]).
  cbn [bind]. reflexivity.
Qed.

(** C1. For every list of exactly three features [predict_et0] returns,
    without raising, the value of the pipeline of the specification:
    standardisation with a zero scale forced to 0, a 16-neuron and an
    8-neuron ReLU layer and an identity output neuron, each neuron's
    weights being the column of its table. *)
Theorem predict_et0_pipeline (features : list Q) :
  length features = 3%nat ->
  predict_et0 features = Ok (pipeline features).
Proof. exact (predict_et0_spec features). Qed.

Lemma predict_et0_pipeline_witness :
  predict_et0 [30.5; 55.2; 250.7]%Q = Ok (pipeline [30.5; 55.2; 250.7]%Q).
Proof. apply predict_et0_pipeline. reflexivity. Defined.

(** Any other number of features is refused before anything is computed. *)
Lemma predict_et0_length_mismatch (features : list Q) :
  length features <> 3%nat -> predict_et0 features = Raise ValueError.
Proof.
  intros Hlen. unfold predict_et0.
  destruct (Nat.eqb_spec (length features) (length SCALER_MEAN)) as [E|E].
  - exfalso. apply Hlen. exact E.
  - reflexivity.
Qed.

(** The gather is by column: on the table [[1,2],[3,4]] with zero biases
    the input [[1,0]] selects the first row of the table, so neuron [i]
    receives [W[0][i]]; gathering rows would give [[1,3]]. *)
Lemma layer_loop_gathers_columns :
  layer_loop [[1; 2]; [3; 4]]%Q [0; 0]%Q identity [1; 0]%Q
  = Ok [(0 + 1 * 1 + 0 * 3 + 0); (0 + 1 * 2 + 0 * 4 + 0)]%Q
  /\ map (fun i => dot [1; 0] (row_gather [[1; 2]; [3; 4]] i) + 0)%Q
       (seq 0 2)
     = [(0 + 1 * 1 + 0 * 2 + 0); (0 + 1 * 3 + 0 * 4 + 0)]%Q.
Proof. split; reflexivity. Qed.

(** *** Evaluating the network on a concrete input

    Sums of unreduced fractions grow quickly; the layers respect [Qeq], so
    each layer's output may be replaced by its reduced form. *)

Lemma Forall2_Qred (l : list Q) : Forall2 Qeq l (map Qred l).
Proof.
  induction l as [|x l IH]; constructor.
  - symmetry. apply Qred_correct.
  - exact IH.
Qed.

Lemma dot_fold_proper (w : list Q) :
  forall (a a' : list Q) (acc acc' : Q),
    Forall2 Qeq a a' -> acc == acc' ->
    fold_left (fun acc p => (acc + fst p * snd p)%Q) (combine a w) acc
    == fold_left (fun acc p => (acc + fst p * snd p)%Q) (combine a' w) acc'.
Proof.
  induction w as [|y w IH]; intros a a' acc acc' Ha Hacc.
  - destruct a, a'; exact Hacc.
  - destruct Ha as [|x x' a a' Hx Ha]; [exact Hacc|].
    cbn [combine fold_left fst snd]. apply IH; [exact Ha|].
    rewrite Hx, Hacc. reflexivity.
Qed.

Lemma dot_proper (a a' w : list Q) :
  Forall2 Qeq a a' -> dot a w == dot a' w.
Proof. intros Ha. apply dot_fold_proper; [exact Ha | reflexivity]. Qed.

Lemma dense_relu_proper (n : nat) W B (a a' : list Q) :
  Forall2 Qeq a a' ->
  Forall2 Qeq (dense n W B (Qmax 0) a) (dense n W B (Qmax 0) a').
Proof.
  intros Ha. unfold dense.
  induction (seq 0 n) as [|i idx IH]; cbn [map]; constructor.
  - rewrite (dot_proper a a' _ Ha). reflexivity.
  - exact IH.
Qed.

Lemma Forall2_Qeq_trans (l1 l2 l3 : list Q) :
  Forall2 Qeq l1 l2 -> Forall2 Qeq l2 l3 -> Forall2 Qeq l1 l3.
Proof.
  intros H12. revert l3.
  induction H12 as [|x y l1 l2 Hxy _ IH]; intros l3 H23.
  - inversion H23. constructor.
  - inversion H23 as [|y' z l2' l3' Hyz H23']; subst.
    constructor; [rewrite Hxy; exact Hyz | apply IH; exact H23'].
Qed.

Lemma pipeline_reduced_correct (features : list Q) :
  pipeline features == pipeline_reduced features.
Proof.
  unfold pipeline, pipeline_reduced. cbv zeta.
  apply Qplus_comp; [|reflexivity].
  apply dot_proper.
  eapply Forall2_Qeq_trans; [|apply Forall2_Qred].
  apply dense_relu_proper. apply Forall2_Qred.
Qed.

(** The output neuron is not clamped: warm, humid and dark weather gives a
    negative prediction (about -0.0956). *)
Lemma pipeline_negative_example :
  (pipeline [35; 90; 0] < -(95 # 1000))%Q.
Proof.
  rewrite pipeline_reduced_correct. vm_compute. reflexivity.
Qed.

Lemma model_predict_spec (features : list Q) :
  length features = 3%nat ->
  model_predict features = Ok (Main.Num (pipeline features)).
Proof.
  intros Hlen. unfold model_predict.
  rewrite (predict_et0_spec features Hlen). reflexivity.
Qed.

End Perceptron.

(** ** Comparisons and rounding *)

Section Rounding.
Import Py.
Local Open Scope Q_scope.

Lemma Qle_bool_false (a b : Q) : Qle_bool a b = false -> b < a.
Proof.
  intros H. apply Qnot_le_lt. intros Hle.
  apply Qle_bool_iff in Hle. congruence.
Qed.

Lemma Qlt_bool_true (a b : Q) : Qlt_bool a b = true <-> a < b.
Proof.
  unfold Qlt_bool. split.
  - intros H. apply Qle_bool_false. destruct (Qle_bool b a); [discriminate|reflexivity].
  - intros H. destruct (Qle_bool b a) eqn:E; [|reflexivity].
    apply Qle_bool_iff in E. exfalso. apply (Qlt_not_le _ _ H E).
Qed.

Lemma Qlt_bool_false (a b : Q) : Qlt_bool a b = false <-> b <= a.
Proof.
  unfold Qlt_bool. split.
  - intros H. apply Qle_bool_iff. destruct (Qle_bool b a); [reflexivity|discriminate].
  - intros H. apply Qle_bool_iff in H. rewrite H. reflexivity.
Qed.

Lemma round_half_even_floor (x : Q) :
  (Qfloor x <= round_half_even x <= Qfloor x + 1)%Z.
Proof.
  unfold round_half_even.
  destruct (x - inject_Z (Qfloor x) ?= 1 # 2); [destruct (Z.even _)| |]; lia.
Qed.

Lemma round_half_even_mono (x y : Q) :
  x <= y -> (round_half_even x <= round_half_even y)%Z.
Proof.
  intros Hxy.
  pose proof (Qfloor_resp_le x y Hxy) as Hf.
  pose proof (round_half_even_floor x) as Hx.
  pose proof (round_half_even_floor y) as Hy.
  destruct (Z.eq_dec (Qfloor x) (Qfloor y)) as [E|E]; [|lia].
  unfold round_half_even in *. rewrite <- E in *.
  destruct (Qcompare_spec (x - inject_Z (Qfloor x)) (1 # 2)) as [Ex|Ex|Ex];
    destruct (Qcompare_spec (y - inject_Z (Qfloor x)) (1 # 2)) as [Ey|Ey|Ey];
    try lia; try (destruct (Z.even (Qfloor x)); lia);
    exfalso; lra.
Qed.

Lemma round_half_even_comp (x y : Q) :
  x == y -> round_half_even x = round_half_even y.
Proof.
  intros Hxy. unfold round_half_even.
  rewrite (Qfloor_comp x y Hxy).
  assert (Hc : (x - inject_Z (Qfloor y) ?= 1 # 2)
               = (y - inject_Z (Qfloor y) ?= 1 # 2)).
  { apply Qcompare_comp; [rewrite Hxy|]; reflexivity. }
  rewrite Hc. reflexivity.
Qed.

Lemma round_half_even_near (x : Q) :
  x - (1 # 2) <= inject_Z (round_half_even x) <= x + (1 # 2).
Proof.
  pose proof (Qfloor_le x) as Hlo.
  pose proof (Qlt_floor x) as Hhi.
  rewrite inject_Z_plus in Hhi. change (inject_Z 1) with 1 in Hhi.
  unfold round_half_even.
  destruct (Qcompare_spec (x - inject_Z (Qfloor x)) (1 # 2)) as [E|E|E];
    [destruct (Z.even (Qfloor x))| |];
    rewrite ?inject_Z_plus; change (inject_Z 1) with 1; split; lra.
Qed.

Lemma round2_mono (x y : Q) : x <= y -> round2 x <= round2 y.
Proof.
  intros Hxy. unfold round2.
  assert (H : inject_Z (round_half_even (x * 100))
              <= inject_Z (round_half_even (y * 100))).
  { rewrite <- Zle_Qle. apply round_half_even_mono. lra. }
  change (inject_Z (round_half_even (x * 100)) * (1 # 100)
          <= inject_Z (round_half_even (y * 100)) * (1 # 100)).
  lra.
Qed.

Lemma round2_comp (x y : Q) : x == y -> round2 x = round2 y.
Proof.
  intros Hxy. unfold round2.
  rewrite (round_half_even_comp (x * 100) (y * 100)); [reflexivity|].
  rewrite Hxy. reflexivity.
Qed.

Lemma round2_zero : round2 0 == 0.
Proof. reflexivity. Qed.

Lemma round2_nonneg (x : Q) : 0 <= x -> 0 <= round2 x.
Proof.
  intros Hx. rewrite <- round2_zero. apply round2_mono. exact Hx.
Qed.

Lemma round2_near (x : Q) : x - (1 # 200) <= round2 x <= x + (1 # 200).
Proof.
  pose proof (round_half_even_near (x * 100)) as H.
  unfold round2.
  change (inject_Z (round_half_even (x * 100)) / 100)
    with (inject_Z (round_half_even (x * 100)) * (1 # 100)).
  split; lra.
Qed.
End Rounding.

(** ** The irrigation calculator *)

Section IrrigationCalculator.
Import Py IrrigationSpec.
Local Open Scope Q_scope.

Lemma Qle_bool_true_intro (a b : Q) : a <= b -> Qle_bool a b = true.
Proof. apply Qle_bool_iff. Qed.

Lemma Qle_bool_false_intro (a b : Q) : b < a -> Qle_bool a b = false.
Proof.
  intros H. destruct (Qle_bool a b) eqn:E; [|reflexivity].
  apply Qle_bool_iff in E. exfalso. apply (Qlt_not_le _ _ H E).
Qed.

Lemma Qdiv_100 (x : Q) : x / 100.0 == x * (1 # 100).
Proof. unfold Qdiv. apply Qmult_comp; reflexivity. Qed.

Lemma water_above_pwp_mono (v1 v2 rz fc pwp : Q) :
  0 <= rz -> v1 <= v2 ->
  water_above_pwp v1 rz fc pwp <= water_above_pwp v2 rz fc pwp.
Proof.
  intros Hrz Hv. unfold water_above_pwp.
  apply Q.min_le_compat; [|apply Qle_refl].
  apply Qmult_le_compat_r; [|exact Hrz].
  apply Q.max_le_compat_l.
  change (v1 * (1 # 100) - pwp * (1 # 100) <= v2 * (1 # 100) - pwp * (1 # 100)).
  lra.
Qed.

Lemma water_above_pwp_range (v rz fc pwp : Q) :
  0 <= rz -> pwp <= fc ->
  0 <= water_above_pwp v rz fc pwp <= (fc - pwp) * rz / 100.
Proof.
  intros Hrz Hfc. unfold water_above_pwp. split.
  - apply Q.min_glb.
    + apply Qmult_le_0_compat; [apply Q.le_max_l | exact Hrz].
    + apply Qmult_le_0_compat; [|exact Hrz].
      change (0 <= fc * (1 # 100) - pwp * (1 # 100)). lra.
  - eapply Qle_trans; [apply Q.le_min_r|].
    apply Qle_lteq. right. field.
Qed.

(** [main.py] rounds [water_above_pwp] whenever [fc > pwp], whatever the
    sign of the root-zone depth. *)
Lemma main_soil_value (v rz fc pwp : Q) :
  pwp < fc ->
  Main.soil_available_water_depth (Some v) rz fc pwp
  = round2 (water_above_pwp v rz fc pwp).
Proof.
  intros Hfc. unfold Main.soil_available_water_depth.
  rewrite Qle_bool_false_intro by (rewrite !Qdiv_100; lra).
  apply round2_comp. unfold water_above_pwp.
  apply Q.min_compat; [apply Qmult_comp; [|reflexivity]|];
    rewrite !Qdiv_100; [apply Q.max_compat; [reflexivity|]|]; field.
Qed.

Lemma main_soil_degenerate (v rz fc pwp : Q) :
  fc <= pwp -> Main.soil_available_water_depth (Some v) rz fc pwp = 0.
Proof.
  intros Hfc. unfold Main.soil_available_water_depth.
  rewrite Qle_bool_true_intro by (rewrite !Qdiv_100; lra). reflexivity.
Qed.

(** [main5.py] does so only for a positive root-zone depth. *)
Lemma main5_soil_value (v rz fc pwp : Q) :
  0 < rz -> pwp < fc ->
  Main5.soil_available_water_depth (Some v) rz fc pwp
  = round2 (water_above_pwp v rz fc pwp).
Proof.
  intros Hrz Hfc. unfold Main5.soil_available_water_depth.
  rewrite (Qle_bool_false_intro rz 0 Hrz).
  rewrite Qle_bool_false_intro by (rewrite !Qdiv_100; lra).
  apply round2_comp. unfold water_above_pwp.
  apply Q.min_compat; [apply Qmult_comp; [|reflexivity]|];
    rewrite !Qdiv_100; [apply Q.max_compat; [reflexivity|]|]; field.
Qed.

Lemma main5_soil_no_root_zone (v rz fc pwp : Q) :
  rz <= 0 -> Main5.soil_available_water_depth (Some v) rz fc pwp = 0.
Proof.
  intros Hrz. unfold Main5.soil_available_water_depth.
  rewrite (Qle_bool_true_intro rz 0 Hrz). reflexivity.
Qed.

Lemma main5_soil_degenerate (v rz fc pwp : Q) :
  fc <= pwp -> Main5.soil_available_water_depth (Some v) rz fc pwp = 0.
Proof.
  intros Hfc. unfold Main5.soil_available_water_depth.
  destruct (Qle_bool rz 0); [reflexivity|].
  rewrite Qle_bool_true_intro by (rewrite !Qdiv_100; lra). reflexivity.
Qed.

(** [main5.py] does what the specification of [available_water_depth]
    says, on every input. *)
Lemma main5_soil_available_water_depth_spec (v rz fc pwp : Q) :
  Main5.soil_available_water_depth None rz fc pwp = 0
  /\ (rz <= 0 -> Main5.soil_available_water_depth (Some v) rz fc pwp = 0)
  /\ (fc <= pwp -> Main5.soil_available_water_depth (Some v) rz fc pwp = 0)
  /\ (0 < rz -> pwp < fc ->
      Main5.soil_available_water_depth (Some v) rz fc pwp
      = round2 (Qmin (Qmax 0 (v / 100 - pwp / 100) * rz)
                  ((fc / 100 - pwp / 100) * rz))).
Proof.
  split; [reflexivity|]. split; [apply main5_soil_no_root_zone|].
  split; [apply main5_soil_degenerate | apply main5_soil_value].
Qed.

(** C5. [main.py] has lost the root-zone guard of [main5.py]: with a
    negative root-zone depth it returns a negative depth of water, where
    [main5.py] and the specification return 0. *)
Theorem soil_available_water_depth_negative_root_zone :
  Main.soil_available_water_depth (Some 25.0) (-10.0) 42.0 15.0 == -(27 # 10)
  /\ Main5.soil_available_water_depth (Some 25.0) (-10.0) 42.0 15.0 = 0.
Proof. split; reflexivity. Qed.

(** With a root-zone depth of zero or more the two scripts agree. *)
Lemma soil_variants_agree (ov : option Q) (rz fc pwp : Q) :
  0 <= rz ->
  Main.soil_available_water_depth ov rz fc pwp
  == Main5.soil_available_water_depth ov rz fc pwp.
Proof.
  intros Hrz. destruct ov as [v|]; [|reflexivity].
  destruct (Qlt_le_dec pwp fc) as [Hfc|Hfc].
  - rewrite (main_soil_value v rz fc pwp Hfc).
    destruct (Qlt_le_dec 0 rz) as [Hpos|Hzero].
    + rewrite (main5_soil_value v rz fc pwp Hpos Hfc). reflexivity.
    + rewrite (main5_soil_no_root_zone v rz fc pwp Hzero).
      assert (E : rz == 0) by lra.
      assert (Ew : water_above_pwp v rz fc pwp == 0).
      { unfold water_above_pwp. rewrite E, !Qmult_0_r. reflexivity. }
      rewrite (round2_comp _ _ Ew). reflexivity.
  - rewrite (main_soil_degenerate v rz fc pwp Hfc).
    rewrite (main5_soil_degenerate v rz fc pwp Hfc). reflexivity.
Qed.

Lemma main_soil_mono (v1 v2 rz fc pwp : Q) :
  0 <= rz -> v1 <= v2 ->
  Main.soil_available_water_depth (Some v1) rz fc pwp
  <= Main.soil_available_water_depth (Some v2) rz fc pwp.
Proof.
  intros Hrz Hv. destruct (Qlt_le_dec pwp fc) as [Hfc|Hfc].
  - rewrite !main_soil_value by exact Hfc.
    apply round2_mono, water_above_pwp_mono; assumption.
  - rewrite !main_soil_degenerate by exact Hfc. apply Qle_refl.
Qed.

Lemma main_soil_range (v rz fc pwp : Q) :
  0 <= rz ->
  0 <= Main.soil_available_water_depth (Some v) rz fc pwp
    <= Qmax 0 (round2 ((fc - pwp) * rz / 100)).
Proof.
  intros Hrz. destruct (Qlt_le_dec pwp fc) as [Hfc|Hfc].
  - rewrite main_soil_value by exact Hfc.
    destruct (water_above_pwp_range v rz fc pwp Hrz) as [Hlo Hhi]; [lra|].
    split; [apply round2_nonneg; exact Hlo|].
    eapply Qle_trans; [apply round2_mono; exact Hhi | apply Q.le_max_r].
  - rewrite main_soil_degenerate by exact Hfc.
    split; [apply Qle_refl | apply Q.le_max_l].
Qed.

(** C6, as stated, fails: with a root zone of 0.02 mm and a saturated
    reading the rounded result 0.01 exceeds the bound 0.0054, in both
    scripts. *)
Lemma available_water_exceeds_unrounded_bound :
  ~ (Main.soil_available_water_depth (Some 100) 0.02 42.0 15.0
     <= (42.0 - 15.0) * 0.02 / 100)
  /\ ~ (Main5.soil_available_water_depth (Some 100) 0.02 42.0 15.0
        <= (42.0 - 15.0) * 0.02 / 100).
Proof. split; vm_compute; intros H; apply H; reflexivity. Qed.

(** *** Pump time *)

Lemma Qlt_bool_comp (a a' b b' : Q) :
  a == a' -> b == b' -> Qlt_bool a b = Qlt_bool a' b'.
Proof.
  intros Ha Hb. unfold Qlt_bool. f_equal. apply Qleb_comp; assumption.
Qed.

Lemma clamp_is_max (x : Q) : (if Qlt_bool x 0 then 0.0 else x) == Qmax 0 x.
Proof.
  destruct (Qlt_bool x 0) eqn:E.
  - apply Qlt_bool_true in E. rewrite Q.max_l by lra. reflexivity.
  - apply Qlt_bool_false in E. rewrite Q.max_r by exact E. reflexivity.
Qed.

Lemma clamped_etc_nonneg (kc et0 : Q) : 0 <= clamped_etc kc et0.
Proof.
  unfold clamped_etc. apply Qmult_le_0_compat; apply Q.le_max_l.
Qed.

(** [main5.py] does what the specification of [irrigation_time] says, on
    every input: both inputs are clamped before the product is formed. *)
Lemma main5_irrigation_time_spec (Kc ET0 area_m2 flow_lph : Q) :
  fst (Main5.irrigation_time Kc ET0 area_m2 flow_lph)
  == irrigation_seconds Kc ET0 area_m2 flow_lph
  /\ snd (Main5.irrigation_time Kc ET0 area_m2 flow_lph)
     == clamped_etc Kc ET0.
Proof.
  unfold Main5.irrigation_time, irrigation_seconds.
  set (e := if Qlt_bool ET0 0 then 0.0 else ET0).
  set (k := if Qlt_bool Kc 0 then 0.0 else Kc).
  assert (Hetc : e * k == clamped_etc Kc ET0).
  { unfold e, k, clamped_etc. rewrite !clamp_is_max. reflexivity. }
  assert (Hreq : Qmax 0.0 (e * k) * area_m2 == clamped_etc Kc ET0 * area_m2).
  { rewrite Hetc. rewrite Q.max_r; [reflexivity|].
    pose proof (clamped_etc_nonneg Kc ET0). lra. }
  destruct (Qle_bool flow_lph 0); cbn [fst snd].
  - split; [reflexivity | exact Hetc].
  - split; [|exact Hetc].
    rewrite (Qlt_bool_comp 0 0 _ _ (Qeq_refl 0) Hreq).
    destruct (Qlt_bool 0 (clamped_etc Kc ET0 * area_m2)); [|reflexivity].
    rewrite Hreq. apply Qmult_comp; reflexivity.
Qed.


(** In [main.py] the available water is passed in and never read. *)
Lemma main_irrigation_time_ignores_available_water
  (Kc ET0 avail1 avail2 area_m2 flow_lph : Q) :
  Main.irrigation_time Kc ET0 avail1 area_m2 flow_lph
  = Main.irrigation_time Kc ET0 avail2 area_m2 flow_lph.
Proof. reflexivity. Qed.

(** C4. [main.py] has lost the two input clamps of [main5.py]: with the
    onion coefficient 0.8 and a prediction of -0.5 mm it reports a crop
    evapotranspiration of -0.4 mm, where [main5.py] and the specification
    report 0. *)
Theorem irrigation_time_unclamped_inputs :
  (fst (Main.irrigation_time 0.8 (-0.5) 60.0 10.0 9.0) == 0
   /\ snd (Main.irrigation_time 0.8 (-0.5) 60.0 10.0 9.0) == -(4 # 10))
  /\ (fst (Main5.irrigation_time 0.8 (-0.5) 10.0 9.0) == 0
      /\ snd (Main5.irrigation_time 0.8 (-0.5) 10.0 9.0) == 0)
  /\ clamped_etc 0.8 (-0.5) == 0.
Proof. repeat split. Qed.

(** Two negative inputs multiply to a positive demand in [main.py] and
    the pump would run for 8000 s; [main5.py] computes 0 s. *)
Lemma irrigation_time_two_negative_inputs :
  (fst (Main.irrigation_time (-1.0) (-2.0) 0 10.0 9.0) == 8000
   /\ snd (Main.irrigation_time (-1.0) (-2.0) 0 10.0 9.0) == 2)
  /\ (fst (Main5.irrigation_time (-1.0) (-2.0) 10.0 9.0) == 0
      /\ snd (Main5.irrigation_time (-1.0) (-2.0) 10.0 9.0) == 0).
Proof. repeat split. Qed.

End IrrigationCalculator.

(** ** Interpolation *)

Section Interpolation.
Import Py InterpolationSpec.

Lemma last_default_irrelevant {A : Type} (l : list A) (d d' : A) :
  l <> [] -> List.last l d = List.last l d'.
Proof.
  induction l as [|x l IH]; intros Hne; [congruence|].
  destruct l as [|y l]; [reflexivity|].
  change (List.last (y :: l) d = List.last (y :: l) d').
  apply IH. discriminate.
Qed.

Lemma last_cons_as_default {A : Type} (x : A) (l : list A) (d : A) :
  List.last (x :: l) d = List.last l x.
Proof.
  destruct l as [|y l]; [reflexivity|].
  change (List.last (y :: l) d = List.last (y :: l) x).
  apply last_default_irrelevant. discriminate.
Qed.

Lemma sorted_cons (p q : Z * Q) (rest : Main.profile) :
  sorted_by_day (p :: q :: rest) = true ->
  (fst p < fst q)%Z /\ sorted_by_day (q :: rest) = true.
Proof.
  unfold sorted_by_day. cbn [map increasing]. intros H.
  apply andb_prop in H. destruct H as [H1 H2].
  split; [apply Z.ltb_lt; exact H1 | exact H2].
Qed.

Lemma first_before_last (rest : Main.profile) :
  forall p, sorted_by_day (p :: rest) = true -> rest <> [] ->
            (fst p < fst (List.last rest p))%Z.
Proof.
  induction rest as [|q rest IH]; intros p Hs Hne; [congruence|].
  apply sorted_cons in Hs. destruct Hs as [Hpq Hs].
  rewrite last_cons_as_default.
  destruct rest as [|r rest]; [exact Hpq|].
  specialize (IH q Hs). lapply IH; [lia | discriminate].
Qed.

(** Every neighbour pair starts at the head or strictly after it, and is
    strictly increasing. *)
Lemma neighbours_lower (rest : Main.profile) :
  forall p a b, sorted_by_day (p :: rest) = true ->
    In (a, b) (combine (p :: rest) rest) ->
    (a = p \/ (fst p < fst a)%Z) /\ (fst a < fst b)%Z.
Proof.
  induction rest as [|q rest IH]; intros p a b Hs Hin; [destruct Hin|].
  apply sorted_cons in Hs. destruct Hs as [Hpq Hs].
  destruct Hin as [E|Hin].
  - inversion E; subst. split; [left; reflexivity | exact Hpq].
  - destruct (IH q a b Hs Hin) as [[Ea|Hlt] Hab].
    + subst a. split; [right; exact Hpq | exact Hab].
    + split; [right; lia | exact Hab].
Qed.

(** ... and ends at the last point or strictly before it. *)
Lemma neighbours_upper (rest : Main.profile) :
  forall p a b, sorted_by_day (p :: rest) = true ->
    In (a, b) (combine (p :: rest) rest) ->
    b = List.last rest p \/ (fst b < fst (List.last rest p))%Z.
Proof.
  induction rest as [|q rest IH]; intros p a b Hs Hin; [destruct Hin|].
  rewrite last_cons_as_default.
  destruct (sorted_cons _ _ _ Hs) as [Hpq Hs'].
  destruct Hin as [E|Hin].
  - inversion E; subst.
    destruct rest as [|r rest]; [left; reflexivity|].
    right. apply (first_before_last (r :: rest) b Hs'). discriminate.
  - apply (IH q a b Hs' Hin).
Qed.

Lemma on_segment_start (p0 p1 : Z * Q) : on_segment (fst p0) p0 p1 == snd p0.
Proof.
  unfold on_segment. rewrite Z.sub_diag. unfold Qdiv.
  change (inject_Z 0) with 0%Q. ring.
Qed.

Lemma on_segment_end (p0 p1 : Z * Q) :
  (fst p0 < fst p1)%Z -> on_segment (fst p1) p0 p1 == snd p1.
Proof.
  intros Hlt. unfold on_segment. field.
  intros H. unfold Qeq in H. cbn [Qnum Qden inject_Z] in H. lia.
Qed.

Lemma bracket_value_on_segment (day : Z) (p0 p1 : Z * Q) :
  (fst p0 < fst p1)%Z ->
  Main.bracket_value day (fst p0) (snd p0) (fst p1) (snd p1)
  = on_segment day p0 p1.
Proof.
  intros Hlt. unfold Main.bracket_value.
  destruct (Z.eqb_spec (fst p1 - fst p0) 0) as [E|E]; [lia|reflexivity].
Qed.

(** The loop of [main.py] on a strictly increasing profile, for a day
    strictly between the first and the last control point: it returns,
    and what it returns is the straight line through any pair of
    neighbours that encloses the day. *)
Lemma scan_brackets_sorted (rest : Main.profile) :
  forall p day,
    sorted_by_day (p :: rest) = true ->
    (fst p < day)%Z -> (day < fst (List.last rest p))%Z ->
    exists v,
      Main.scan_brackets day (combine (p :: rest) rest) = Some v
      /\ (exists a b, In (a, b) (combine (p :: rest) rest)
                      /\ (fst a <= day <= fst b)%Z)
      /\ forall a b, In (a, b) (combine (p :: rest) rest) ->
                     (fst a <= day <= fst b)%Z -> v == on_segment day a b.
Proof.
  induction rest as [|q rest IH]; intros p day Hs Hlo Hhi.
  - simpl in Hhi. lia.
  - destruct (sorted_cons _ _ _ Hs) as [Hpq Hs'].
    rewrite last_cons_as_default in Hhi.
    cbn [combine Main.scan_brackets].
    destruct p as [d0 v0], q as [d1 v1]. cbn [fst snd] in *.
    destruct ((d0 <=? day)%Z && (day <=? d1)%Z) eqn:Hin.
    + apply andb_prop in Hin. destruct Hin as [H0 H1].
      apply Z.leb_le in H0, H1.
      exists (Main.bracket_value day d0 v0 d1 v1).
      split; [reflexivity|]. split.
      { exists (d0, v0), (d1, v1). split; [left; reflexivity|].
        cbn [fst snd]. lia. }
      intros a b Hab Hday.
      pose proof (bracket_value_on_segment day (d0, v0) (d1, v1) Hpq) as Hbv.
      cbn [fst snd] in Hbv. rewrite Hbv. clear Hbv.
      destruct Hab as [E|Hab]; [inversion E; subst; reflexivity|].
      destruct (neighbours_lower rest (d1, v1) a b Hs' Hab)
        as [[Ea|Hlt] Hab'].
      * subst a. cbn [fst snd] in *.
        assert (Eday : day = d1) by lia. subst day.
        rewrite (on_segment_end (d0, v0) (d1, v1) Hpq).
        rewrite (on_segment_start (d1, v1) b). reflexivity.
      * cbn [fst] in Hlt. lia.
    + assert (H1 : (d1 < day)%Z).
      { apply andb_false_iff in Hin. destruct Hin as [H|H].
        - apply Z.leb_gt in H. lia.
        - apply Z.leb_gt in H. exact H. }
      destruct (IH (d1, v1) day Hs' H1 Hhi) as [v [Hv [Hex Hall]]].
      exists v. split; [exact Hv|]. split.
      { destruct Hex as [a [b [Hab Hday]]].
        exists a, b. split; [right; exact Hab | exact Hday]. }
      intros a b Hab Hday.
      destruct Hab as [E|Hab]; [|apply Hall; assumption].
      inversion E; subst. cbn [fst] in Hday. lia.
Qed.

(** On a strictly increasing profile the unguarded division of [main5.py]
    never divides by zero. *)
Lemma main5_scan_brackets_sorted (rest : Main.profile) :
  forall p day, sorted_by_day (p :: rest) = true ->
    Main5.scan_brackets day (combine (p :: rest) rest)
    = Ok (Main.scan_brackets day (combine (p :: rest) rest)).
Proof.
  induction rest as [|q rest IH]; intros p day Hs; [reflexivity|].
  destruct (sorted_cons _ _ _ Hs) as [Hpq Hs'].
  cbn [combine Main.scan_brackets Main5.scan_brackets].
  destruct p as [d0 v0], q as [d1 v1]. cbn [fst snd] in *.
  destruct ((d0 <=? day)%Z && (day <=? d1)%Z).
  - unfold Main.bracket_value.
    destruct (Z.eqb_spec (d1 - d0) 0) as [E|E]; [lia|reflexivity].
  - apply IH. exact Hs'.
Qed.

Lemma linear_interpolate_unfold (day : Z) (p : Z * Q) (rest : Main.profile) :
  Main.linear_interpolate day (p :: rest)
  = if (day <=? fst p)%Z then snd p
    else if (day >=? fst (List.last rest p))%Z then snd (List.last rest p)
    else match Main.scan_brackets day (combine (p :: rest) rest) with
         | Some v => v
         | None => snd (List.last rest p)
         end.
Proof.
  unfold Main.linear_interpolate. rewrite last_cons_as_default. reflexivity.
Qed.

Lemma main5_linear_interpolate_unfold (day : Z) (p : Z * Q)
  (rest : Main.profile) :
  Main5.linear_interpolate day (p :: rest)
  = if (day <=? fst p)%Z then Ok (snd p)
    else if (day >=? fst (List.last rest p))%Z
    then Ok (snd (List.last rest p))
    else
      let* r := Main5.scan_brackets day (combine (p :: rest) rest) in
      match r with
      | Some v => Ok v
      | None => Ok (snd (List.last rest p))
      end.
Proof.
  unfold Main5.linear_interpolate. rewrite last_cons_as_default. reflexivity.
Qed.

Lemma linear_interpolate_sorted (day : Z) (p : Z * Q) (rest : Main.profile) :
  sorted_by_day (p :: rest) = true ->
  ((day <= fst p)%Z -> Main.linear_interpolate day (p :: rest) = snd p)
  /\ ((fst (List.last rest p) <= day)%Z ->
      Main.linear_interpolate day (p :: rest) = snd (List.last rest p))
  /\ (forall a b, In (a, b) (combine (p :: rest) rest) ->
                  (fst a <= day <= fst b)%Z ->
                  Main.linear_interpolate day (p :: rest)
                  == on_segment day a b)
  /\ ((fst p < day < fst (List.last rest p))%Z ->
      exists a b, In (a, b) (combine (p :: rest) rest)
                  /\ (fst a <= day <= fst b)%Z)
  /\ Main5.linear_interpolate day (p :: rest)
     = Ok (Main.linear_interpolate day (p :: rest)).
Proof.
  intros Hs.
  rewrite linear_interpolate_unfold, main5_linear_interpolate_unfold.
  assert (Hfl : rest <> [] -> (fst p < fst (List.last rest p))%Z)
    by (apply first_before_last; exact Hs).
  destruct (Z.leb_spec day (fst p)) as [Hlow|Hlow].
  - (* left clamp *)
    split; [reflexivity|]. split; [|split; [|split; [lia|reflexivity]]].
    + intros Hhigh. destruct rest as [|q rest]; [reflexivity|].
      lapply Hfl; [lia | discriminate].
    + intros a b Hab Hday.
      destruct (neighbours_lower rest p a b Hs Hab) as [[Ea|Hlt] _]; [|lia].
      subst a. assert (E : day = fst p) by lia. subst day.
      rewrite on_segment_start. reflexivity.
  - destruct (Z.geb_spec day (fst (List.last rest p))) as [Hhigh|Hhigh].
    + (* right clamp *)
      split; [lia|]. split; [reflexivity|].
      split; [|split; [lia|reflexivity]].
      intros a b Hab Hday.
      destruct (neighbours_lower rest p a b Hs Hab) as [_ Hab'].
      destruct (neighbours_upper rest p a b Hs Hab) as [Eb|Hlt]; [|lia].
      assert (E : day = fst b) by (rewrite Eb in Hday |- *; lia).
      rewrite E, (on_segment_end a b Hab'), Eb. reflexivity.
    + (* strictly inside *)
      destruct (scan_brackets_sorted rest p day Hs Hlow Hhigh)
        as [v [Hv [Hex Hall]]].
      rewrite (main5_scan_brackets_sorted rest p day Hs). cbn [bind].
      rewrite Hv.
      split; [lia|]. split; [lia|]. split; [exact Hall|].
      split; [intros _; exact Hex | reflexivity].
Qed.

(** Outside the hypotheses of the specification the two scripts differ:
    on an empty profile [main.py] returns 0.0 and [main5.py] raises. *)
Lemma linear_interpolate_empty (day : Z) :
  Main.linear_interpolate day [] = 0%Q
  /\ Main5.linear_interpolate day [] = Raise IndexError.
Proof. split; reflexivity. Qed.

(** C7. On every non-empty profile with strictly increasing days and for
    every integer day, [linear_interpolate] returns the first value at or
    before the first day, the last value at or after the last day, and
    otherwise the straight line through a pair of neighbours enclosing the
    day, which exists; [main5.py], which has no guards, returns the same
    value and does not raise.  The pair-level guard returns [v0] when
    [d1 = d0].  The five values of the example profile are as stated. *)
Theorem linear_interpolate_spec :
  (forall (day : Z) (prof : Main.profile),
      prof <> [] -> sorted_by_day prof = true ->
      ((day <= fst (first_point prof))%Z ->
       Main.linear_interpolate day prof = snd (first_point prof))
      /\ ((fst (last_point prof) <= day)%Z ->
          Main.linear_interpolate day prof = snd (last_point prof))
      /\ (forall a b, In (a, b) (neighbours prof) ->
                      (fst a <= day <= fst b)%Z ->
                      Main.linear_interpolate day prof == on_segment day a b)
      /\ ((fst (first_point prof) < day < fst (last_point prof))%Z ->
          exists a b, In (a, b) (neighbours prof)
                      /\ (fst a <= day <= fst b)%Z)
      /\ Main5.linear_interpolate day prof
         = Ok (Main.linear_interpolate day prof))
  /\ (forall (day d0 : Z) (v0 v1 : Q),
         Main.bracket_value day d0 v0 d0 v1 = v0)
  /\ (Main.linear_interpolate (-5) example_profile = 0.7%Q
      /\ Main.linear_interpolate 0 example_profile = 0.7%Q
      /\ Main.linear_interpolate 100 example_profile = 0.8%Q
      /\ Main.linear_interpolate 21 example_profile = 0.8%Q
      /\ Main.linear_interpolate 18 example_profile == 0.75%Q).
Proof.
  split; [|split].
  - intros day prof Hne Hs.
    destruct prof as [|p rest]; [congruence|].
    unfold first_point, last_point, neighbours. cbn [hd tail].
    rewrite last_cons_as_default.
    apply linear_interpolate_sorted. exact Hs.
  - intros day d0 v0 v1. unfold Main.bracket_value.
    rewrite Z.sub_diag. reflexivity.
  - repeat split.
Qed.

Lemma linear_interpolate_spec_witness :
  Main.linear_interpolate 18 example_profile
  == on_segment 18 (15%Z, 0.7%Q) (21%Z, 0.8%Q)
  /\ Main5.linear_interpolate 18 example_profile
     = Ok (Main.linear_interpolate 18 example_profile).
Proof.
  destruct (proj1 linear_interpolate_spec 18%Z example_profile)
    as [_ [_ [Hseg [_ Hm5]]]].
  - discriminate.
  - reflexivity.
  - split; [|exact Hm5].
    apply Hseg.
    + right. left. reflexivity.
    + cbn [fst]. lia.
Defined.

End Interpolation.

(** ** Day clock *)

Section DayClockProperties.
Import DayClockSpec.
Variable mktime : Z * Z * Z * Z * Z * Z * Z * Z -> option Z.
Variable localtime : Z * Z * Z * Z * Z * Z * Z * Z.

Local Open Scope Z_scope.

Lemma in_range_test (M D : Z) :
  ((1 <=? M) && (M <=? 12) && (1 <=? D) && (D <=? 31)) = true
  <-> in_range M D.
Proof.
  unfold in_range. rewrite !andb_true_iff, !Z.leb_le. tauto.
Qed.

(** [main.py]: the error value for every month or day out of range and
    whenever the conversion raises. *)
Lemma main_days_invalid (Y M D : Z) :
  ~ in_range M D \/ mktime (Y, M, D, 0, 0, 0, 0, 0) = None ->
  Main.get_days_after_planting mktime localtime Y M D = -1.
Proof.
  intros H. unfold Main.get_days_after_planting.
  destruct ((1 <=? M) && (M <=? 12) && (1 <=? D) && (D <=? 31)) eqn:E;
    [|reflexivity].
  cbn [negb]. apply in_range_test in E.
  destruct H as [H|H]; [contradiction|]. rewrite H. reflexivity.
Qed.

Lemma main_days_valid (Y M D sow now : Z) :
  in_range M D ->
  mktime (Y, M, D, 0, 0, 0, 0, 0) = Some sow ->
  mktime localtime = Some now ->
  Main.get_days_after_planting mktime localtime Y M D
  = Z.max 0 ((now - sow) / 86400).
Proof.
  intros Hr Hsow Hnow. unfold Main.get_days_after_planting.
  apply in_range_test in Hr. rewrite Hr, Hsow, Hnow. reflexivity.
Qed.

(** [main5.py]: no range check and no error value. *)
Lemma main5_days_conversion_fails (Y M D : Z) :
  mktime (Y, M, D, 0, 0, 0, 0, 0) = None ->
  Main5.get_days_after_planting mktime localtime Y M D = 0.
Proof.
  intros H. unfold Main5.get_days_after_planting. rewrite H. reflexivity.
Qed.

Lemma main5_days_valid (Y M D sow now : Z) :
  mktime (Y, M, D, 0, 0, 0, 0, 0) = Some sow ->
  mktime localtime = Some now ->
  Main5.get_days_after_planting mktime localtime Y M D
  = Z.max 0 ((now - sow) / 86400).
Proof.
  intros Hsow Hnow. unfold Main5.get_days_after_planting.
  rewrite Hsow, Hnow. reflexivity.
Qed.

Lemma main5_days_nonneg (Y M D : Z) :
  0 <= Main5.get_days_after_planting mktime localtime Y M D.
Proof.
  unfold Main5.get_days_after_planting.
  destruct (mktime (Y, M, D, 0, 0, 0, 0, 0)); [|lia].
  destruct (mktime localtime); lia.
Qed.

Lemma future_planting_floor (sow now : Z) :
  now < sow -> Z.max 0 ((now - sow) / 86400) = 0.
Proof.
  intros H.
  assert ((now - sow) / 86400 < 0) by (apply Z.div_lt_upper_bound; lia).
  lia.
Qed.

(** C8, as amended.  [main.py] returns its error value -1 for every month
    outside 1..12, every day outside 1..31 and whenever the conversion of
    the planting date raises; [main5.py] has no error value, returns 0
    when the conversion raises, and leaves the range check to the setup
    prompt.  In both, when the conversions succeed (and, in [main.py],
    month and day are in range) the result is
    [max(0, floor((now - sow) / 86400))], which is 0 for a planting date
    in the future and never negative; on a date the prompt of [main5.py]
    accepts the two functions agree. *)
Theorem days_after_planting_variants (Y M D : Z) :
  (~ in_range M D \/ mktime (Y, M, D, 0, 0, 0, 0, 0) = None ->
   Main.get_days_after_planting mktime localtime Y M D = -1)
  /\ (forall sow now,
        in_range M D ->
        mktime (Y, M, D, 0, 0, 0, 0, 0) = Some sow ->
        mktime localtime = Some now ->
        Main.get_days_after_planting mktime localtime Y M D
        = Z.max 0 ((now - sow) / 86400)
        /\ 0 <= Main.get_days_after_planting mktime localtime Y M D
        /\ (now < sow ->
            Main.get_days_after_planting mktime localtime Y M D = 0))
  /\ (mktime (Y, M, D, 0, 0, 0, 0, 0) = None ->
      Main5.get_days_after_planting mktime localtime Y M D = 0)
  /\ (forall sow now,
        mktime (Y, M, D, 0, 0, 0, 0, 0) = Some sow ->
        mktime localtime = Some now ->
        Main5.get_days_after_planting mktime localtime Y M D
        = Z.max 0 ((now - sow) / 86400)
        /\ (now < sow ->
            Main5.get_days_after_planting mktime localtime Y M D = 0))
  /\ 0 <= Main5.get_days_after_planting mktime localtime Y M D
  /\ (Main5.planting_date_accepted mktime Y M D = true ->
      is_Some (mktime localtime) ->
      Main5.get_days_after_planting mktime localtime Y M D
      = Main.get_days_after_planting mktime localtime Y M D).
Proof.
  split; [apply main_days_invalid|].
  split.
  { intros sow now Hr Hsow Hnow.
    rewrite (main_days_valid Y M D sow now Hr Hsow Hnow).
    split; [reflexivity|]. split; [lia | apply future_planting_floor]. }
  split; [apply main5_days_conversion_fails|].
  split.
  { intros sow now Hsow Hnow.
    rewrite (main5_days_valid Y M D sow now Hsow Hnow).
    split; [reflexivity | apply future_planting_floor]. }
  split; [apply main5_days_nonneg|].
  intros Hacc [now Hnow]. unfold Main5.planting_date_accepted in Hacc.
  apply andb_prop in Hacc. destruct Hacc as [Hr Hsome].
  apply in_range_test in Hr. apply bool_decide_eq_true in Hsome.
  destruct Hsome as [sow Hsow].
  rewrite (main_days_valid Y M D sow now Hr Hsow Hnow).
  apply (main5_days_valid Y M D sow now Hsow Hnow).
Qed.

End DayClockProperties.

Section DayClockExamples.
Import Runtime DayClockSpec.
Local Open Scope Z_scope.

Lemma days_after_planting_variants_witness :
  Main.get_days_after_planting flat_mktime example_localtime 2024 4 15 = 13
  /\ Main.get_days_after_planting flat_mktime example_localtime 2024 5 1 = 0
  /\ Main.get_days_after_planting failing_mktime example_localtime 2024 2 30
     = -1
  /\ Main5.get_days_after_planting failing_mktime example_localtime 2024 2 30
     = 0
  /\ Main5.get_days_after_planting flat_mktime example_localtime 2024 4 15
     = Main.get_days_after_planting flat_mktime example_localtime 2024 4 15.
Proof.
  pose proof (days_after_planting_variants flat_mktime example_localtime
                2024 4 15) as [_ [Hvalid [_ [_ [_ Hagree]]]]].
  pose proof (days_after_planting_variants flat_mktime example_localtime
                2024 5 1) as [_ [Hfuture _]].
  pose proof (days_after_planting_variants failing_mktime example_localtime
                2024 2 30) as [Hbad [_ [Hbad5 _]]].
  split.
  { assert (Hr : in_range 4 15) by (unfold in_range; lia).
    destruct (Hvalid _ _ Hr eq_refl eq_refl) as [E _]. exact E. }
  split.
  { assert (Hr : in_range 5 1) by (unfold in_range; lia).
    destruct (Hfuture _ _ Hr eq_refl eq_refl) as [_ [_ E]].
    apply E. reflexivity. }
  split; [apply Hbad; right; reflexivity|].
  split; [apply Hbad5; reflexivity|].
  apply Hagree; [reflexivity | eexists; reflexivity].
Defined.

(** C8, as stated, fails on [main5.py]: for month 13 (and for a date whose
    conversion raises) it returns a day count, where [main.py] returns its
    error value. *)
Lemma main5_days_no_invalid_date :
  Main5.get_days_after_planting flat_mktime example_localtime 2024 13 1 = 0
  /\ Main5.get_days_after_planting flat_mktime example_localtime 2023 13 1
     = 120
  /\ Main5.get_days_after_planting failing_mktime example_localtime 2024 2 30
     = 0
  /\ Main.get_days_after_planting flat_mktime example_localtime 2023 13 1
     = -1.
Proof. repeat split. Qed.

End DayClockExamples.

(** ** Configuration over MQTT *)

Section Configuration.
Import Main.
Variable py_int : string -> option Z.
Variable py_float : string -> option Q.
Variable str_lower : string -> string.
Variable str_split_dash : string -> list string.

(** The four numeric branches store whatever number the payload parses to:
    the sign is looked at only to choose the log line. *)
Lemma sub_cb_plants_number (msg : string) (num : Z) (st : CbState) :
  py_int msg = Some num ->
  Main.sub_cb py_int py_float str_lower str_split_dash
    TOPIC_CONFIG_PLANTS_NUMBER msg st
  = set_config "plants_number" (VInt num) st.
Proof. intros H. unfold Main.sub_cb. cbn. rewrite H. reflexivity. Qed.

Lemma sub_cb_plant_spacing (msg : string) (spacing : Q) (st : CbState) :
  py_float msg = Some spacing ->
  Main.sub_cb py_int py_float str_lower str_split_dash
    TOPIC_CONFIG_PLANTS_SPACING msg st
  = set_config "plant_spacing_cm" (VFloat spacing) st.
Proof. intros H. unfold Main.sub_cb. cbn. rewrite H. reflexivity. Qed.

Lemma sub_cb_row_spacing (msg : string) (spacing : Q) (st : CbState) :
  py_float msg = Some spacing ->
  Main.sub_cb py_int py_float str_lower str_split_dash
    TOPIC_CONFIG_ROW_SPACING msg st
  = set_config "row_spacing_cm" (VFloat spacing) st.
Proof. intros H. unfold Main.sub_cb. cbn. rewrite H. reflexivity. Qed.

Lemma sub_cb_pump_flow (msg : string) (flow : Q) (st : CbState) :
  py_float msg = Some flow ->
  Main.sub_cb py_int py_float str_lower str_split_dash
    TOPIC_CONFIG_PUMP_FLOWRATE msg st
  = set_config "pump_flow_lph" (VFloat flow) st.
Proof. intros H. unfold Main.sub_cb. cbn. rewrite H. reflexivity. Qed.

Lemma set_config_lookup (k : string) (v : cfg_value) (st : CbState) :
  config_params (set_config k v st) !! k = Some v.
Proof. unfold set_config. cbn. apply lookup_insert_eq. Qed.

(** C9. [sub_cb] accepts non-positive numbers into the configuration: on
    each of the four numeric topics a payload that parses to a number that
    is zero or negative is stored under its key, so the value is there when
    the completeness check is made. *)
Theorem sub_cb_stores_nonpositive (msg : string) (st : CbState) :
  (forall num, py_int msg = Some num -> (num <= 0)%Z ->
     config_params
       (Main.sub_cb py_int py_float str_lower str_split_dash
          TOPIC_CONFIG_PLANTS_NUMBER msg st)
     !! "plants_number" = Some (VInt num))
  /\ (forall spacing, py_float msg = Some spacing -> (spacing <= 0)%Q ->
        config_params
          (Main.sub_cb py_int py_float str_lower str_split_dash
             TOPIC_CONFIG_PLANTS_SPACING msg st)
        !! "plant_spacing_cm" = Some (VFloat spacing))
  /\ (forall spacing, py_float msg = Some spacing -> (spacing <= 0)%Q ->
        config_params
          (Main.sub_cb py_int py_float str_lower str_split_dash
             TOPIC_CONFIG_ROW_SPACING msg st)
        !! "row_spacing_cm" = Some (VFloat spacing))
  /\ (forall flow, py_float msg = Some flow -> (flow <= 0)%Q ->
        config_params
          (Main.sub_cb py_int py_float str_lower str_split_dash
             TOPIC_CONFIG_PUMP_FLOWRATE msg st)
        !! "pump_flow_lph" = Some (VFloat flow)).
Proof.
  split; [|split; [|split]]; intros x Hx _.
  - rewrite (sub_cb_plants_number msg x st Hx). apply set_config_lookup.
  - rewrite (sub_cb_plant_spacing msg x st Hx). apply set_config_lookup.
  - rewrite (sub_cb_row_spacing msg x st Hx). apply set_config_lookup.
  - rewrite (sub_cb_pump_flow msg x st Hx). apply set_config_lookup.
Qed.

End Configuration.

Section ConfigurationExamples.
Import Main Runtime.

Lemma sub_cb_stores_nonpositive_witness :
  config_params
    (Main.sub_cb dec_int dec_float lower_id split_dash
       TOPIC_CONFIG_PLANTS_NUMBER "-5" example_configuring)
  !! "plants_number" = Some (VInt (-5)).
Proof.
  apply (proj1 (sub_cb_stores_nonpositive dec_int dec_float lower_id split_dash
                  "-5" example_configuring)).
  - reflexivity.
  - lia.
Defined.

(** A whole configuration phase in which every number is zero or negative:
    the wait succeeds and the configuration holds those numbers. *)
Lemma wait_for_configuration_nonpositive :
  let '(complete, st) :=
    wait_for_configuration dec_int dec_float lower_id split_dash
      example_bad_configuration example_configuring in
  complete = true
  /\ config_params st !! "plants_number" = Some (VInt (-5))
  /\ config_params st !! "plant_spacing_cm" = Some (VFloat (inject_Z 0))
  /\ config_params st !! "row_spacing_cm" = Some (VFloat (inject_Z (-30)))
  /\ config_params st !! "pump_flow_lph" = Some (VFloat (inject_Z 0)).
Proof. vm_compute. repeat split. Qed.

(** The prompt of [main5.py] refuses each of these numbers. *)
Lemma main5_prompt_rejects_nonpositive :
  Main5.nursery_inputs_accepted (-5) 10 30 9 = false
  /\ Main5.nursery_inputs_accepted 100 0 30 9 = false
  /\ Main5.nursery_inputs_accepted 100 10 (-30) 9 = false
  /\ Main5.nursery_inputs_accepted 100 10 30 0 = false
  /\ Main5.nursery_inputs_accepted 100 10 30 9 = true.
Proof. repeat split. Qed.

End ConfigurationExamples.

(** ** The pump timer *)

Section Pump.
Import Py Main PumpSpec.
Local Open Scope Q_scope.

Lemma pump_off_check_off (now : Q) (ok : bool) (p : PumpState) :
  pump_running p = false -> pump_off_check now ok p = (p, []).
Proof. intros H. unfold pump_off_check. rewrite H. reflexivity. Qed.

Lemma pump_off_check_early (now : Q) (ok : bool) (p : PumpState) :
  now - pump_start_time p < current_pump_run_duration p ->
  pump_off_check now ok p = (p, []).
Proof.
  intros H. unfold pump_off_check.
  destruct (pump_running p); [|reflexivity].
  rewrite (Qle_bool_false_intro _ _ H). reflexivity.
Qed.

Lemma pump_off_check_due (now : Q) (ok : bool) (p : PumpState) :
  pump_running p = true ->
  current_pump_run_duration p <= now - pump_start_time p ->
  pump_off_check now ok p
  = (if ok then mkPumpState false (pump_start_time p) 0 else p,
     [(PUMP_OFF, ok)]).
Proof.
  intros Hrun H. unfold pump_off_check.
  rewrite Hrun, (Qle_bool_true_intro _ _ H). destruct ok; reflexivity.
Qed.

(** After a pump check whose publish succeeds the pump is not running past
    its target. *)
Lemma pump_off_check_not_overdue (now : Q) (p : PumpState) :
  let p' := fst (pump_off_check now true p) in
  pump_running p' = true ->
  now - pump_start_time p' < current_pump_run_duration p'.
Proof.
  unfold pump_off_check.
  destruct (pump_running p) eqn:Hrun; cbn [fst].
  - destruct (Qle_bool (current_pump_run_duration p)
                (now - pump_start_time p)) eqn:E; cbn [fst].
    + cbn [pump_running]. discriminate.
    + intros _. apply Qle_bool_false. exact E.
  - intros H. congruence.
Qed.

Lemma daily_pump_decision_target_positive (pump_time_s now : Q) (ok : bool)
  (p : PumpState) :
  target_positive p ->
  target_positive (fst (daily_pump_decision pump_time_s now ok p)).
Proof.
  unfold target_positive, daily_pump_decision. intros Hp.
  destruct (Qlt_bool 0.5 pump_time_s) eqn:E.
  - apply Qlt_bool_true in E.
    assert (Hpos : 0 < pump_time_s).
    { eapply Qlt_trans; [|exact E]. reflexivity. }
    destruct (pump_running p) eqn:Hrun; cbn [negb fst].
    + cbn [pump_running current_pump_run_duration]. intros _. exact Hpos.
    + destruct ok; cbn [fst pump_running current_pump_run_duration];
        [intros _; exact Hpos | discriminate].
  - destruct (pump_running p) eqn:Hrun; cbn [fst].
    + destruct ok; cbn [fst pump_running]; [discriminate|].
      intros _. apply Hp. reflexivity.
    + cbn [pump_running]. discriminate.
Qed.

Lemma pump_off_check_target_positive (now : Q) (ok : bool) (p : PumpState) :
  target_positive p -> target_positive (fst (pump_off_check now ok p)).
Proof.
  unfold target_positive, pump_off_check. intros Hp.
  destruct (pump_running p) eqn:Hrun; cbn [fst]; [|congruence].
  destruct (Qle_bool _ _); cbn [fst]; [|intros _; apply Hp; reflexivity].
  destruct ok; cbn [fst pump_running]; [discriminate|].
  intros _. apply Hp. reflexivity.
Qed.

Lemma tick_target_positive (k : tick_kind) (p : PumpState) :
  target_positive p -> target_positive (fst (tick k p)).
Proof.
  intros Hp. destruct k as [|i]; [exact Hp|]. unfold tick.
  destruct (rollover i) as [pump_time_s|].
  - pose proof (daily_pump_decision_target_positive pump_time_s
                  (decision_time i) (decision_pub_ok i) p Hp) as H1.
    destruct (daily_pump_decision pump_time_s (decision_time i)
                (decision_pub_ok i) p) as [p1 c1]. cbn [fst] in H1.
    pose proof (pump_off_check_target_positive (check_time i)
                  (check_pub_ok i) p1 H1) as H2.
    destruct (pump_off_check (check_time i) (check_pub_ok i) p1) as [p2 c2].
    exact H2.
  - pose proof (pump_off_check_target_positive (check_time i)
                  (check_pub_ok i) p Hp) as H2.
    destruct (pump_off_check (check_time i) (check_pub_ok i) p) as [p2 c2].
    exact H2.
Qed.

Lemma run_target_positive (ticks : list tick_kind) :
  forall p, target_positive p -> target_positive (fst (run ticks p)).
Proof.
  induction ticks as [|k ticks IH]; intros p Hp; [exact Hp|].
  cbn [run].
  pose proof (tick_target_positive k p Hp) as H1.
  destruct (tick k p) as [p1 c]. cbn [fst] in H1.
  specialize (IH p1 H1). destruct (run ticks p1) as [p2 cs]. exact IH.
Qed.

Lemma tick_before_target (t0 d : Q) (k : tick_kind) :
  before_target t0 d k ->
  tick k (mkPumpState true t0 d) = (mkPumpState true t0 d, []).
Proof.
  destruct k as [|i]; [reflexivity|]. intros [Hr Hel].
  unfold tick. rewrite Hr.
  rewrite pump_off_check_early by exact Hel. reflexivity.
Qed.

Lemma run_before_target (t0 d : Q) (ticks : list tick_kind) :
  Forall (before_target t0 d) ticks ->
  run ticks (mkPumpState true t0 d)
  = (mkPumpState true t0 d, map (fun _ => []) ticks).
Proof.
  induction 1 as [|k ticks Hk _ IH]; [reflexivity|].
  cbn [run map]. rewrite (tick_before_target t0 d k Hk), IH. reflexivity.
Qed.

Lemma tick_off_no_rollover (k : tick_kind) (p : PumpState) :
  pump_running p = false -> no_rollover k -> tick k p = (p, []).
Proof.
  intros Hoff Hk. destruct k as [|i]; [reflexivity|].
  cbn [no_rollover] in Hk. unfold tick. rewrite Hk.
  rewrite pump_off_check_off by exact Hoff. reflexivity.
Qed.

Lemma run_off_no_rollover (ticks : list tick_kind) (p : PumpState) :
  pump_running p = false -> Forall no_rollover ticks ->
  run ticks p = (p, map (fun _ => []) ticks).
Proof.
  intros Hoff. induction 1 as [|k ticks Hk _ IH]; [reflexivity|].
  cbn [run map]. rewrite (tick_off_no_rollover k p Hoff Hk), IH.
  reflexivity.
Qed.

Lemma run_app (t1 t2 : list tick_kind) (p : PumpState) :
  run (t1 ++ t2) p
  = let '(p1, c1) := run t1 p in
    let '(p2, c2) := run t2 p1 in
    (p2, c1 ++ c2).
Proof.
  revert p. induction t1 as [|k t1 IH]; intros p.
  - cbn [app run]. destruct (run t2 p). reflexivity.
  - cbn [app run]. destruct (tick k p) as [p1 c]. rewrite IH.
    destruct (run t1 p1) as [p2 c1]. destruct (run t2 p2) as [p3 c2].
    reflexivity.
Qed.

Lemma tick_at_target (t0 d : Q) (i : TickInput) :
  at_target t0 d i ->
  tick (Ran i) (mkPumpState true t0 d)
  = (mkPumpState false t0 0, [(PUMP_OFF, true)]).
Proof.
  intros [Hr [Hel Hok]]. unfold tick. rewrite Hr.
  rewrite pump_off_check_due; [|reflexivity|exact Hel].
  rewrite Hok. reflexivity.
Qed.

(** A step taken while the pump is off never issues PUMP_OFF. *)
Lemma daily_pump_decision_off (pump_time_s now : Q) (ok : bool)
  (p : PumpState) :
  pump_running p = false ->
  ~ In PUMP_OFF (map fst (snd (daily_pump_decision pump_time_s now ok p))).
Proof.
  intros Hoff. unfold daily_pump_decision. rewrite Hoff. cbn [negb].
  destruct (Qlt_bool 0.5 pump_time_s); [destruct ok|]; cbn;
    intros H; repeat destruct H as [H|H]; try discriminate; exact H.
Qed.

(** C2, as amended.  With the pump commanded ON at [t0] for a target
    [d > 0], over iterations without a rollover: nothing is published until the first
    iteration whose check finds [elapsed >= d]; that iteration publishes
    PUMP_OFF once and leaves the pump off with target 0; the iterations
    after it publish nothing.  Whatever the iterations, the target is
    positive whenever the pump is running, a step taken while the pump is
    off issues no PUMP_OFF, and after a check whose publish succeeds a
    running pump has [elapsed < target]. *)
Theorem pump_off_exactly_once :
  (forall (t0 d : Q) (before after : list tick_kind) (i : TickInput),
      0 < d ->
      Forall (before_target t0 d) before ->
      at_target t0 d i ->
      Forall no_rollover after ->
      run (before ++ Ran i :: after) (mkPumpState true t0 d)
      = (mkPumpState false t0 0,
         map (fun _ => []) before ++ [(PUMP_OFF, true)]
           :: map (fun _ => []) after))
  /\ (forall ticks, target_positive (fst (run ticks initial_pump)))
  /\ (forall k p, target_positive p -> target_positive (fst (tick k p)))
  /\ (forall pump_time_s now ok p,
         pump_running p = false ->
         ~ In PUMP_OFF
             (map fst (snd (daily_pump_decision pump_time_s now ok p)))
         /\ pump_off_check now ok p = (p, []))
  /\ (forall i p,
         check_pub_ok i = true ->
         let p' := fst (tick (Ran i) p) in
         pump_running p' = true ->
         check_time i - pump_start_time p' < current_pump_run_duration p').
Proof.
  split; [|split; [|split; [|split]]].
  - intros t0 d before after i Hd Hbefore Hat Hafter.
    rewrite run_app, (run_before_target t0 d before Hbefore).
    cbn [run]. rewrite (tick_at_target t0 d i Hat).
    rewrite (run_off_no_rollover after (mkPumpState false t0 0) eq_refl Hafter).
    reflexivity.
  - intros ticks. apply run_target_positive.
    unfold target_positive, initial_pump. cbn. discriminate.
  - apply tick_target_positive.
  - intros pump_time_s now ok p Hoff.
    split; [apply daily_pump_decision_off | apply pump_off_check_off];
      exact Hoff.
  - intros i p Hok. unfold tick.
    destruct (match rollover i with
              | Some pump_time_s =>
                  daily_pump_decision pump_time_s (decision_time i)
                    (decision_pub_ok i) p
              | None => (p, [])
              end) as [p1 c1].
    rewrite Hok.
    pose proof (pump_off_check_not_overdue (check_time i) p1) as H.
    destruct (pump_off_check (check_time i) true p1) as [p2 c2].
    exact H.
Qed.

Lemma pump_off_exactly_once_witness :
  run [check_only 1030 true; Skipped; check_only 1060 true;
       check_only 1090 true; check_only 1120 true; check_only 1150 true]
    (mkPumpState true 1000 75.5)
  = (mkPumpState false 1000 0,
     [[]; []; []; [(PUMP_OFF, true)]; []; []]).
Proof.
  apply (proj1 pump_off_exactly_once 1000 75.5
           [check_only 1030 true; Skipped; check_only 1060 true]
           [check_only 1120 true; check_only 1150 true]
           (mkTick None 0 false 1090 true)).
  - reflexivity.
  - repeat constructor.
  - repeat constructor; discriminate.
  - repeat constructor.
Defined.

(** C2, as stated, fails when the date rolls over while the pump runs.
    The pump was commanded ON at 1000 for 9816 seconds.  A rollover whose
    calculation gives 1300 seconds replaces the target, and the pump check
    of the same iteration, 7700 seconds after the start, publishes
    PUMP_OFF; a rollover whose calculation gives no irrigation publishes
    PUMP_OFF in the daily decision itself, 6670 seconds after the start.
    Both are before the 9816 seconds recorded with the ON command. *)
Lemma pump_off_before_recorded_target :
  (run [Ran (mkTick (Some 1300) 7670 true 8700 true)]
     (mkPumpState true 1000 9816)
   = (mkPumpState false 1000 0, [[(PUMP_OFF, true)]])
   /\ 8700 - 1000 < 9816)
  /\ (run [Ran (mkTick (Some 0) 7670 true 7700 true)]
        (mkPumpState true 1000 9816)
      = (mkPumpState false 1000 0, [[(PUMP_OFF, true)]])
      /\ 7670 - 1000 < 9816).
Proof. repeat split. Qed.

(** C10. If the PUMP_ON publish of the daily decision fails the pump stays
    off with target 0; if the PUMP_OFF publish of the pump check fails the
    pump state is unchanged, and every later check, whatever its time not
    earlier than this one, attempts PUMP_OFF again - in particular the next
    iteration without rollover. *)
Theorem pump_state_survives_publish_failure :
  (forall pump_time_s now p,
      pump_running p = false -> 0.5 < pump_time_s ->
      let '(p', c) := daily_pump_decision pump_time_s now false p in
      pump_running p' = false
      /\ current_pump_run_duration p' = 0
      /\ c = [(PUMP_ON, false)])
  /\ (forall now p,
         pump_running p = true ->
         current_pump_run_duration p <= now - pump_start_time p ->
         pump_off_check now false p = (p, [(PUMP_OFF, false)])
         /\ forall now' ok',
             now <= now' ->
             pump_off_check now' ok' p
             = (if ok' then mkPumpState false (pump_start_time p) 0 else p,
                [(PUMP_OFF, ok')])
             /\ tick (check_only now' ok') p
                = (if ok' then mkPumpState false (pump_start_time p) 0 else p,
                   [(PUMP_OFF, ok')])).
Proof.
  split.
  - intros pump_time_s now p Hoff Hneed. unfold daily_pump_decision.
    rewrite (proj2 (Qlt_bool_true _ _) Hneed), Hoff. cbn.
    repeat split.
  - intros now p Hrun Hdue.
    split; [apply (pump_off_check_due now false p Hrun Hdue)|].
    intros now' ok' Hlater.
    assert (Hdue' : current_pump_run_duration p <= now' - pump_start_time p)
      by lra.
    pose proof (pump_off_check_due now' ok' p Hrun Hdue') as E.
    split; [exact E|].
    unfold check_only, tick. cbn [rollover check_time check_pub_ok].
    rewrite E. reflexivity.
Qed.

Lemma pump_state_survives_publish_failure_witness :
  daily_pump_decision 75.5 1000 false initial_pump
  = (mkPumpState false 0 0, [(PUMP_ON, false)])
  /\ pump_off_check 1090 false (mkPumpState true 1000 75.5)
     = (mkPumpState true 1000 75.5, [(PUMP_OFF, false)])
  /\ tick (check_only 1120 true) (mkPumpState true 1000 75.5)
     = (mkPumpState false 1000 0, [(PUMP_OFF, true)]).
Proof.
  destruct pump_state_survives_publish_failure as [Hon Hoff].
  split.
  { specialize (Hon 75.5 1000 initial_pump eq_refl eq_refl).
    reflexivity. }
  destruct (Hoff 1090 (mkPumpState true 1000 75.5) eq_refl) as [H1 H2].
  { vm_compute. discriminate. }
  split; [exact H1|].
  destruct (H2 1120 true) as [_ H3]; [vm_compute; discriminate|].
  exact H3.
Defined.

End Pump.

(** ** Daily ET0 *)

Section DailyET0.
Import Py Main.
Local Open Scope Q_scope.

(** *** [main5.py]: the stored ET0 is never negative *)

Lemma main5_predict_and_clamp_nonneg predict_et0 features (w : WeatherState) :
  0 <= last_et0 w ->
  0 <= last_et0 (Main5.predict_and_clamp predict_et0 features w).
Proof.
  intros Hw. unfold Main5.predict_and_clamp.
  destruct (predict_et0 features) as [[raw|]|e]; try exact Hw.
  cbn [set_et0 last_et0].
  eapply Qle_trans; [|apply Q.le_max_l]. discriminate.
Qed.

Lemma main5_daily_et0_nonneg predict_et0 weather (w : WeatherState) :
  0 <= last_et0 w ->
  0 <= last_et0 (Main5.daily_et0_update predict_et0 weather w).
Proof.
  intros Hw. unfold Main5.daily_et0_update.
  destruct weather as [[[tmax rh] energy]|].
  - apply main5_predict_and_clamp_nonneg. exact Hw.
  - destruct (last_tmax w), (last_rh w), (last_energy w);
      try (cbn [set_et0 last_et0]; discriminate).
    apply main5_predict_and_clamp_nonneg. exact Hw.
Qed.

(** Over any sequence of daily fetch results, from the initial state. *)
Lemma main5_et0_always_nonneg predict_et0
  (days : list (option (Q * Q * Q))) :
  0 <= last_et0
         (fold_left (fun w weather =>
                       Main5.daily_et0_update predict_et0 weather w)
            days initial_weather).
Proof.
  assert (H : forall w, 0 <= last_et0 w ->
                0 <= last_et0
                       (fold_left (fun w weather =>
                                     Main5.daily_et0_update predict_et0
                                       weather w) days w)).
  { induction days as [|weather days IH]; intros w Hw; [exact Hw|].
    cbn [fold_left]. apply IH. apply main5_daily_et0_nonneg. exact Hw. }
  apply H. discriminate.
Qed.

(** A successful fetch and prediction stores the clamped network output. *)
Lemma main5_daily_et0_clamped predict_et0 (tmax rh energy raw : Q)
  (w : WeatherState) :
  predict_et0 [tmax; rh; energy] = Ok (Num raw) ->
  last_et0 (Main5.daily_et0_update predict_et0 (Some (tmax, rh, energy)) w)
  = Qmax 0.0 raw.
Proof.
  intros H. unfold Main5.daily_et0_update, Main5.predict_and_clamp.
  rewrite H. reflexivity.
Qed.

(** Without any weather so far a failed fetch forces ET0 to 0, in both
    scripts. *)
Lemma no_weather_ever_forces_zero predict_et0 predict_function
  (w : WeatherState) :
  last_tmax w = None ->
  last_et0 (Main5.daily_et0_update predict_et0 None w) == 0
  /\ last_et0 (Main.daily_et0_update predict_function None w) == 0.
Proof.
  intros H. unfold Main5.daily_et0_update, Main.daily_et0_update.
  rewrite H. split; reflexivity.
Qed.

(** The value handed to [irrigation_time] is the stored one. *)
Lemma main5_daily_need_etc (vwc rz Kc area flow : Q) (w : WeatherState) :
  0 <= last_et0 w ->
  snd (Main5.daily_need (Some vwc) rz Kc area flow w)
  == last_et0 w * Qmax 0 Kc.
Proof.
  intros Hw. unfold Main5.daily_need.
  pose proof (main5_irrigation_time_spec Kc (last_et0 w) area flow)
    as [_ Hetc].
  destruct (Main5.irrigation_time Kc (last_et0 w) area flow) as [t e].
  cbn [snd] in *. rewrite Hetc. unfold IrrigationSpec.clamped_etc.
  rewrite (Q.max_r 0 (last_et0 w) Hw). reflexivity.
Qed.

(** *** [main.py]: the network output is stored as it is *)

(** C3. [main.py] has lost the clamp of [main5.py] at the call site: when
    the prediction on the fetched weather is a negative number, that
    negative number becomes the stored ET0 and is what the irrigation
    calculation receives, the reported crop evapotranspiration being
    [ET0 * Kc]. *)
Theorem main_daily_et0_not_clamped
  (predict_function : list Q -> result pyobj) (tmax rh energy e : Q)
  (w : WeatherState) :
  predict_function [tmax; rh; energy] = Ok (Num e) ->
  e < 0 ->
  let w' :=
    Main.daily_et0_update (Some predict_function) (Some (tmax, rh, energy)) w
  in
  last_et0 w' = e
  /\ last_et0 w' < 0
  /\ (forall vwc rz Kc area flow,
         snd (Main.daily_need (Some vwc) rz Kc area flow w') = e * Kc)
  /\ last_et0 (Main.daily_et0_update (Some predict_function) None w') = e
  /\ last_et0
       (Main5.daily_et0_update predict_function (Some (tmax, rh, energy)) w)
     == 0.
Proof.
  intros Hp He. unfold Main.daily_et0_update. rewrite Hp.
  cbn [set_et0 last_et0 last_tmax].
  split; [reflexivity|]. split; [exact He|]. split.
  - intros vwc rz Kc area flow. unfold Main.daily_need, Main.irrigation_time.
    cbn [last_et0]. destruct (Qle_bool flow 0); reflexivity.
  - split; [reflexivity|].
    rewrite (main5_daily_et0_clamped predict_function tmax rh energy e w Hp).
    rewrite Q.max_l; [reflexivity|].
    apply Qlt_le_weak. eapply Qlt_le_trans; [exact He | discriminate].
Qed.

Lemma main_daily_et0_not_clamped_witness :
  last_et0
    (Main.daily_et0_update (Some model_predict) (Some (35, 90, 0))
       initial_weather)
  < 0.
Proof.
  assert (Hneg : MLPSpec.pipeline [35; 90; 0] < 0).
  { eapply Qlt_trans; [apply pipeline_negative_example | reflexivity]. }
  apply (main_daily_et0_not_clamped model_predict 35 90 0
           (MLPSpec.pipeline [35; 90; 0]) initial_weather).
  - apply model_predict_spec. reflexivity.
  - exact Hneg.
Defined.

End DailyET0.

(** ** The shipped tables and the worked day of the specification *)

Section ShippedTables.
Import Main InterpolationSpec.

(** The four built-in profiles are non-empty and strictly increasing, so
    the interpolation result above applies to them. *)
Lemma shipped_profiles_sorted (crop : string) (prof : profile) :
  crop_kc_profile !! crop = Some prof \/ crop_root_profile !! crop = Some prof ->
  prof <> [] /\ sorted_by_day prof = true.
Proof.
  intros H.
  assert (Hcases :
    prof = [(0%Z, 0.7%Q); (15%Z, 0.7%Q); (21%Z, 0.8%Q); (24%Z, 0.9%Q);
            (29%Z, 0.94%Q); (33%Z, 1.0%Q); (82%Z, 1.1%Q); (106%Z, 0.8%Q)]
    \/ prof = [(0%Z, 0.3%Q); (20%Z, 0.3%Q); (40%Z, 0.7%Q); (60%Z, 1.0%Q);
               (80%Z, 0.8%Q); (100%Z, 0.6%Q)]
    \/ prof = [(0%Z, 0.05%Q); (18%Z, 0.25%Q); (38%Z, 0.43%Q); (73%Z, 0.60%Q);
               (106%Z, 0.60%Q)]
    \/ prof = [(0%Z, 0.30%Q); (20%Z, 0.50%Q); (40%Z, 0.80%Q); (60%Z, 1.20%Q);
               (80%Z, 1.50%Q)]).
  { unfold crop_kc_profile, crop_root_profile in H. cbn [list_to_map foldr] in H.
    destruct H as [H|H];
      apply lookup_insert_Some in H; destruct H as [[_ H]|[_ H]];
      try (subst prof; tauto);
      apply lookup_insert_Some in H; destruct H as [[_ H]|[_ H]];
      try (subst prof; tauto);
      rewrite lookup_empty in H; discriminate. }
  destruct Hcases as [E|[E|[E|E]]]; subst prof; split;
    try discriminate; reflexivity.
Qed.

(** Onion planted 110 days ago, mean moisture 25 %: Kc = 0.8, root zone
    600 mm, available water 60 mm. *)
Lemma worked_day_onion :
  exists kc_prof root_prof,
    crop_kc_profile !! "onion"%string = Some kc_prof
    /\ crop_root_profile !! "onion"%string = Some root_prof
    /\ linear_interpolate 110 kc_prof = 0.8%Q
    /\ (linear_interpolate 110 root_prof * 1000.0 == 600)%Q
    /\ (soil_available_water_depth (Some 25.0%Q) 600
          FC_PCT_DEFAULT PWP_PCT_DEFAULT == 60)%Q.
Proof.
  eexists _, _. split; [reflexivity|]. split; [reflexivity|].
  repeat split.
Qed.

End ShippedTables.

(** * Further properties of the modelled code *)

(** ** The helpers of the perceptron *)

Section PerceptronHelpers.
Import Py MLP MLPSpec.

Lemma for_loop_invariant {S : Type} (Inv : S -> Prop)
  (body : nat -> S -> result S) (idx : list nat) :
  (forall i s s', In i idx -> Inv s -> body i s = Ok s' -> Inv s') ->
  forall s0 s, Inv s0 -> for_loop idx body s0 = Ok s -> Inv s.
Proof.
  induction idx as [|i idx IH]; intros Hbody s0 s H0 Hrun.
  - cbn in Hrun. inversion Hrun; subst. exact H0.
  - cbn [for_loop] in Hrun. destruct (body i s0) as [s1|e] eqn:E1;
      [|discriminate].
    cbn [bind] in Hrun.
    apply (IH (fun j a b Hj => Hbody j a b (or_intror Hj)) s1 s); [|exact Hrun].
    apply (Hbody i s0 s1); [left; reflexivity | exact H0 | exact E1].
Qed.

Lemma standardize_all_lookup (xs ms ss : list Q) :
  forall i x m s,
    xs !! i = Some x -> ms !! i = Some m -> ss !! i = Some s ->
    standardize_all xs ms ss !! i = Some (standardize x m s).
Proof.
  revert ms ss. induction xs as [|x0 xs IH]; intros ms ss i x m s Hx Hm Hs.
  - destruct i; discriminate.
  - destruct ms as [|m0 ms]; [destruct i; discriminate|].
    destruct ss as [|s0 ss]; [destruct i; discriminate|].
    destruct i as [|i]; cbn in *.
    + congruence.
    + apply IH; assumption.
Qed.

(** X1. [scale_features] raises [ValueError] exactly when the three lists
    differ in length and otherwise returns the standardised features; the
    result has one entry per feature, and a feature whose scale is zero is
    mapped to 0 instead of being divided. *)
Theorem scale_features_behaviour (raw means scales : list Q) :
  scale_features raw means scales
  = (if ((length raw =? length means) && (length raw =? length scales))%nat
     then Ok (standardize_all raw means scales)
     else Raise ValueError)
  /\ forall out,
      scale_features raw means scales = Ok out ->
      length out = length raw
      /\ forall i s, scales !! i = Some s -> (s == 0)%Q ->
                     (i < length raw)%nat -> out !! i = Some 0%Q.
Proof.
  assert (Hchar :
    scale_features raw means scales
    = (if ((length raw =? length means) && (length raw =? length scales))%nat
       then Ok (standardize_all raw means scales)
       else Raise ValueError)).
  { destruct (Nat.eqb_spec (length raw) (length means)) as [Hm|Hm];
      destruct (Nat.eqb_spec (length raw) (length scales)) as [Hs|Hs];
      cbn [andb].
    - apply scale_features_ok; assumption.
    - unfold scale_features. rewrite (proj2 (Nat.eqb_neq _ _) Hs).
      rewrite orb_true_r. reflexivity.
    - unfold scale_features. rewrite (proj2 (Nat.eqb_neq _ _) Hm).
      reflexivity.
    - unfold scale_features. rewrite (proj2 (Nat.eqb_neq _ _) Hm).
      reflexivity. }
  split; [exact Hchar|].
  intros out Hout. rewrite Hchar in Hout.
  destruct (Nat.eqb_spec (length raw) (length means)) as [Hm|Hm];
    [|discriminate].
  destruct (Nat.eqb_spec (length raw) (length scales)) as [Hs|Hs];
    [|discriminate].
  cbn [andb] in Hout. inversion Hout; subst out. split.
  - apply standardize_all_length; assumption.
  - intros i s Hi Hzero Hlt.
    destruct (lookup_lt_is_Some_2 raw i Hlt) as [x Hx].
    destruct (lookup_lt_is_Some_2 means i) as [m Hmi]; [lia|].
    rewrite (standardize_all_lookup raw means scales i x m s Hx Hmi Hi).
    unfold standardize. rewrite (Qeq_eq_bool s 0 Hzero). reflexivity.
Qed.

Lemma scale_features_behaviour_witness :
  standardize_all [12; 5; 7]%Q [2; 5; 1]%Q [5; 0; 2]%Q !! 1%nat = Some 0%Q.
Proof.
  destruct (proj2 (scale_features_behaviour
                     [12; 5; 7]%Q [2; 5; 1]%Q [5; 0; 2]%Q)
              (standardize_all [12; 5; 7]%Q [2; 5; 1]%Q [5; 0; 2]%Q))
    as [_ H].
  - reflexivity.
  - apply (H 1%nat 0%Q); [reflexivity | reflexivity | cbn; lia].
Defined.

Lemma dot_fold_symmetric (a : list Q) :
  forall (b : list Q) (acc acc' : Q),
    (acc == acc')%Q ->
    (fold_left (fun acc p => acc + fst p * snd p) (combine a b) acc
     == fold_left (fun acc p => acc + fst p * snd p) (combine b a) acc')%Q.
Proof.
  induction a as [|x a IH]; intros b acc acc' Hacc.
  - destruct b; exact Hacc.
  - destruct b as [|y b]; [exact Hacc|].
    cbn [combine fold_left fst snd]. apply IH.
    rewrite Hacc. ring.
Qed.

(** X2. [dot_product] raises [ValueError] exactly when the two vectors
    differ in length and otherwise returns the sum of the pairwise
    products; it is symmetric: swapping the arguments gives an equal
    number. *)
Theorem dot_product_behaviour (a b : list Q) :
  dot_product a b
  = (if (length a =? length b)%nat then Ok (dot a b) else Raise ValueError)
  /\ forall x y, dot_product a b = Ok x -> dot_product b a = Ok y ->
                 (x == y)%Q.
Proof.
  assert (Hchar : forall u v,
    dot_product u v
    = (if (length u =? length v)%nat then Ok (dot u v)
       else Raise ValueError)).
  { intros u v. destruct (Nat.eqb_spec (length u) (length v)) as [E|E].
    - apply dot_product_ok. exact E.
    - unfold dot_product. rewrite (proj2 (Nat.eqb_neq _ _) E). reflexivity. }
  split; [apply Hchar|].
  intros x y Hx Hy. rewrite Hchar in Hx, Hy.
  destruct (length a =? length b)%nat; [|discriminate].
  destruct (length b =? length a)%nat; [|discriminate].
  inversion Hx; inversion Hy; subst.
  apply dot_fold_symmetric. reflexivity.
Qed.

Lemma dot_product_behaviour_witness :
  (dot [1; 2; 3] [4; 5; 6] == dot [4; 5; 6] [1; 2; 3])%Q.
Proof.
  apply (proj2 (dot_product_behaviour [1; 2; 3]%Q [4; 5; 6]%Q));
    reflexivity.
Defined.

(** X3. Whatever the tables and the input, a ReLU layer loop of
    [predict_et0] that does not raise returns one value per bias, none of
    them negative. *)
Theorem relu_layer_nonnegative (W : list (list Q)) (B inp out : list Q) :
  layer_loop W B relu inp = Ok out ->
  length out = length B /\ Forall (fun x => (0 <= x)%Q) out.
Proof.
  unfold layer_loop, for_range.
  apply (for_loop_invariant
           (fun o => length o = length B /\ Forall (fun x => (0 <= x)%Q) o)).
  - intros i s s' _ [Hlen Hnn] Hbody.
    destruct (comprehension _ _) as [w|e]; [|discriminate].
    cbn [bind] in Hbody.
    destruct (dot_product inp w) as [d|e]; [|discriminate].
    cbn [bind] in Hbody.
    destruct (getitem B i) as [b|e]; [|discriminate].
    cbn [bind] in Hbody. unfold setitem in Hbody.
    destruct (i <? length s)%nat; [|discriminate].
    inversion Hbody; subst s'. split.
    + rewrite length_insert. exact Hlen.
    + apply Forall_insert; [exact Hnn|]. unfold relu. apply Q.le_max_l.
  - split; [apply repeat_length|].
    apply Forall_forall. intros x Hx.
    apply list_elem_of_In, repeat_spec in Hx. subst x. apply Qle_refl.
Qed.

Lemma relu_layer_nonnegative_witness :
  Forall (fun x => (0 <= x)%Q)
    (dense 2 [[1; -2]; [3; -4]]%Q [0; 0]%Q relu [1; 1]%Q).
Proof.
  apply (relu_layer_nonnegative [[1; -2]; [3; -4]]%Q [0; 0]%Q [1; 1]%Q).
  reflexivity.
Defined.

(** X4. [matrix_vector_multiply] never multiplies: it returns the empty
    list for an empty matrix, raises [ValueError] when the first row and
    the vector differ in length, and returns [None] when they agree,
    because the code after the mismatch branch is commented out and the
    check inside that branch repeats the condition that led into it. *)
Theorem matrix_vector_multiply_never_multiplies
  (matrix : list (list Q)) (vector : list Q) :
  matrix_vector_multiply matrix vector
  = match matrix with
    | [] => Ok (Some [])
    | row0 :: _ =>
        if (length row0 =? length vector)%nat then Ok None
        else Raise ValueError
    end.
Proof.
  unfold matrix_vector_multiply. destruct matrix as [|row0 rest];
    [reflexivity|].
  destruct (length row0 =? length vector)%nat; reflexivity.
Qed.

End PerceptronHelpers.

(** ** More on interpolation *)

Section InterpolationRange.
Import Py Main InterpolationSpec.
Local Open Scope Q_scope.









End InterpolationRange.

Section InterpolationPoints.
Import Py Main InterpolationSpec.
Local Open Scope Q_scope.




End InterpolationPoints.

Section InterpolationMonotone.
Import Py Main InterpolationSpec.
Local Open Scope Q_scope.













End InterpolationMonotone.

(** ** More on the day clock *)

Section DayClockOrder.
Import DayClockSpec.
Variable mktime : Z * Z * Z * Z * Z * Z * Z * Z -> option Z.
Local Open Scope Z_scope.

(** X8. The day count follows the clock: between two readings of the
    local time that convert to [n1 <= n2] seconds it does not decrease, in
    either script, whatever the planting date; and once the planting date
    has passed, [k] further days on the clock add exactly [k] to it. *)
Theorem days_follow_the_clock
  (lt1 lt2 : Z * Z * Z * Z * Z * Z * Z * Z) (Y M D n1 n2 : Z) :
  mktime lt1 = Some n1 -> mktime lt2 = Some n2 -> n1 <= n2 ->
  Main.get_days_after_planting mktime lt1 Y M D
  <= Main.get_days_after_planting mktime lt2 Y M D
  /\ Main5.get_days_after_planting mktime lt1 Y M D
     <= Main5.get_days_after_planting mktime lt2 Y M D
  /\ forall sow k,
      mktime (Y, M, D, 0, 0, 0, 0, 0) = Some sow ->
      sow <= n1 -> 0 <= k -> n2 = n1 + 86400 * k ->
      Main5.get_days_after_planting mktime lt2 Y M D
      = Main5.get_days_after_planting mktime lt1 Y M D + k
      /\ (in_range M D ->
          Main.get_days_after_planting mktime lt2 Y M D
          = Main.get_days_after_planting mktime lt1 Y M D + k).
Proof.
  intros H1 H2 Hle.
  assert (Hdiv : forall sow, (n1 - sow) / 86400 <= (n2 - sow) / 86400)
    by (intros sow; apply Z.div_le_mono; lia).
  split; [|split].
  - unfold Main.get_days_after_planting. rewrite H1, H2.
    destruct (negb _); [lia|].
    destruct (mktime (Y, M, D, 0, 0, 0, 0, 0)) as [sow|]; [|lia].
    specialize (Hdiv sow). lia.
  - unfold Main5.get_days_after_planting. rewrite H1, H2.
    destruct (mktime (Y, M, D, 0, 0, 0, 0, 0)) as [sow|]; [|lia].
    specialize (Hdiv sow). lia.
  - intros sow k Hsow Hpast Hk E.
    assert (Hshift : (n2 - sow) / 86400 = (n1 - sow) / 86400 + k).
    { subst n2. replace (n1 + 86400 * k - sow) with (n1 - sow + k * 86400)
        by lia.
      apply Z.div_add. lia. }
    assert (Hnn : 0 <= (n1 - sow) / 86400) by (apply Z.div_pos; lia).
    split.
    + rewrite (main5_days_valid mktime lt2 Y M D sow n2 Hsow H2).
      rewrite (main5_days_valid mktime lt1 Y M D sow n1 Hsow H1). lia.
    + intros Hr.
      rewrite (main_days_valid mktime lt2 Y M D sow n2 Hr Hsow H2).
      rewrite (main_days_valid mktime lt1 Y M D sow n1 Hr Hsow H1). lia.
Qed.
End DayClockOrder.

Section DayClockOrderExample.
Import Runtime.
Local Open Scope Z_scope.

Lemma days_follow_the_clock_witness :
  Main.get_days_after_planting flat_mktime example_localtime 2024 4 15
  <= Main.get_days_after_planting flat_mktime (2024, 5, 2, 6, 30, 0, 3, 123)
       2024 4 15.
Proof.
  apply (days_follow_the_clock flat_mktime example_localtime
           (2024, 5, 2, 6, 30, 0, 3, 123) 2024 4 15 _ _ eq_refl eq_refl).
  vm_compute. discriminate.
Defined.
End DayClockOrderExample.

(** ** More on the irrigation calculator *)

Section IrrigationMore.
Import Py IrrigationSpec.
Local Open Scope Q_scope.

Lemma main_required_liters (Kc ET0 area_m2 : Q) :
  Qmax 0 (ET0 * Kc) / 1000.0 * area_m2 * 1000.0
  == Qmax 0 (ET0 * Kc) * area_m2.
Proof. field. Qed.

Lemma main_irrigation_seconds (Kc ET0 avail_mm area_m2 flow_lph : Q) :
  fst (Main.irrigation_time Kc ET0 avail_mm area_m2 flow_lph)
  == if Qle_bool flow_lph 0 then 0
     else if Qlt_bool 0 (Qmax 0 (ET0 * Kc) * area_m2)
          then Qmax 0 (ET0 * Kc) * area_m2 / flow_lph * 3600
          else 0.
Proof.
  unfold Main.irrigation_time.
  destruct (Qle_bool flow_lph 0); cbn [fst]; [reflexivity|].
  rewrite (Qlt_bool_comp 0 0 _ _ (Qeq_refl 0)
             (main_required_liters Kc ET0 area_m2)).
  destruct (Qlt_bool 0 (Qmax 0 (ET0 * Kc) * area_m2)); [|reflexivity].
  rewrite main_required_liters. apply Qmult_comp; reflexivity.
Qed.

Lemma seconds_nonneg (req flow : Q) :
  0 <= (if Qle_bool flow 0 then 0
        else if Qlt_bool 0 req then req / flow * 3600 else 0).
Proof.
  destruct (Qle_bool flow 0) eqn:Ef; [apply Qle_refl|].
  apply Qle_bool_false in Ef.
  destruct (Qlt_bool 0 req) eqn:Er; [|apply Qle_refl].
  apply Qlt_bool_true in Er.
  assert (0 <= req / flow) by (apply Qle_shift_div_l; lra).
  lra.
Qed.

(** X9. Neither script ever computes a negative pump time, and the pump
    time is zero whenever the flow rate or the area is zero or negative or
    there is no demand ([ET0 * Kc <= 0] in [main.py]; [ET0 <= 0] or
    [Kc <= 0] in [main5.py]): a bad configuration leads to no irrigation,
    not to a negative or unbounded run. *)
Theorem pump_time_never_negative (Kc ET0 avail_mm area_m2 flow_lph : Q) :
  (0 <= fst (Main.irrigation_time Kc ET0 avail_mm area_m2 flow_lph)
   /\ (flow_lph <= 0 \/ area_m2 <= 0 \/ ET0 * Kc <= 0 ->
       fst (Main.irrigation_time Kc ET0 avail_mm area_m2 flow_lph) == 0))
  /\ (0 <= fst (Main5.irrigation_time Kc ET0 area_m2 flow_lph)
      /\ (flow_lph <= 0 \/ area_m2 <= 0 \/ ET0 <= 0 \/ Kc <= 0 ->
          fst (Main5.irrigation_time Kc ET0 area_m2 flow_lph) == 0)).
Proof.
  split.
  - rewrite main_irrigation_seconds. split; [apply seconds_nonneg|].
    intros H. destruct (Qle_bool flow_lph 0) eqn:Ef; [reflexivity|].
    apply Qle_bool_false in Ef.
    assert (Hm : 0 <= Qmax 0 (ET0 * Kc)) by apply Q.le_max_l.
    assert (Hreq : Qmax 0 (ET0 * Kc) * area_m2 <= 0).
    { destruct H as [H|[H|H]]; [lra| |].
      - assert (0 <= Qmax 0 (ET0 * Kc) * - area_m2)
          by (apply Qmult_le_0_compat; lra).
        lra.
      - rewrite (Q.max_l 0 (ET0 * Kc) H). lra. }
    rewrite (proj2 (Qlt_bool_false 0 _) Hreq). reflexivity.
  - destruct (main5_irrigation_time_spec Kc ET0 area_m2 flow_lph) as [Ht _].
    rewrite Ht. unfold irrigation_seconds.
    split; [apply seconds_nonneg|].
    intros H. destruct (Qle_bool flow_lph 0) eqn:Ef; [reflexivity|].
    apply Qle_bool_false in Ef.
    pose proof (clamped_etc_nonneg Kc ET0) as Hm.
    assert (Hreq : clamped_etc Kc ET0 * area_m2 <= 0).
    { destruct H as [H|[H|[H|H]]]; [lra| | |].
      - assert (0 <= clamped_etc Kc ET0 * - area_m2)
          by (apply Qmult_le_0_compat; lra).
        lra.
      - unfold clamped_etc. rewrite (Q.max_l 0 ET0 H). lra.
      - unfold clamped_etc. rewrite (Q.max_l 0 Kc H). lra. }
    rewrite (proj2 (Qlt_bool_false 0 _) Hreq). reflexivity.
Qed.

Lemma pump_time_never_negative_witness :
  fst (Main.irrigation_time 0.8 4.5 60.0 (-3.0) 9.0) == 0.
Proof.
  apply (proj1 (pump_time_never_negative 0.8 4.5 60.0 (-3.0) 9.0)).
  right. left. discriminate.
Defined.



End IrrigationMore.

(** ** The MQTT callback and the sampling window *)

Section CallbackFrame.
Import Main SamplingSpec.
Variable py_int : string -> option Z.
Variable py_float : string -> option Q.
Variable str_lower : string -> string.
Variable str_split_dash : string -> list string.

Lemma set_config_frame (k : string) (v : cfg_value) (st : CbState) :
  soil_buffer (set_config k v st) = soil_buffer st
  /\ sampling_active (set_config k v st) = sampling_active st
  /\ dom (config_params (set_config k v st)) = {[k]} ∪ dom (config_params st).
Proof.
  unfold set_config. cbn. repeat split. apply dom_insert_L.
Qed.

Ltac callback_cases :=
  repeat match goal with
         | |- context [if String.eqb ?a ?b then _ else _] =>
             destruct (String.eqb_spec a b)
         | |- context [if ?b then _ else _] => destruct b eqn:?
         | |- context [match ?x with _ => _ end] => destruct x eqn:?
         end.

Lemma sub_cb_soil (msg : string) (st : CbState) :
  Main.sub_cb py_int py_float str_lower str_split_dash TOPIC_SOIL_SUB msg st
  = if sampling_active st then
      match py_float msg with
      | Some v =>
          mkCbState (soil_buffer st ++ [v]) (sampling_active st)
            (config_params st)
      | None => st
      end
    else st.
Proof. unfold Main.sub_cb. rewrite String.eqb_refl. reflexivity. Qed.

Lemma sub_cb_other_topic (t msg : string) (st : CbState) :
  t <> TOPIC_SOIL_SUB ->
  soil_buffer (Main.sub_cb py_int py_float str_lower str_split_dash t msg st)
  = soil_buffer st
  /\ sampling_active
       (Main.sub_cb py_int py_float str_lower str_split_dash t msg st)
     = sampling_active st.
Proof.
  intros Hne. unfold Main.sub_cb.
  destruct (String.eqb_spec t TOPIC_SOIL_SUB); [contradiction|].
  callback_cases; split; reflexivity.
Qed.

Lemma sub_cb_flag_down (t msg : string) (st : CbState) :
  sampling_active st = false ->
  soil_buffer (Main.sub_cb py_int py_float str_lower str_split_dash t msg st)
  = soil_buffer st
  /\ sampling_active
       (Main.sub_cb py_int py_float str_lower str_split_dash t msg st)
     = false.
Proof.
  intros Ha. destruct (String.eqb_spec t TOPIC_SOIL_SUB) as [E|E].
  - subst t. rewrite sub_cb_soil, Ha. split; [reflexivity | exact Ha].
  - destruct (sub_cb_other_topic t msg st E) as [Hbuf Hact].
    rewrite Hbuf, Hact. split; [reflexivity | exact Ha].
Qed.

(** X12. The callback of [main.py] never changes the sampling flag, only
    ever appends to the soil buffer, leaves it alone while the flag is down
    and on every topic other than the soil topic, leaves the configuration
    alone on the soil topic, and never removes a configuration key or adds
    one outside the six required ones. *)
Theorem sub_cb_frame (t msg : string) (st : CbState) :
  let st' := Main.sub_cb py_int py_float str_lower str_split_dash t msg st in
  sampling_active st' = sampling_active st
  /\ (exists new, soil_buffer st' = soil_buffer st ++ new)
  /\ (sampling_active st = false -> soil_buffer st' = soil_buffer st)
  /\ (t <> TOPIC_SOIL_SUB -> soil_buffer st' = soil_buffer st)
  /\ (t = TOPIC_SOIL_SUB -> config_params st' = config_params st)
  /\ dom (config_params st) ⊆ dom (config_params st')
  /\ dom (config_params st') ⊆ dom (config_params st) ∪ required_configs.
Proof.
  cbv zeta. destruct (String.eqb_spec t TOPIC_SOIL_SUB) as [E|E].
  - subst t. rewrite sub_cb_soil.
    destruct (sampling_active st) eqn:Ha; [destruct (py_float msg)|];
      cbn [soil_buffer sampling_active config_params];
      repeat split; try (exists []; rewrite app_nil_r; reflexivity);
      try (eexists; reflexivity); try congruence;
      try reflexivity; apply union_subseteq_l.
  - destruct (sub_cb_other_topic t msg st E) as [Hbuf Hact].
    rewrite Hbuf, Hact.
    split; [reflexivity|]. split; [exists []; rewrite app_nil_r; reflexivity|].
    split; [reflexivity|]. split; [reflexivity|]. split; [contradiction|].
    unfold Main.sub_cb.
    destruct (String.eqb_spec t TOPIC_SOIL_SUB); [contradiction|].
    callback_cases;
      first
        [ split; [reflexivity | apply union_subseteq_l]
        | rewrite (proj2 (proj2 (set_config_frame _ _ st)));
          split; [apply union_subseteq_r|];
          apply union_least; [|apply union_subseteq_l];
          apply singleton_subseteq_l, elem_of_union_r;
          apply (bool_decide_unpack _); vm_compute; exact I ].
Qed.

(** While the flag is up a soil message appends its reading; with the flag
    down nothing is recorded. *)
Lemma sampling_loop_buffer (polls : list poll) :
  forall st, sampling_active st = true ->
    soil_buffer
      (Main.sampling_loop py_int py_float str_lower str_split_dash polls st)
    = soil_buffer st ++ soil_readings py_float polls.
Proof.
  induction polls as [|[|t m|] polls IH]; intros st Ha; cbn [Main.sampling_loop soil_readings].
  - rewrite app_nil_r. reflexivity.
  - apply IH. exact Ha.
  - destruct (String.eqb_spec t TOPIC_SOIL_SUB) as [E|E].
    + subst t. rewrite sub_cb_soil, Ha.
      destruct (py_float m) as [v|].
      * rewrite IH by reflexivity. cbn [soil_buffer].
        rewrite <- app_assoc. reflexivity.
      * apply IH. exact Ha.
    + destruct (sub_cb_other_topic t m st E) as [Hbuf Hact].
      rewrite IH by (rewrite Hact; exact Ha). rewrite Hbuf. reflexivity.
  - cbn [soil_buffer]. rewrite app_nil_r. reflexivity.
Qed.

Lemma deliver_flag_down (polls : list poll) :
  forall st, sampling_active st = false ->
    soil_buffer (Main.deliver py_int py_float str_lower str_split_dash polls st)
    = soil_buffer st
    /\ sampling_active
         (Main.deliver py_int py_float str_lower str_split_dash polls st)
       = false.
Proof.
  induction polls as [|[|t m|] polls IH]; intros st Ha; cbn [Main.deliver];
    try (apply IH; exact Ha); [split; [reflexivity | exact Ha]|].
  destruct (sub_cb_flag_down t m st Ha) as [Hbuf Hact].
  destruct (IH (Main.sub_cb py_int py_float str_lower str_split_dash t m st))
    as [H1 H2]; [exact Hact|].
  rewrite H1, H2, Hbuf. split; reflexivity.
Qed.

(** X13. A sampling window of [main.py] ends with the flag down and the
    buffer holding exactly the numbers parsed from the soil messages that
    arrived during it, in order, up to the first connection error: nothing
    from before the window survives, no reading is filtered by its value,
    and messages delivered after the window do not change the buffer. *)
Theorem sampling_window_collects (polls later : list poll) (st : CbState) :
  let st' :=
    Main.sampling_window py_int py_float str_lower str_split_dash polls st in
  sampling_active st' = false
  /\ soil_buffer st' = soil_readings py_float polls
  /\ soil_buffer
       (Main.deliver py_int py_float str_lower str_split_dash later st')
     = soil_readings py_float polls.
Proof.
  cbv zeta. unfold Main.sampling_window.
  split; [reflexivity|].
  assert (Hbuf :
    soil_buffer
      (Main.sampling_loop py_int py_float str_lower str_split_dash polls
         (mkCbState [] true (config_params st)))
    = soil_readings py_float polls).
  { rewrite sampling_loop_buffer by reflexivity. reflexivity. }
  split; [exact Hbuf|].
  match goal with
  | |- soil_buffer (Main.deliver _ _ _ _ _ ?s) = _ =>
      rewrite (proj1 (deliver_flag_down later s eq_refl))
  end.
  exact Hbuf.
Qed.

End CallbackFrame.

Lemma sub_cb_frame_witness :
  Main.sampling_active Runtime.example_configuring = false
  /\ Main.soil_buffer
       (Main.sub_cb Runtime.dec_int Runtime.dec_float Runtime.lower_id
          Runtime.split_dash Main.TOPIC_SOIL_SUB "25"
          Runtime.example_configuring)
     = Main.soil_buffer Runtime.example_configuring
  /\ Main.config_params
       (Main.sub_cb Runtime.dec_int Runtime.dec_float Runtime.lower_id
          Runtime.split_dash Main.TOPIC_SOIL_SUB "25"
          Runtime.example_configuring)
     = Main.config_params Runtime.example_configuring.
Proof.
  split; [reflexivity|].
  pose proof (sub_cb_frame Runtime.dec_int Runtime.dec_float Runtime.lower_id
                Runtime.split_dash Main.TOPIC_SOIL_SUB "25"
                Runtime.example_configuring) as H.
  cbv zeta in H. destruct H as [_ [_ [Hdown [_ [Hsoil _]]]]].
  split; [apply Hdown; reflexivity | apply Hsoil; reflexivity].
Defined.


(** ** From the configuration wait to the derived values *)

Section ConfigurationStartup.
Import Main ConfigSpec DayClockSpec.
Variable mktime : Z * Z * Z * Z * Z * Z * Z * Z -> option Z.
Variable localtime : Z * Z * Z * Z * Z * Z * Z * Z.
Variable py_int : string -> option Z.
Variable py_float : string -> option Q.
Variable str_lower : string -> string.
Variable str_split_dash : string -> list string.

Lemma profiles_same_crops (c : string) :
  is_Some (crop_kc_profile !! c) ->
  (c = "onion"%string \/ c = "maize"%string)
  /\ is_Some (crop_root_profile !! c).
Proof.
  intros [p Hp]. unfold crop_kc_profile in Hp. cbn [list_to_map foldr] in Hp.
  apply lookup_insert_Some in Hp. destruct Hp as [[E _]|[_ Hp]].
  - subst c. split; [left; reflexivity|].
    unfold crop_root_profile. cbn [list_to_map foldr].
    rewrite lookup_insert_eq. eexists. reflexivity.
  - apply lookup_insert_Some in Hp. destruct Hp as [[E _]|[_ Hp]].
    + subst c. split; [right; reflexivity|].
      unfold crop_root_profile. cbn [list_to_map foldr].
      rewrite lookup_insert_ne by discriminate.
      rewrite lookup_insert_eq. eexists. reflexivity.
    + rewrite lookup_empty in Hp. discriminate.
Qed.

Lemma sub_cb_keeps_cfg_ok (t m : string) (st : CbState) :
  cfg_ok py_int str_split_dash (config_params st) ->
  cfg_ok py_int str_split_dash
    (config_params
       (Main.sub_cb py_int py_float str_lower str_split_dash t m st)).
Proof.
  intros H. unfold Main.sub_cb.
  destruct (String.eqb t TOPIC_SOIL_SUB).
  { destruct (sampling_active st); [destruct (py_float m)|]; exact H. }
  destruct (String.eqb t TOPIC_CONFIG_CROP).
  { cbv zeta. destruct (crop_kc_profile !! str_lower m) eqn:E; [|exact H].
    apply map_Forall_insert_2; [|exact H].
    exists (str_lower m). split; [reflexivity|]. rewrite E. eexists.
    reflexivity. }
  destruct (String.eqb t TOPIC_CONFIG_PLANTING_DATE).
  { destruct (str_split_dash m) as [|a [|b [|c [|? ?]]]] eqn:Es;
      try exact H.
    destruct (py_int a) as [y|] eqn:Ea; [|exact H].
    destruct (py_int b) as [mo|] eqn:Eb; [|exact H].
    destruct (py_int c) as [d|] eqn:Ec; [|exact H].
    destruct ((1 <=? mo) && (mo <=? 12) && (1 <=? d) && (d <=? 31))%Z eqn:Er;
      [|exact H].
    apply map_Forall_insert_2; [|exact H].
    exists m, y, mo, d. split; [reflexivity|]. split.
    - unfold parse_planting_date. rewrite Es, Ea, Eb, Ec. reflexivity.
    - unfold in_range.
      repeat (apply andb_prop in Er; destruct Er as [Er ?]).
      repeat match goal with
             | Hle : (_ <=? _)%Z = true |- _ => apply Z.leb_le in Hle
             end.
      lia. }
  destruct (String.eqb t TOPIC_CONFIG_PLANTS_NUMBER).
  { destruct (py_int m) as [n|]; [|exact H].
    apply map_Forall_insert_2; [|exact H]. exists n. reflexivity. }
  destruct (String.eqb t TOPIC_CONFIG_PLANTS_SPACING).
  { destruct (py_float m) as [q|]; [|exact H].
    apply map_Forall_insert_2; [|exact H]. exists q. reflexivity. }
  destruct (String.eqb t TOPIC_CONFIG_ROW_SPACING).
  { destruct (py_float m) as [q|]; [|exact H].
    apply map_Forall_insert_2; [|exact H]. exists q. reflexivity. }
  destruct (String.eqb t TOPIC_CONFIG_PUMP_FLOWRATE).
  { destruct (py_float m) as [q|]; [|exact H].
    apply map_Forall_insert_2; [|exact H]. exists q. reflexivity. }
  exact H.
Qed.

Lemma wait_for_configuration_sound (polls : list poll) :
  forall st st',
    cfg_ok py_int str_split_dash (config_params st) ->
    wait_for_configuration py_int py_float str_lower str_split_dash polls st
    = (true, st') ->
    cfg_ok py_int str_split_dash (config_params st')
    /\ config_complete st' = true.
Proof.
  induction polls as [|[|t m|] polls IH]; intros st st' Hok Hw;
    cbn [wait_for_configuration] in Hw;
    destruct (config_complete st) eqn:Ec;
    try (inversion Hw; subst st'; split; assumption);
    try discriminate.
  - apply (IH st st' Hok Hw).
  - apply (IH _ st' (sub_cb_keeps_cfg_ok t m st Hok) Hw).
Qed.

Lemma complete_has_key (st : CbState) (k : string) :
  config_complete st = true -> k ∈ required_configs ->
  is_Some (config_params st !! k).
Proof.
  intros Hc Hk. unfold config_complete in Hc.
  apply bool_decide_eq_true in Hc.
  apply elem_of_dom. destruct (decide (k ∈ dom (config_params st))) as [|Hn];
    [assumption|].
  assert (Hin : k ∈ required_configs ∖ dom (config_params st))
    by (apply elem_of_difference; split; assumption).
  rewrite Hc in Hin. apply elem_of_empty in Hin. destruct Hin.
Qed.

Lemma days_error_iff (Y M D : Z) :
  in_range M D ->
  (get_days_after_planting mktime localtime Y M D = (-1)%Z
   <-> mktime (Y, M, D, 0, 0, 0, 0, 0)%Z = None \/ mktime localtime = None)
  /\ (get_days_after_planting mktime localtime Y M D <> (-1)%Z ->
      (0 <= get_days_after_planting mktime localtime Y M D)%Z).
Proof.
  intros [[H1 H2] [H3 H4]]. unfold get_days_after_planting.
  assert (E : ((1 <=? M) && (M <=? 12) && (1 <=? D) && (D <=? 31))%Z = true).
  { repeat (apply andb_true_intro; split); apply Z.leb_le; assumption. }
  rewrite E. cbn [negb].
  destruct (mktime (Y, M, D, 0, 0, 0, 0, 0)%Z) as [sow|].
  - destruct (mktime localtime) as [now|].
    + split; [split|]; [lia | intros [?|?]; discriminate | lia].
    + split; [split|]; [right; reflexivity | reflexivity | congruence].
  - split; [split|]; [left; reflexivity | reflexivity | congruence].
Qed.

(** X15. When [wait_for_configuration] of [main.py], started with an empty
    configuration, returns [True], all six parameters are present, and the
    processing step that follows can halt the script for one reason only:
    the clock conversion of [get_days_after_planting] fails, on the
    planting date or on the current time.  The missing-key, bad-date and
    unknown-crop exits are unreachable.  When processing succeeds the crop
    is onion or maize, month and day of the planting date are in range and
    the day count is not negative. *)
Theorem configuration_wait_then_startup
    (polls : list poll) (buf : list Q) (flag : bool) (st : CbState) :
  wait_for_configuration py_int py_float str_lower str_split_dash polls
    (mkCbState buf flag ∅) = (true, st) ->
  config_complete st = true
  /\ (process_configuration mktime localtime py_int str_split_dash
        (config_params st) = None
      <-> mktime localtime = None
          \/ exists s Y M D,
               config_params st !! "planting_date"%string = Some (VStr s)
               /\ parse_planting_date py_int str_split_dash s
                  = Some (Y, M, D)
               /\ mktime (Y, M, D, 0, 0, 0, 0, 0)%Z = None)
  /\ (forall d,
        process_configuration mktime localtime py_int str_split_dash
          (config_params st) = Some d ->
        (crop d = "onion"%string \/ crop d = "maize"%string)
        /\ config_params st !! "crop"%string = Some (VStr (crop d))
        /\ in_range (snd (fst (planting d))) (snd (planting d))
        /\ (0 <= days d)%Z).
Proof.
  intros Hw.
  destruct (wait_for_configuration_sound polls _ st
              (map_Forall_empty _) Hw) as [Hok Hc].
  split; [exact Hc|].
  assert (Hkey : forall k, k ∈ required_configs ->
                           is_Some (config_params st !! k))
    by (intros k; apply complete_has_key; exact Hc).
  assert (Hin : forall k, bool_decide (k ∈ required_configs) = true ->
                          exists v, config_params st !! k = Some v
                                    /\ value_ok py_int str_split_dash k v).
  { intros k Hk. apply bool_decide_eq_true in Hk.
    destruct (Hkey k Hk) as [v Hv]. exists v. split; [exact Hv|].
    apply (Hok k v Hv). }
  destruct (Hin "crop"%string eq_refl) as [v1 [L1 [c [-> Hcrop]]]].
  destruct (Hin "planting_date"%string eq_refl)
    as [v2 [L2 [s [Y [M [D [-> [Hparse Hrange]]]]]]]].
  destruct (Hin "plants_number"%string eq_refl) as [v3 [L3 [n ->]]].
  destruct (Hin "plant_spacing_cm"%string eq_refl) as [v4 [L4 [ps ->]]].
  destruct (Hin "row_spacing_cm"%string eq_refl) as [v5 [L5 [rs ->]]].
  destruct (Hin "pump_flow_lph"%string eq_refl) as [v6 [L6 [fl ->]]].
  destruct (profiles_same_crops c Hcrop) as [Hname [root_prof Hroot]].
  destruct Hcrop as [kc_prof Hkc].
  destruct (days_error_iff Y M D Hrange) as [Herr Hpos].
  unfold process_configuration.
  rewrite L1, L2, L3, L4, L5, L6. cbn [as_string as_number].
  rewrite Hparse, Hkc, Hroot.
  destruct (get_days_after_planting mktime localtime Y M D =? -1)%Z eqn:Ed.
  - apply Z.eqb_eq in Ed. split; [|intros d Hd; discriminate].
    split; [intros _|reflexivity].
    destruct (proj1 Herr Ed) as [Hsow|Hnow]; [right|left; exact Hnow].
    exists s, Y, M, D. repeat split; assumption.
  - apply Z.eqb_neq in Ed. split.
    + split; [discriminate|]. intros [Hnow|[s' [Y' [M' [D' [Hl [Hp Hm]]]]]]].
      * exfalso. apply Ed, Herr. right. exact Hnow.
      * exfalso. inversion Hl; subst s'.
        rewrite Hparse in Hp. inversion Hp; subst Y' M' D'.
        apply Ed, Herr. left. exact Hm.
    + intros d Hd. inversion Hd; subst d.
      cbn [crop planting days fst snd].
      repeat split; try assumption; try apply Hrange.
      apply Hpos, Ed.
Qed.

End ConfigurationStartup.

Lemma configuration_wait_then_startup_witness :
  Main.config_complete
    (snd (Main.wait_for_configuration Runtime.dec_int Runtime.dec_float
            Runtime.lower_id Runtime.split_dash
            Runtime.example_bad_configuration
            (Main.mkCbState [] false ∅))) = true.
Proof.
  refine (proj1 (configuration_wait_then_startup Runtime.flat_mktime
                   Runtime.example_localtime Runtime.dec_int
                   Runtime.dec_float Runtime.lower_id Runtime.split_dash
                   Runtime.example_bad_configuration [] false _ _)).
  vm_compute. reflexivity.
Defined.

(** ** The controller and the relay *)

Section PumpSync.
Import Py Main PumpSpec.
Local Open Scope Q_scope.

Lemma device_after_app (a b : list attempt) :
  forall dev, device_after dev (a ++ b) = device_after (device_after dev a) b.
Proof.
  induction a as [|[[|] [|]] a IH]; intros dev; cbn [app device_after];
    try reflexivity; apply IH.
Qed.

Lemma in_sync_app (a b : list attempt) :
  forall dev,
    in_sync dev (a ++ b) = in_sync dev a && in_sync (device_after dev a) b.
Proof.
  induction a as [|[c ok] a IH]; intros dev; cbn [app in_sync].
  - reflexivity.
  - rewrite IH, <- andb_assoc. f_equal. f_equal.
    destruct c, ok; reflexivity.
Qed.

Lemma tracks_main_decision (t now : Q) (ok : bool) :
  tracks (Main.daily_pump_decision t now ok).
Proof.
  intros p. unfold Main.daily_pump_decision.
  destruct (Qlt_bool 0.5 t), (pump_running p) eqn:E, ok; cbn;
    rewrite ?E; split; reflexivity.
Qed.

Lemma tracks_main_check (now : Q) (ok : bool) :
  tracks (Main.pump_off_check now ok).
Proof.
  intros p. unfold Main.pump_off_check.
  destruct (pump_running p) eqn:E; cbn; rewrite ?E; [|split; reflexivity].
  destruct (Qle_bool _ _), ok; cbn; rewrite ?E; split; reflexivity.
Qed.

Lemma tracks_main5_decision (t now : Q) (ok : bool) :
  tracks (Main5.daily_pump_decision t now ok).
Proof.
  intros p. unfold Main5.daily_pump_decision.
  destruct (Qlt_bool 1.0 t), (pump_running p) eqn:E, ok; cbn;
    rewrite ?E; split; reflexivity.
Qed.

Lemma tracks_main5_check (now : Q) (ok : bool) :
  tracks (Main5.pump_off_check now ok).
Proof.
  intros p. unfold Main5.pump_off_check.
  destruct (pump_running p) eqn:E; cbn; rewrite ?E; [|split; reflexivity].
  destruct (Qle_bool _ _), ok; cbn; rewrite ?E; split; reflexivity.
Qed.

Lemma tracks_tick (k : tick_kind) : tracks (tick k).
Proof.
  intros p. destruct k as [|i]; [split; reflexivity|].
  unfold tick.
  assert (H1 : exists p1 c1,
             match rollover i with
             | Some pump_time_s =>
                 Main.daily_pump_decision pump_time_s (decision_time i)
                   (decision_pub_ok i) p
             | None => (p, [])
             end = (p1, c1)
             /\ in_sync (pump_running p) c1 = true
             /\ pump_running p1 = device_after (pump_running p) c1).
  { destruct (rollover i) as [t|].
    - destruct (tracks_main_decision t (decision_time i)
                  (decision_pub_ok i) p) as [Ha Hb].
      destruct (Main.daily_pump_decision t (decision_time i)
                  (decision_pub_ok i) p) as [p1 c1].
      exists p1, c1. repeat split; assumption.
    - exists p, []. repeat split. }
  destruct H1 as [p1 [c1 [E1 [Ha Hb]]]]. rewrite E1.
  destruct (tracks_main_check (check_time i) (check_pub_ok i) p1) as [Hc Hd].
  destruct (Main.pump_off_check (check_time i) (check_pub_ok i) p1)
    as [p2 c2].
  cbn [fst snd] in *.
  rewrite in_sync_app, device_after_app, Ha, <- Hb, Hc, Hd.
  split; reflexivity.
Qed.

(** X16. Over any run of the main loop of [main.py] the controller's
    [pump_running] flag equals the state of the relay, taken as the last
    pump command whose publish succeeded: PUMP_ON is only ever attempted
    while the relay is off and PUMP_OFF only while it is on, failed
    publishes included.  The daily decision and the pump check of
    [main5.py] keep the same agreement. *)
Theorem controller_tracks_relay :
  (forall (ticks : list tick_kind) (p : PumpState),
      in_sync (pump_running p) (concat (snd (run ticks p))) = true
      /\ pump_running (fst (run ticks p))
         = device_after (pump_running p) (concat (snd (run ticks p))))
  /\ (forall (t now : Q) (ok : bool) (p : PumpState),
         in_sync (pump_running p)
           (snd (Main5.daily_pump_decision t now ok p)) = true
         /\ pump_running (fst (Main5.daily_pump_decision t now ok p))
            = device_after (pump_running p)
                (snd (Main5.daily_pump_decision t now ok p)))
  /\ (forall (now : Q) (ok : bool) (p : PumpState),
         in_sync (pump_running p) (snd (Main5.pump_off_check now ok p)) = true
         /\ pump_running (fst (Main5.pump_off_check now ok p))
            = device_after (pump_running p)
                (snd (Main5.pump_off_check now ok p))).
Proof.
  split; [|split].
  - induction ticks as [|k ticks IH]; intros p; cbn [run].
    + split; reflexivity.
    + destruct (tracks_tick k p) as [Ha Hb].
      destruct (tick k p) as [p1 c]. cbn [fst snd] in Ha, Hb.
      destruct (IH p1) as [Hc Hd].
      destruct (run ticks p1) as [p2 cs]. cbn [fst snd concat] in *.
      rewrite in_sync_app, device_after_app, Ha, <- Hb, Hc, Hd.
      split; reflexivity.
  - intros t now ok p. apply tracks_main5_decision.
  - intros now ok p. apply tracks_main5_check.
Qed.

End PumpSync.

(** ** The daily decision and the remaining time *)

Section DailyDecision.
Import Py Main.
Local Open Scope Q_scope.

Lemma main_seconds_positive (Kc ET0 avail_mm area_m2 flow_lph : Q) :
  0 < fst (Main.irrigation_time Kc ET0 avail_mm area_m2 flow_lph) ->
  0 < ET0 * Kc /\ 0 < area_m2 /\ 0 < flow_lph.
Proof.
  intros H. rewrite main_irrigation_seconds in H.
  destruct (Qle_bool flow_lph 0) eqn:Ef; [lra|].
  apply Qle_bool_false in Ef.
  destruct (Qlt_bool 0 (Qmax 0 (ET0 * Kc) * area_m2)) eqn:Er; [|lra].
  apply Qlt_bool_true in Er.
  destruct (Qlt_le_dec 0 (ET0 * Kc)) as [He|He].
  - rewrite (Q.max_r 0 (ET0 * Kc)) in Er by lra.
    split; [exact He|]. split; [|exact Ef].
    destruct (Qlt_le_dec 0 area_m2) as [Ha|Ha]; [exact Ha|].
    assert (0 <= ET0 * Kc * - area_m2) by (apply Qmult_le_0_compat; lra).
    lra.
  - rewrite (Q.max_l 0 (ET0 * Kc) He) in Er. lra.
Qed.

Lemma daily_steps_unfold predict_function weather_data_tuple
    (mean_vwc : option Q) (rz Kc area flow now : Q) (ok : bool)
    (w : WeatherState) (p : PumpState) :
  let w1 := daily_et0_update predict_function weather_data_tuple w in
  let t :=
    match mean_vwc with
    | None => 0
    | Some _ =>
        fst (Main.irrigation_time Kc (last_et0 w1)
               (Main.soil_available_water_depth mean_vwc rz FC_PCT_DEFAULT
                  PWP_PCT_DEFAULT) area flow)
    end in
  daily_steps_4_to_6 predict_function weather_data_tuple mean_vwc rz Kc area
    flow now ok w p
  = (w1, Main.daily_need mean_vwc rz Kc area flow w1,
     fst (Main.daily_pump_decision t now ok p),
     snd (Main.daily_pump_decision t now ok p)).
Proof.
  cbv zeta. unfold daily_steps_4_to_6, Main.daily_need.
  destruct mean_vwc as [v|].
  - destruct (Main.irrigation_time _ _ _ _ _) as [t e]. cbn [fst].
    destruct (Main.daily_pump_decision t now ok p). reflexivity.
  - destruct (Main.daily_pump_decision 0 now ok p). reflexivity.
Qed.

Lemma decision_on (t now : Q) (ok b : bool) (p : PumpState) :
  In (PUMP_ON, b) (snd (Main.daily_pump_decision t now ok p)) ->
  pump_running p = false /\ 0.5 < t.
Proof.
  unfold Main.daily_pump_decision.
  destruct (Qlt_bool 0.5 t) eqn:Et.
  - apply Qlt_bool_true in Et.
    destruct (pump_running p); cbn; [tauto|].
    destruct ok; cbn; intros _; split; [reflexivity | exact Et |
                                        reflexivity | exact Et].
  - destruct (pump_running p); [destruct ok|]; cbn;
      intros H; try tauto; destruct H as [H|[]]; discriminate.
Qed.

Lemma decision_idle (t now : Q) (ok : bool) (p : PumpState) :
  t <= 0.5 -> pump_running p = false ->
  Main.daily_pump_decision t now ok p
  = (mkPumpState false (pump_start_time p) 0, []).
Proof.
  intros Ht Hp. unfold Main.daily_pump_decision.
  rewrite (proj2 (Qlt_bool_false 0.5 t) Ht), Hp. reflexivity.
Qed.

(** X17. Steps 4 to 6 of a daily rollover of [main.py] attempt PUMP_ON
    only when the pump is off, a mean moisture is known and the stored ET0
    times the crop coefficient, the area and the flow rate are all
    positive.  With the pump off and any of these at zero or below, nothing
    is published and the pump stays off with target 0; this is the case in
    particular when the weather fetch fails and no weather was ever
    fetched. *)
Theorem pump_on_needs_positive_demand predict_function weather_data_tuple
    (mean_vwc : option Q) (rz Kc area flow now : Q) (ok : bool)
    (w : WeatherState) (p : PumpState) :
  let r := daily_steps_4_to_6 predict_function weather_data_tuple mean_vwc
             rz Kc area flow now ok w p in
  let w1 := fst (fst (fst r)) in
  (forall b, In (PUMP_ON, b) (snd r) ->
     pump_running p = false /\ mean_vwc <> None
     /\ 0 < last_et0 w1 * Kc /\ 0 < area /\ 0 < flow)
  /\ (pump_running p = false ->
      mean_vwc = None \/ last_et0 w1 * Kc <= 0 \/ area <= 0 \/ flow <= 0 ->
      snd r = [] /\ snd (fst r) = mkPumpState false (pump_start_time p) 0)
  /\ (weather_data_tuple = None -> last_tmax w = None ->
      last_et0 w1 == 0 /\ forall b, ~ In (PUMP_ON, b) (snd r)).
Proof.
  cbv zeta. rewrite daily_steps_unfold. cbn [fst snd].
  set (w1 := daily_et0_update predict_function weather_data_tuple w).
  set (t := match mean_vwc with
            | None => 0
            | Some _ => fst (Main.irrigation_time Kc (last_et0 w1) _ area flow)
            end).
  assert (Hon : forall b,
             In (PUMP_ON, b) (snd (Main.daily_pump_decision t now ok p)) ->
             pump_running p = false /\ mean_vwc <> None
             /\ 0 < last_et0 w1 * Kc /\ 0 < area /\ 0 < flow).
  { intros b Hb. destruct (decision_on t now ok b p Hb) as [Hoff Ht].
    split; [exact Hoff|]. subst t. destruct mean_vwc as [v|]; [|lra].
    split; [discriminate|]. eapply main_seconds_positive.
    apply Qlt_trans with 0.5; [reflexivity | exact Ht]. }
  split; [exact Hon|]. split.
  - intros Hoff Hbad.
    assert (Ht : t <= 0.5).
    { destruct (Qlt_le_dec 0.5 t) as [Hlt|Hle]; [|exact Hle]. exfalso.
      subst t. destruct mean_vwc as [v|]; [|lra].
      pose proof (fun a H => main_seconds_positive Kc (last_et0 w1) a area
                            flow H) as Hsp.
      destruct (Hsp _ (Qlt_trans 0 0.5 _ eq_refl Hlt)) as [H1 [H2 H3]].
      destruct Hbad as [Hb|[Hb|[Hb|Hb]]]; [discriminate|lra|lra|lra]. }
    rewrite (decision_idle t now ok p Ht Hoff). split; reflexivity.
  - intros Hw Hnever.
    assert (Hz : last_et0 w1 == 0).
    { subst w1. rewrite Hw. unfold daily_et0_update. rewrite Hnever.
      reflexivity. }
    split; [exact Hz|]. intros b Hb.
    destruct (Hon b Hb) as [_ [_ [Hpos _]]]. rewrite Hz in Hpos. lra.
Qed.

Lemma pump_on_needs_positive_demand_witness :
  snd (daily_steps_4_to_6 None None (Some 25) 250 0.7 10 9 0 true
         initial_weather initial_pump) = []
  /\ snd (fst (daily_steps_4_to_6 None None (Some 25) 250 0.7 10 9 0 true
                 initial_weather initial_pump))
     = mkPumpState false (pump_start_time initial_pump) 0.
Proof.
  apply (pump_on_needs_positive_demand None None (Some 25) 250 0.7 10 9 0
           true initial_weather initial_pump).
  - reflexivity.
  - right. left. vm_compute. discriminate.
Defined.

(** X18. The remaining pump time published in every iteration of
    [main.py] is never negative, is zero while the pump is off, does not
    grow as time passes, and for a running pump it is zero exactly when the
    pump check made at that time attempts PUMP_OFF. *)
Theorem remaining_time_behaviour (now now' : Q) (ok : bool) (p : PumpState) :
  0 <= remaining_time now p
  /\ (pump_running p = false -> remaining_time now p == 0)
  /\ (now <= now' -> remaining_time now' p <= remaining_time now p)
  /\ (pump_running p = true ->
      (remaining_time now p == 0
       <-> snd (Main.pump_off_check now ok p) = [(PUMP_OFF, ok)])).
Proof.
  unfold remaining_time, Main.pump_off_check.
  destruct (pump_running p) eqn:Hr; cbv zeta.
  - split; [eapply Qle_trans; [|apply Q.le_max_l]; discriminate|].
    split; [discriminate|]. split.
    + intros Hle. apply Q.max_le_compat_l. lra.
    + intros _. destruct (Qle_bool _ _) eqn:E.
      * apply Qle_bool_iff in E.
        split; [intros _; destruct ok; reflexivity|]. intros _.
        rewrite Q.max_l by lra. reflexivity.
      * apply Qle_bool_false in E.
        split; [|discriminate]. intros H. exfalso.
        pose proof (Q.le_max_r 0.0
                      (current_pump_run_duration p
                       - (now - pump_start_time p))) as Hm.
        rewrite H in Hm. lra.
  - split; [discriminate|]. split; [reflexivity|]. split.
    + intros _. apply Qle_refl.
    + discriminate.
Qed.

Lemma remaining_time_behaviour_witness :
  remaining_time 100 (mkPumpState true 0 60) == 0
  /\ remaining_time 90 (mkPumpState true 0 60)
     <= remaining_time 30 (mkPumpState true 0 60).
Proof.
  destruct (remaining_time_behaviour 30 90 true (mkPumpState true 0 60))
    as [_ [_ [Hmono _]]].
  destruct (remaining_time_behaviour 100 100 true (mkPumpState true 0 60))
    as [_ [_ [_ Hzero]]].
  split.
  - apply (Hzero eq_refl). reflexivity.
  - apply Hmono. discriminate.
Defined.

End DailyDecision.

(** ** Solar energy from cloud cover *)

Section SolarEnergy.
Import Py.
Local Open Scope Q_scope.

Lemma cube_unfold (x : Q) : x ^ 3 == x * x * x.
Proof. unfold Qpower, Qpower_positive. simpl. ring. Qed.

Lemma cloud_fraction_band (clouds : Q) :
  0 <= Qmin 1 (Qmax 0 (clouds / 100)) <= 1.
Proof.
  split; [|apply Q.le_min_l].
  apply Q.min_glb; [discriminate | apply Q.le_max_l].
Qed.

Lemma cloud_fraction_mono (c c' : Q) :
  c <= c' ->
  Qmin 1 (Qmax 0 (c / 100)) <= Qmin 1 (Qmax 0 (c' / 100)).
Proof.
  intros H. apply Q.min_le_compat_l, Q.max_le_compat_l.
  unfold Qdiv. change (/ 100) with (1 # 100). lra.
Qed.

Lemma cube_band (f : Q) : 0 <= f <= 1 -> 0 <= f ^ 3 <= 1.
Proof.
  intros [H0 H1]. rewrite cube_unfold.
  assert (Hsq : 0 <= f * f <= 1).
  { split; [apply Qmult_le_0_compat; assumption|].
    assert (f * f <= 1 * 1); [|lra].
    apply Qmult_le_compat_nonneg; split; assumption || discriminate
                                          || exact H0. }
  split; [apply Qmult_le_0_compat; tauto|].
  assert (f * f * f <= 1 * 1); [|lra].
  apply Qmult_le_compat_nonneg; split; tauto.
Qed.

Lemma cube_mono (f f' : Q) : 0 <= f -> f <= f' -> f ^ 3 <= f' ^ 3.
Proof.
  intros H0 H1. rewrite !cube_unfold.
  assert (Hsq : 0 <= f * f /\ f * f <= f' * f').
  { split; [apply Qmult_le_0_compat; assumption|].
    apply Qmult_le_compat_nonneg; split; assumption. }
  apply Qmult_le_compat_nonneg; split; tauto.
Qed.

(** The energy before rounding, as a function of the cloud fraction. *)
Lemma energy_antitone (a a' N k : Q) :
  0 <= N -> 0 <= k -> a <= a' ->
  990 * (1 - 0.75 * a') * N * k <= 990 * (1 - 0.75 * a) * N * k.
Proof.
  intros HN Hk Ha.
  assert (H : 0 <= (a' - a) * (N * k)).
  { apply Qmult_le_0_compat; [lra|]. apply Qmult_le_0_compat; assumption. }
  assert (Ering : 990 * (1 - 0.75 * a') * N * k
                   == 990 * (1 - 0.75 * a) * N * k - (7425 # 10) * ((a' - a) * (N * k))) by ring.
    rewrite Ering. clear Ering.
  lra.
Qed.

Lemma main_energy_unfold (clouds N : Q) :
  Main.solar_energy clouds N
  = round2 (990 * (1 - 0.75 * Qmin 1 (Qmax 0 (clouds / 100)) ^ 3) * N
            * Main.WH_TO_MJ).
Proof. reflexivity. Qed.

Lemma main5_energy_unfold (clouds N : Q) :
  Main5.solar_energy clouds N
  = round2 (990 * (1 - 0.75 * Qmin 1 (Qmax 0 (clouds / 100)) ^ 3) * N
            * Main.WH_TO_MJ / 12).
Proof.
  unfold Main5.solar_energy. cbv zeta. apply round2_comp. field.
Qed.

Lemma WH_TO_MJ_nonneg : 0 <= Main.WH_TO_MJ.
Proof. discriminate. Qed.

(** X19. For a non-negative number of daylight hours [N] the solar energy
    that [fetch_weather] derives from the cloud cover is at least
    [round2 (247.5 * N * WH_TO_MJ)], its value under full cloud cover, and
    at most [round2 (990 * N * WH_TO_MJ)], its value under a clear sky; it
    does not grow as the cloud cover grows, and it takes the clear-sky
    value for every cloud cover of 0 percent or less and the full-cover
    value for every cloud cover of 100 percent or more.  [main5.py]
    divides by 12 before rounding: its value is never negative, never
    above that of [main.py], and does not grow with the cloud cover
    either. *)
Theorem solar_energy_bounds (clouds clouds' N : Q) :
  0 <= N ->
  (round2 (247.5 * N * Main.WH_TO_MJ) <= Main.solar_energy clouds N
   /\ Main.solar_energy clouds N <= round2 (990 * N * Main.WH_TO_MJ)
   /\ 0 <= Main.solar_energy clouds N)
  /\ (clouds <= clouds' ->
      Main.solar_energy clouds' N <= Main.solar_energy clouds N
      /\ Main5.solar_energy clouds' N <= Main5.solar_energy clouds N)
  /\ (clouds <= 0 ->
      Main.solar_energy clouds N = round2 (990 * N * Main.WH_TO_MJ))
  /\ (100 <= clouds ->
      Main.solar_energy clouds N = round2 (247.5 * N * Main.WH_TO_MJ))
  /\ 0 <= Main5.solar_energy clouds N <= Main.solar_energy clouds N.
Proof.
  intros HN.
  pose proof WH_TO_MJ_nonneg as Hk.
  pose proof (cloud_fraction_band clouds) as HF.
  pose proof (cube_band _ HF) as HC.
  set (F := Qmin 1 (Qmax 0 (clouds / 100))) in *.
  assert (Hlow : 247.5 * N * Main.WH_TO_MJ
                 <= 990 * (1 - 0.75 * F ^ 3) * N * Main.WH_TO_MJ).
  { pose proof (energy_antitone (F ^ 3) 1 N Main.WH_TO_MJ HN Hk (proj2 HC))
      as H.
    assert (Ering : 247.5 * N * Main.WH_TO_MJ
                   == 990 * (1 - 0.75 * 1) * N * Main.WH_TO_MJ) by ring.
    rewrite Ering. clear Ering.
    exact H. }
  assert (Hhigh : 990 * (1 - 0.75 * F ^ 3) * N * Main.WH_TO_MJ
                  <= 990 * N * Main.WH_TO_MJ).
  { pose proof (energy_antitone 0 (F ^ 3) N Main.WH_TO_MJ HN Hk (proj1 HC))
      as H.
    assert (Ering : 990 * N * Main.WH_TO_MJ
                   == 990 * (1 - 0.75 * 0) * N * Main.WH_TO_MJ) by ring.
    rewrite Ering. clear Ering.
    exact H. }
  assert (Hnn : 0 <= 247.5 * N * Main.WH_TO_MJ).
  { apply Qmult_le_0_compat; [|exact Hk].
    apply Qmult_le_0_compat; [discriminate | exact HN]. }
  rewrite !main_energy_unfold, !main5_energy_unfold. fold F.
  split; [|split; [|split; [|split]]].
  - split; [apply round2_mono, Hlow|].
    split; [apply round2_mono, Hhigh|].
    apply round2_nonneg. lra.
  - intros Hc.
    pose proof (cloud_fraction_mono clouds clouds' Hc) as Hm. fold F in Hm.
    pose proof (cube_mono _ _ (proj1 HF) Hm) as Hcm.
    pose proof (energy_antitone _ _ N Main.WH_TO_MJ HN Hk Hcm) as He.
    split; apply round2_mono; [exact He|].
    unfold Qdiv. apply Qmult_le_compat_r; [exact He | discriminate].
  - intros Hc. apply round2_comp.
    assert (E : F == 0).
    { subst F. rewrite (Q.max_l 0 (clouds / 100)).
      - apply Q.min_r. discriminate.
      - unfold Qdiv. change (/ 100) with (1 # 100). lra. }
    rewrite E. ring.
  - intros Hc. apply round2_comp.
    assert (E : F == 1).
    { subst F. apply Q.min_l.
      eapply Qle_trans; [|apply Q.le_max_r].
      unfold Qdiv. change (/ 100) with (1 # 100). lra. }
    rewrite E. ring.
  - split.
    + apply round2_nonneg. unfold Qdiv.
      apply Qmult_le_0_compat; [lra | discriminate].
    + apply round2_mono. unfold Qdiv.
      change (/ 12) with (1 # 12). lra.
Qed.

Lemma solar_energy_bounds_witness :
  Main.solar_energy 80 12 <= Main.solar_energy 20 12
  /\ Main5.solar_energy 80 12 <= Main5.solar_energy 20 12.
Proof.
  apply (solar_energy_bounds 20 80 12); discriminate.
Defined.

End SolarEnergy.

(** ** The daily ET0 update with the shipped perceptron *)

Section DailyET0Model.
Import Py Main MLPSpec.
Local Open Scope Q_scope.

(** X20. With the perceptron of [mlp_et0_predictotr.py] as prediction
    function, a successful weather fetch never takes the [except] branch
    of the daily update: [main.py] stores the three weather values and the
    network output as it is, [main5.py] stores them with the output
    clamped at 0.  Over any sequence of days, failed fetches included, the
    ET0 stored by [main5.py] is never negative. *)
Theorem daily_et0_with_shipped_model (tmax rh energy : Q) (w : WeatherState)
    (days : list (option (Q * Q * Q))) :
  Main.daily_et0_update (Some model_predict) (Some (tmax, rh, energy)) w
  = mkWeatherState (Some tmax) (Some rh) (Some energy)
      (pipeline [tmax; rh; energy])
  /\ Main5.daily_et0_update model_predict (Some (tmax, rh, energy)) w
     = mkWeatherState (Some tmax) (Some rh) (Some energy)
         (Qmax 0.0 (pipeline [tmax; rh; energy]))
  /\ 0 <= last_et0
            (fold_left (fun w weather =>
                          Main5.daily_et0_update model_predict weather w)
               days initial_weather).
Proof.
  split; [|split].
  - unfold Main.daily_et0_update.
    rewrite (model_predict_spec [tmax; rh; energy] eq_refl). reflexivity.
  - unfold Main5.daily_et0_update, Main5.predict_and_clamp.
    rewrite (model_predict_spec [tmax; rh; energy] eq_refl). reflexivity.
  - apply main5_et0_always_nonneg.
Qed.

End DailyET0Model.

(** * Floating point *)

(** ** The float formats *)

Section FloatFormat.
Import Py Fp.
Local Open Scope Q_scope.

Lemma pow2_pos (e : Z) : 0 < 2 ^ e.
Proof. apply Qpower_0_lt. reflexivity. Qed.

Lemma pow2_add (a b : Z) : 2 ^ (a + b) == 2 ^ a * 2 ^ b.
Proof. apply Qpower_plus. discriminate. Qed.

Lemma pow2_sub (a b : Z) : 2 ^ (a - b) == 2 ^ a / 2 ^ b.
Proof. unfold Z.sub. rewrite pow2_add, Qpower_opp. reflexivity. Qed.

Lemma pow2_succ (a : Z) : 2 ^ (a + 1) == 2 * 2 ^ a.
Proof. rewrite pow2_add. change (2 ^ 1) with 2. ring. Qed.

Lemma pow2_mono (a b : Z) : (a <= b)%Z -> 2 ^ a <= 2 ^ b.
Proof. intros H. apply Qpower_le_compat_l; [exact H | discriminate]. Qed.

Lemma pow2_lt_inv (a b : Z) : 2 ^ a < 2 ^ b -> (a < b)%Z.
Proof. intros H. apply (Qpower_lt_compat_l_inv 2); [exact H | reflexivity]. Qed.

Lemma pow2_int (n : Z) : (0 <= n)%Z -> 2 ^ n == inject_Z (2 ^ n).
Proof. intros H. rewrite (Zpower_Qpower 2 n H). reflexivity. Qed.

Lemma round_half_even_int (z : Z) : round_half_even (inject_Z z) = z.
Proof.
  unfold round_half_even. rewrite Qfloor_Z.
  assert (H : (inject_Z z - inject_Z z ?= 1 # 2) = Lt)
    by (apply Qlt_alt; unfold Qminus; rewrite Qplus_opp_r; reflexivity).
  rewrite H. reflexivity.
Qed.

Lemma ilog2_spec (x : Q) : 0 < x -> 2 ^ ilog2 x <= x < 2 ^ (ilog2 x + 1).
Proof.
  intros Hx. unfold ilog2.
  set (a := Z.log2 (Qnum x)). set (b := Z.log2 (Zpos (Qden x))).
  assert (Hn : (0 < Qnum x)%Z).
  { unfold Qlt in Hx. cbn in Hx. lia. }
  destruct (Z.log2_spec (Qnum x) Hn) as [Ha1 Ha2].
  destruct (Z.log2_spec (Zpos (Qden x)) eq_refl) as [Hb1 Hb2].
  fold a in Ha1, Ha2. fold b in Hb1, Hb2.
  assert (Ha0 : (0 <= a)%Z) by apply Z.log2_nonneg.
  assert (Hb0 : (0 <= b)%Z) by apply Z.log2_nonneg.
  rewrite Z.pow_succ_r in Ha2, Hb2 by assumption.
  pose proof (pow2_pos a) as HA. pose proof (pow2_pos b) as HB.
  assert (HN : 2 ^ a <= inject_Z (Qnum x) /\ inject_Z (Qnum x) < 2 * 2 ^ a).
  { rewrite (pow2_int a Ha0). split.
    - rewrite <- Zle_Qle. exact Ha1.
    - change 2 with (inject_Z 2) at 1. rewrite <- inject_Z_mult, <- Zlt_Qlt.
      exact Ha2. }
  assert (HD : 2 ^ b <= inject_Z (Zpos (Qden x))
               /\ inject_Z (Zpos (Qden x)) < 2 * 2 ^ b).
  { rewrite (pow2_int b Hb0). split.
    - rewrite <- Zle_Qle. exact Hb1.
    - change 2 with (inject_Z 2) at 1. rewrite <- inject_Z_mult, <- Zlt_Qlt.
      exact Hb2. }
  assert (Hx' : x * inject_Z (Zpos (Qden x)) == inject_Z (Qnum x)).
  { destruct x as [n d]. cbn [Qnum Qden]. rewrite (Qmake_Qdiv n d). field.
    discriminate. }
  set (N := inject_Z (Qnum x)) in *. set (D := inject_Z (Zpos (Qden x))) in *.
  assert (Hlow : 2 ^ (a - b - 1) < x).
  { replace (a - b - 1)%Z with (a - (b + 1))%Z by lia.
    rewrite pow2_sub, pow2_succ.
    apply Qlt_shift_div_r; [lra|].
    assert (x * D < x * (2 * 2 ^ b)) by (apply Qmult_lt_l; tauto).
    lra. }
  assert (Hhigh : x < 2 ^ (a - b + 1)).
  { replace (a - b + 1)%Z with (a + 1 - b)%Z by lia.
    rewrite pow2_sub, pow2_succ.
    apply Qlt_shift_div_l; [lra|].
    assert (x * 2 ^ b <= x * D) by (apply Qmult_le_l; tauto).
    lra. }
  destruct (Qle_bool (2 ^ (a - b)) x) eqn:E.
  - apply Qle_bool_iff in E. split; assumption.
  - apply Qle_bool_false in E. split; [apply Qlt_le_weak; exact Hlow|].
    replace (a - b - 1 + 1)%Z with (a - b)%Z by lia. exact E.
Qed.

Lemma ilog2_mono (x y : Q) : 0 < x -> x <= y -> (ilog2 x <= ilog2 y)%Z.
Proof.
  intros Hx Hxy.
  destruct (Z.le_gt_cases (ilog2 x) (ilog2 y)) as [H|H]; [exact H|].
  exfalso.
  destruct (ilog2_spec x Hx) as [Hx1 _].
  destruct (ilog2_spec y) as [_ Hy2]; [lra|].
  pose proof (pow2_mono (ilog2 y + 1) (ilog2 x)) as Hp.
  lapply Hp; [intros Hp'; lra | lia].
Qed.

Section Precision.
Variable prec : Z.
Variable emin : Z.
Hypothesis prec_pos : (1 <= prec)%Z.

Lemma exponent_mono (x y : Q) :
  0 < x -> x <= y -> (exponent prec emin x <= exponent prec emin y)%Z.
Proof.
  intros Hx Hxy. unfold exponent.
  pose proof (ilog2_mono x y Hx Hxy). lia.
Qed.

Lemma scaled_le (x y : Q) (e : Z) : x <= y -> x / 2 ^ e <= y / 2 ^ e.
Proof.
  intros H. unfold Qdiv. apply Qmult_le_compat_r; [exact H|].
  apply Qinv_le_0_compat, Qlt_le_weak, pow2_pos.
Qed.

Lemma round_positive_nonneg (x : Q) : 0 < x -> 0 <= round_positive prec emin x.
Proof.
  intros Hx. unfold round_positive.
  apply Qmult_le_0_compat; [|apply Qlt_le_weak, pow2_pos].
  change 0 with (inject_Z 0). rewrite <- Zle_Qle.
  rewrite <- (round_half_even_int 0).
  apply round_half_even_mono. change (inject_Z 0) with 0.
  apply Qle_shift_div_l; [apply pow2_pos | lra].
Qed.

Lemma round_positive_upper (x : Q) :
  0 < x -> round_positive prec emin x <= 2 ^ (exponent prec emin x + prec).
Proof.
  intros Hx. unfold round_positive.
  set (e := exponent prec emin x).
  destruct (ilog2_spec x Hx) as [_ Hhi].
  assert (He : (ilog2 x + 1 <= e + prec)%Z) by (unfold e, exponent; lia).
  pose proof (pow2_mono _ _ He) as Hp.
  rewrite pow2_add, (Qmult_comm (2 ^ e)).
  apply Qmult_le_compat_r; [|apply Qlt_le_weak, pow2_pos].
  rewrite (pow2_int prec) by lia. rewrite <- Zle_Qle.
  rewrite <- (round_half_even_int (2 ^ prec)).
  apply round_half_even_mono. rewrite <- (pow2_int prec) by lia.
  apply Qle_shift_div_r; [apply pow2_pos|].
  rewrite (Qmult_comm (2 ^ prec)), <- pow2_add. lra.
Qed.

Lemma round_positive_lower (x : Q) :
  0 < x -> (emin < exponent prec emin x)%Z ->
  2 ^ (exponent prec emin x + prec - 1) <= round_positive prec emin x.
Proof.
  intros Hx Hnormal. unfold round_positive.
  set (e := exponent prec emin x) in *.
  destruct (ilog2_spec x Hx) as [Hlo _].
  assert (He : (ilog2 x = e + prec - 1)%Z) by (unfold e, exponent in *; lia).
  rewrite He in Hlo.
  replace (e + prec - 1)%Z with (prec - 1 + e)%Z in * by lia.
  rewrite pow2_add in *.
  apply Qmult_le_compat_r; [|apply Qlt_le_weak, pow2_pos].
  rewrite (pow2_int (prec - 1)) by lia. rewrite <- Zle_Qle.
  rewrite <- (round_half_even_int (2 ^ (prec - 1))) at 1.
  apply round_half_even_mono. rewrite <- (pow2_int (prec - 1)) by lia.
  apply Qle_shift_div_l; [apply pow2_pos | exact Hlo].
Qed.

Lemma round_positive_mono (x y : Q) :
  0 < x -> x <= y -> round_positive prec emin x <= round_positive prec emin y.
Proof.
  intros Hx Hxy.
  assert (Hy : 0 < y) by lra.
  pose proof (exponent_mono x y Hx Hxy) as He.
  destruct (Z.eq_dec (exponent prec emin x) (exponent prec emin y)) as [E|E].
  - unfold round_positive. rewrite E.
    apply Qmult_le_compat_r; [|apply Qlt_le_weak, pow2_pos].
    rewrite <- Zle_Qle. apply round_half_even_mono, scaled_le, Hxy.
  - eapply Qle_trans; [apply round_positive_upper; exact Hx|].
    eapply Qle_trans; [|apply round_positive_lower; [exact Hy|]].
    + apply pow2_mono. lia.
    + unfold exponent in *. lia.
Qed.

Lemma nearest_mono (x y : Q) :
  x <= y -> nearest prec emin x <= nearest prec emin y.
Proof.
  intros Hxy. unfold nearest.
  destruct (Qcompare_spec x 0) as [Ex|Ex|Ex];
    destruct (Qcompare_spec y 0) as [Ey|Ey|Ey];
    try (exfalso; lra).
  - apply Qle_refl.
  - apply round_positive_nonneg. exact Ey.
  - pose proof (round_positive_nonneg (- x)) as H. lapply H; [lra | lra].
  - pose proof (round_positive_mono (- y) (- x)) as H.
    lapply H; [intros H'; lapply H'; [lra | lra] | lra].
  - pose proof (round_positive_nonneg (- x)) as H1.
    pose proof (round_positive_nonneg y Ey) as H2.
    lapply H1; [lra | lra].
  - apply round_positive_mono; assumption.
Qed.

Lemma nearest_zero : nearest prec emin 0 == 0.
Proof. reflexivity. Qed.

Lemma nearest_int (z : Z) :
  (emin <= 0)%Z -> (0 <= z < 2 ^ prec)%Z ->
  nearest prec emin (inject_Z z) == inject_Z z.
Proof.
  intros Hemin [Hz0 Hz1]. unfold nearest.
  destruct (Qcompare_spec (inject_Z z) 0) as [E|E|E].
  - symmetry. exact E.
  - exfalso. change 0 with (inject_Z 0) in E. rewrite <- Zlt_Qlt in E. lia.
  - unfold round_positive. set (e := exponent prec emin (inject_Z z)).
    assert (He : (e <= 0)%Z).
    { destruct (ilog2_spec (inject_Z z) E) as [Hlo _].
      assert (Hlt : 2 ^ ilog2 (inject_Z z) < 2 ^ prec).
      { eapply Qle_lt_trans; [exact Hlo|].
        rewrite (pow2_int prec) by lia. rewrite <- Zlt_Qlt. exact Hz1. }
      apply pow2_lt_inv in Hlt. unfold e, exponent. lia. }
    assert (Hs : inject_Z z / 2 ^ e == inject_Z (z * 2 ^ (- e))).
    { rewrite inject_Z_mult, <- (pow2_int (- e)) by lia.
      rewrite Qpower_opp. field.
      intros H0. pose proof (pow2_pos e). lra. }
    rewrite (round_half_even_comp _ _ Hs), round_half_even_int.
    rewrite inject_Z_mult, <- (pow2_int (- e)) by lia.
    rewrite <- Qmult_assoc, <- pow2_add.
    replace (- e + e)%Z with 0%Z by lia. change (2 ^ 0) with 1. ring.
Qed.

End Precision.

Lemma binary64_mono (x y : Q) : x <= y -> binary64 x <= binary64 y.
Proof. apply nearest_mono. lia. Qed.

Lemma binary64_int (z : Z) :
  (0 <= z < 2 ^ 53)%Z -> binary64 (inject_Z z) == inject_Z z.
Proof. apply nearest_int; lia. Qed.

Lemma binary32_mono (x y : Q) : x <= y -> binary32 x <= binary32 y.
Proof. apply nearest_mono. lia. Qed.

Lemma binary32_int (z : Z) :
  (0 <= z < 2 ^ 24)%Z -> binary32 (inject_Z z) == inject_Z z.
Proof. apply nearest_int; lia. Qed.

End FloatFormat.

(** ** [round(x, 2)] in floating point *)

Section RoundTwo.
Import Py Fp.
Local Open Scope Q_scope.
Variable fl : Q -> Q.
Hypothesis fl_mono : forall x y, x <= y -> fl x <= fl y.

Lemma round2_micropython_mono (x y : Q) :
  x <= y -> round2_micropython fl x <= round2_micropython fl y.
Proof.
  intros Hxy. unfold round2_micropython. apply fl_mono.
  unfold Qdiv. apply Qmult_le_compat_r; [|discriminate].
  rewrite <- Zle_Qle. apply round_half_even_mono, fl_mono.
  apply Qmult_le_compat_r; [exact Hxy | discriminate].
Qed.

Lemma round2_cpython_mono (x y : Q) :
  x <= y -> round2_cpython fl x <= round2_cpython fl y.
Proof.
  intros Hxy. unfold round2_cpython. apply fl_mono, round2_mono, Hxy.
Qed.

End RoundTwo.

(** ** Available water in floating point *)

Section RoundedSoil.
Import Py FloatSpec.
Local Open Scope Q_scope.
Variable fl : Q -> Q.
Variable round2 : Q -> Q.
Hypothesis fl_mono : forall x y, x <= y -> fl x <= fl y.
Hypothesis fl_zero : fl 0 == 0.
Hypothesis round2_mono : forall x y, x <= y -> round2 x <= round2 y.
Hypothesis round2_zero : round2 0 == 0.

Lemma fl_nonneg (x : Q) : 0 <= x -> 0 <= fl x.
Proof. intros H. rewrite <- fl_zero. apply fl_mono, H. Qed.

Lemma fl_nonpos (x : Q) : x <= 0 -> fl x <= 0.
Proof. intros H. rewrite <- fl_zero. apply fl_mono, H. Qed.

Lemma round2_same (x y : Q) : x == y -> round2 x == round2 y.
Proof.
  intros H. apply Qle_antisym; apply round2_mono; rewrite H; apply Qle_refl.
Qed.

Lemma fl_same (x y : Q) : x == y -> fl x == fl y.
Proof.
  intros H. apply Qle_antisym; apply fl_mono; rewrite H; apply Qle_refl.
Qed.

(** The water above the wilting point, capped and rounded: the last four
    lines of both functions.  [z] is the zero the code hands to [max]. *)
Lemma capped_mono (z rz p taw t1 t2 : Q) :
  0 <= rz -> t1 <= t2 ->
  round2 (Qmin (fl (Qmax z (fl (t1 - p)) * rz)) taw)
  <= round2 (Qmin (fl (Qmax z (fl (t2 - p)) * rz)) taw).
Proof.
  intros Hrz Ht. apply round2_mono, Q.min_le_compat_r, fl_mono.
  apply Qmult_le_compat_r; [|exact Hrz].
  apply Q.max_le_compat_l, fl_mono. lra.
Qed.

Lemma capped_range (z rz p taw t : Q) :
  z == 0 -> 0 <= rz -> 0 <= taw ->
  0 <= round2 (Qmin (fl (Qmax z (fl (t - p)) * rz)) taw) <= round2 taw.
Proof.
  intros Hz Hrz Htaw. split.
  - rewrite <- round2_zero. apply round2_mono.
    apply Q.min_glb; [|exact Htaw].
    apply fl_nonneg, Qmult_le_0_compat; [|exact Hrz].
    eapply Qle_trans; [|apply Q.le_max_l]. rewrite Hz. apply Qle_refl.
  - apply round2_mono, Q.le_min_r.
Qed.

Lemma capped_dry (z rz p taw t : Q) :
  z == 0 -> 0 <= taw -> t <= p ->
  round2 (Qmin (fl (Qmax z (fl (t - p)) * rz)) taw) == 0.
Proof.
  intros Hz Htaw Ht.
  assert (Hmax : Qmax z (fl (t - p)) == 0).
  { rewrite Q.max_l; [exact Hz|]. rewrite Hz. apply fl_nonpos. lra. }
  assert (Hcur : fl (Qmax z (fl (t - p)) * rz) == 0).
  { rewrite <- fl_zero. apply fl_same. rewrite Hmax. ring. }
  rewrite <- round2_zero. apply round2_same.
  rewrite Q.min_l; [exact Hcur|]. rewrite Hcur. exact Htaw.
Qed.

Lemma capped_wet (z rz p f t : Q) :
  0 <= rz -> f <= t ->
  round2 (Qmin (fl (Qmax z (fl (t - p)) * rz)) (fl (fl (f - p) * rz)))
  == round2 (fl (fl (f - p) * rz)).
Proof.
  intros Hrz Hft. apply round2_same, Q.min_r, fl_mono.
  apply Qmult_le_compat_r; [|exact Hrz].
  eapply Qle_trans; [|apply Q.le_max_r]. apply fl_mono. lra.
Qed.

Lemma capacity_nonneg (rz p f : Q) :
  0 <= rz -> p < f -> 0 <= fl (fl (f - p) * rz).
Proof.
  intros Hrz Hpf. apply fl_nonneg, Qmult_le_0_compat; [|exact Hrz].
  apply fl_nonneg. lra.
Qed.

Lemma fraction_mono (v1 v2 : Q) :
  v1 <= v2 -> fl (fl v1 / 100.0) <= fl (fl v2 / 100.0).
Proof.
  intros H. apply fl_mono. unfold Qdiv.
  apply Qmult_le_compat_r; [apply fl_mono, H | discriminate].
Qed.

(** C6, as amended.  With every operation rounded to a float, for a
    root-zone depth of zero or more and in both scripts, the available
    water is non-decreasing in the moisture reading and lies between 0 and
    the total available water, computed as the functions compute it and
    rounded to two decimals (0 when the capacity check fails). *)
Theorem available_water_monotone_bounded (v1 v2 rz fc pwp : Q) :
  0 <= rz -> v1 <= v2 ->
  let taw := total_available_water fl rz fc pwp in
  (MainFloat.soil_available_water_depth fl round2 (Some v1) rz fc pwp
   <= MainFloat.soil_available_water_depth fl round2 (Some v2) rz fc pwp
   /\ 0 <= MainFloat.soil_available_water_depth fl round2 (Some v1) rz fc pwp
        <= Qmax 0 (round2 taw))
  /\ (Main5Float.soil_available_water_depth fl round2 (Some v1) rz fc pwp
      <= Main5Float.soil_available_water_depth fl round2 (Some v2) rz fc pwp
      /\ 0 <= Main5Float.soil_available_water_depth fl round2 (Some v1) rz
                fc pwp
           <= Qmax 0 (round2 taw)).
Proof.
  intros Hrz Hv. cbv zeta.
  pose proof (fl_nonneg rz Hrz) as Hrz'.
  pose proof (fraction_mono v1 v2 Hv) as Ht.
  assert (Hzero : 0 <= 0.0 <= Qmax 0 (round2 (total_available_water fl rz fc pwp))).
  { split; [discriminate|]. eapply Qle_trans; [|apply Q.le_max_l]. discriminate. }
  unfold MainFloat.soil_available_water_depth,
    Main5Float.soil_available_water_depth, total_available_water in *.
  cbv zeta.
  destruct (Qle_bool (fl (fl fc / 100.0)) (fl (fl pwp / 100.0))) eqn:Eg.
  - destruct (Qle_bool (fl rz) 0);
      (split; (split; [apply Qle_refl | exact Hzero])).
  - apply Qle_bool_false in Eg.
    pose proof (capacity_nonneg (fl rz) _ _ Hrz' Eg) as Htaw.
    split.
    + split; [apply capped_mono; assumption|].
      destruct (capped_range 0 (fl rz) (fl (fl pwp / 100.0))
                  (fl (fl (fl (fl fc / 100.0) - fl (fl pwp / 100.0)) * fl rz))
                  (fl (fl v1 / 100.0)) (Qeq_refl 0) Hrz' Htaw) as [H1 H2].
      split; [exact H1|]. eapply Qle_trans; [exact H2 | apply Q.le_max_r].
    + destruct (Qle_bool (fl rz) 0);
        [split; [apply Qle_refl | exact Hzero]|].
      split; [apply capped_mono; assumption|].
      destruct (capped_range 0.0 (fl rz) (fl (fl pwp / 100.0))
                  (fl (fl (fl (fl fc / 100.0) - fl (fl pwp / 100.0)) * fl rz))
                  (fl (fl v1 / 100.0)) (Qeq_refl 0) Hrz' Htaw) as [H1 H2].
      split; [exact H1|]. eapply Qle_trans; [exact H2 | apply Q.le_max_r].
Qed.

(** X11. With every operation rounded to a float, when the root zone is
    positive and the capacity check [fc <= pwp] of the functions fails,
    both scripts return 0 for a reading at or below the wilting point and,
    for a reading at or above field capacity, the total available water as
    they compute it, rounded to two decimals. *)
Theorem available_water_saturates (vwc rz fc pwp : Q) :
  0 < fl rz -> fl (fl pwp / 100.0) < fl (fl fc / 100.0) ->
  (vwc <= pwp ->
   MainFloat.soil_available_water_depth fl round2 (Some vwc) rz fc pwp == 0
   /\ Main5Float.soil_available_water_depth fl round2 (Some vwc) rz fc pwp
      == 0)
  /\ (fc <= vwc ->
      MainFloat.soil_available_water_depth fl round2 (Some vwc) rz fc pwp
      == round2 (total_available_water fl rz fc pwp)
      /\ Main5Float.soil_available_water_depth fl round2 (Some vwc) rz fc pwp
         == round2 (total_available_water fl rz fc pwp)).
Proof.
  intros Hrz Hcap.
  unfold MainFloat.soil_available_water_depth,
    Main5Float.soil_available_water_depth, total_available_water.
  cbv zeta.
  rewrite (Qle_bool_false_intro _ _ Hcap), (Qle_bool_false_intro _ _ Hrz).
  pose proof (capacity_nonneg (fl rz) _ _ (Qlt_le_weak _ _ Hrz) Hcap) as Htaw.
  split.
  - intros Hdry. pose proof (fraction_mono vwc pwp Hdry) as Ht.
    split; apply capped_dry; try assumption; reflexivity.
  - intros Hwet. pose proof (fraction_mono fc vwc Hwet) as Ht.
    split; apply capped_wet; try assumption; apply Qlt_le_weak, Hrz.
Qed.

End RoundedSoil.

Section RoundedSoilExamples.
Import Py Fp FloatSpec.
Local Open Scope Q_scope.

Lemma round2_cpython_binary64_zero : round2_cpython binary64 0 == 0.
Proof. vm_compute. reflexivity. Qed.

Lemma round2_micropython_binary64_zero : round2_micropython binary64 0 == 0.
Proof. vm_compute. reflexivity. Qed.

Lemma round2_micropython_binary32_zero : round2_micropython binary32 0 == 0.
Proof. vm_compute. reflexivity. Qed.

Lemma available_water_monotone_bounded_witness :
  MainFloat.soil_available_water_depth binary64 (round2_cpython binary64)
    (Some 25) 600 42.0 15.0
  <= MainFloat.soil_available_water_depth binary64 (round2_cpython binary64)
       (Some 30) 600 42.0 15.0
  /\ 0 <= MainFloat.soil_available_water_depth binary64
            (round2_cpython binary64) (Some 25) 600 42.0 15.0
       <= Qmax 0 (round2_cpython binary64
                    (total_available_water binary64 600 42.0 15.0)).
Proof.
  apply (available_water_monotone_bounded binary64 (round2_cpython binary64)
           binary64_mono (nearest_zero 53 (-1074))
           (round2_cpython_mono binary64 binary64_mono)
           round2_cpython_binary64_zero 25 30 600 42.0 15.0);
    discriminate.
Defined.

Lemma available_water_saturates_witness :
  MainFloat.soil_available_water_depth binary32 (round2_micropython binary32)
    (Some 100) 7.5 42.0 15.0
  == round2_micropython binary32 (total_available_water binary32 7.5 42.0 15.0).
Proof.
  destruct (available_water_saturates binary32 (round2_micropython binary32)
              binary32_mono (nearest_zero 24 (-149))
              (round2_micropython_mono binary32 binary32_mono)
              round2_micropython_binary32_zero 100 7.5 42.0 15.0)
    as [_ H]; [vm_compute; reflexivity | vm_compute; reflexivity |].
  apply H. discriminate.
Defined.

(** The rounding of the operations is felt at the ties of [round]: for a
    saturated reading and a root zone of 7.5 mm the capacity is, in exact
    arithmetic, 2.025 and rounds to 2.02; in double precision it is just
    above 2.025 and both roundings return the double nearest to 2.03. *)
Lemma available_water_float_noise :
  MainFloat.soil_available_water_depth binary64 (round2_cpython binary64)
    (Some 100) 7.5 42.0 15.0 == binary64 2.03
  /\ MainFloat.soil_available_water_depth binary64
       (round2_micropython binary64) (Some 100) 7.5 42.0 15.0
     == binary64 2.03
  /\ Main.soil_available_water_depth (Some 100) 7.5 42.0 15.0 == 2.02.
Proof. vm_compute. repeat split. Qed.

(** The rounded result exceeds the unrounded bound of the specification
    in double precision as well: 0.01 against 0.0054 for a root zone of
    0.02 mm, with the bound itself computed in doubles. *)
Lemma available_water_exceeds_bound_in_floats :
  binary64 (binary64 (binary64 (42.0 - 15.0) * binary64 0.02) / 100)
  < MainFloat.soil_available_water_depth binary64 (round2_cpython binary64)
      (Some 100) 0.02 42.0 15.0
  /\ binary64 (binary64 (binary64 (42.0 - 15.0) * binary64 0.02) / 100)
     < Main5Float.soil_available_water_depth binary64
         (round2_micropython binary64) (Some 100) 0.02 42.0 15.0.
Proof. vm_compute. split; reflexivity. Qed.

End RoundedSoilExamples.

(** ** Mean soil moisture in [main5.py] *)

Section RoundedMean.
Import Py Fp FloatSpec Main5Float.
Local Open Scope Q_scope.
Variable fl : Q -> Q.
Variable fmax : Q.
(** Integers from 0 to [B] are floats, and [B] does not overflow. *)
Variable B : Z.
Variable py_float : string -> option pyfloat.
Hypothesis fl_mono : forall x y, x <= y -> fl x <= fl y.
Hypothesis fl_int :
  forall z, (0 <= z <= B)%Z -> fl (inject_Z z) == inject_Z z.
Hypothesis fmax_B : inject_Z B <= fmax.

Lemma kept_is_percentage (v : pyfloat) :
  le (Finite 0.0) v && le v (Finite 100.0) = true -> percentage v.
Proof.
  destruct v as [q| | |]; cbn [le andb]; intros H; try discriminate.
  apply andb_prop in H. destruct H as [H1 H2].
  apply Qle_bool_iff in H1, H2. exists q. split; [reflexivity|].
  split; [eapply Qle_trans; [|exact H1] | eapply Qle_trans; [exact H2|]];
    discriminate.
Qed.

Lemma sub_cb_keeps (t m : string) (st : CbState) :
  Forall percentage (soil_buffer st) ->
  Forall percentage (soil_buffer (sub_cb py_float t m st))
  /\ (length (soil_buffer (sub_cb py_float t m st))
      <= S (length (soil_buffer st)))%nat
  /\ sampling_active (sub_cb py_float t m st) = sampling_active st.
Proof.
  intros Hok. unfold sub_cb.
  destruct (String.eqb t Main.TOPIC_SOIL_SUB && sampling_active st);
    [|repeat split; [exact Hok | lia]].
  destruct (py_float m) as [v|]; [|repeat split; [exact Hok | lia]].
  destruct (le (Finite 0.0) v && le v (Finite 100.0)) eqn:E;
    [|repeat split; [exact Hok | lia]].
  cbn [soil_buffer sampling_active]. repeat split.
  - apply Forall_app. split; [exact Hok|].
    constructor; [apply kept_is_percentage, E | constructor].
  - rewrite length_app. cbn [length]. lia.
Qed.

Lemma sampling_loop_keeps (polls : list Main.poll) :
  forall st,
    Forall percentage (soil_buffer st) ->
    Forall percentage (soil_buffer (sampling_loop py_float polls st))
    /\ (length (soil_buffer (sampling_loop py_float polls st))
        <= length (soil_buffer st) + length polls)%nat.
Proof.
  induction polls as [|[|t m|] polls IH]; intros st Hok;
    cbn [sampling_loop length].
  - split; [exact Hok | lia].
  - destruct (IH st Hok) as [H1 H2]. split; [exact H1 | lia].
  - destruct (sub_cb_keeps t m st Hok) as [Ha [Hb _]].
    destruct (IH _ Ha) as [H1 H2]. split; [exact H1 | lia].
  - split; [exact Hok | lia].
Qed.

Lemma sampling_window_keeps (polls : list Main.poll) (st : CbState) :
  Forall percentage (soil_buffer (sampling_window py_float polls st))
  /\ (length (soil_buffer (sampling_window py_float polls st))
      <= length polls)%nat
  /\ sampling_active (sampling_window py_float polls st) = false.
Proof.
  unfold sampling_window. cbn [soil_buffer sampling_active].
  destruct (sampling_loop_keeps polls (mkCbState [] true)) as [H1 H2];
    [constructor|].
  cbn [soil_buffer length] in H2. repeat split; [exact H1 | lia].
Qed.

Lemma of_exact_finite (r : Q) :
  0 <= fl r -> fl r <= inject_Z B -> of_exact fl fmax r = Finite (fl r).
Proof.
  intros H0 H1. unfold of_exact.
  rewrite (proj2 (Qlt_bool_false fmax (fl r))) by lra.
  rewrite (proj2 (Qlt_bool_false (fl r) (- fmax))) by lra.
  reflexivity.
Qed.

Lemma hundreds_succ (k : nat) :
  inject_Z (100 * Z.of_nat (S k)) == inject_Z (100 * Z.of_nat k) + 100.
Proof.
  rewrite Nat2Z.inj_succ. unfold Z.succ.
  rewrite Z.mul_add_distr_l, inject_Z_plus. reflexivity.
Qed.

Lemma sum_percentages (l : list pyfloat) :
  Forall percentage l ->
  forall (q0 : Q) (k : nat),
    0 <= q0 <= inject_Z (100 * Z.of_nat k) ->
    (100 * Z.of_nat (k + length l) <= B)%Z ->
    exists q,
      fold_left (add fl fmax) l (Finite q0) = Finite q
      /\ 0 <= q <= inject_Z (100 * Z.of_nat (k + length l)).
Proof.
  induction 1 as [|x l [qx [-> [Hx0 Hx1]]] _ IH]; intros q0 k Hq0 HB.
  - exists q0. cbn [fold_left length]. rewrite Nat.add_0_r. tauto.
  - cbn [fold_left length add] in *.
    assert (Hk : (0 <= 100 * Z.of_nat (S k) <= B)%Z) by lia.
    assert (Hz : (0 <= 0 <= B)%Z) by lia.
    assert (Hv : 0 <= fl (q0 + qx) <= inject_Z (100 * Z.of_nat (S k))).
    { split.
      - rewrite <- (fl_int 0 Hz). apply fl_mono.
        change (inject_Z 0) with 0. lra.
      - rewrite <- (fl_int _ Hk). apply fl_mono.
        rewrite hundreds_succ. lra. }
    rewrite of_exact_finite;
      [| tauto | eapply Qle_trans; [apply Hv|]; rewrite <- Zle_Qle; lia].
    destruct (IH (fl (q0 + qx)) (S k) Hv) as [q [Hq Hband]];
      [rewrite Nat.add_succ_l, <- Nat.add_succ_r; exact HB|].
    exists q. split; [exact Hq|].
    rewrite Nat.add_succ_r, <- Nat.add_succ_l. exact Hband.
Qed.

Lemma mean_percentage (buf : list pyfloat) (prev : option pyfloat) :
  Forall percentage buf ->
  (100 * Z.of_nat (length buf) <= B)%Z ->
  (forall m, prev = Some m -> percentage m) ->
  exists m, daily_mean_vwc fl fmax buf prev = Some m /\ percentage m.
Proof.
  intros Hok HB Hprev. unfold daily_mean_vwc.
  destruct buf as [|x l].
  - destruct prev as [m|].
    + exists m. split; [reflexivity | apply Hprev; reflexivity].
    + eexists. split; [reflexivity|]. exists 25.0.
      split; [reflexivity | split; discriminate].
  - set (buf := x :: l) in *.
    assert (Hn : (1 <= Z.of_nat (length buf))%Z) by
      (unfold buf; cbn [length]; lia).
    destruct (sum_percentages buf Hok 0 0%nat) as [s [Hs [Hs0 Hs1]]];
      [split; apply Qle_refl | exact HB |].
    cbn [Nat.add] in Hs1.
    eexists. split; [reflexivity|]. unfold py_sum. rewrite Hs.
    cbn [div_len].
    set (n := Z.of_nat (length buf)) in *.
    assert (Hfn : fl (inject_Z n) == inject_Z n) by (apply fl_int; lia).
    assert (Hnpos : 0 < inject_Z n).
    { change 0 with (inject_Z 0). rewrite <- Zlt_Qlt. lia. }
    assert (Hq : 0 <= s / fl (inject_Z n) <= 100).
    { rewrite Hfn. split.
      - apply Qle_shift_div_l; [exact Hnpos | lra].
      - apply Qle_shift_div_r; [exact Hnpos|].
        rewrite inject_Z_mult in Hs1. exact Hs1. }
    assert (Hv : 0 <= fl (s / fl (inject_Z n)) <= 100).
    { split.
      - rewrite <- (fl_int 0) by lia. apply fl_mono. apply Hq.
      - change 100 with (inject_Z 100).
        rewrite <- (fl_int 100) by lia. apply fl_mono. apply Hq. }
    rewrite of_exact_finite;
      [| tauto
       | eapply Qle_trans; [apply Hv|];
         change 100 with (inject_Z 100); rewrite <- Zle_Qle; lia].
    eexists. split; [reflexivity | exact Hv].
Qed.

(** X14. In [main5.py] a soil reading enters the buffer only when it is a
    number between 0 and 100: NaN, infinite and out-of-range payloads are
    dropped by the comparison in [sub_cb].  So, with floating-point sums and
    divisions, the mean moisture after step 2 of a daily rollover is a
    number between 0 and 100 on every day, and 25.0 or the previous mean
    when no reading was kept.  The windows are taken short enough for
    [100 * len] to be an exact float. *)
Theorem main5_mean_moisture_in_range :
  (forall (polls : list Main.poll) (st : CbState),
      Forall percentage (soil_buffer (sampling_window py_float polls st))
      /\ sampling_active (sampling_window py_float polls st) = false)
  /\ (forall (prev : option pyfloat),
         daily_mean_vwc fl fmax [] prev
         = Some (match prev with
                 | Some previous => previous
                 | None => Finite 25.0
                 end))
  /\ (forall (days : list (list Main.poll)),
         Forall (fun polls => (100 * Z.of_nat (length polls) <= B)%Z) days ->
         match fold_left (daily_steps_1_to_2 fl fmax py_float) days None with
         | None => days = []
         | Some m => percentage m
         end).
Proof.
  split; [|split].
  - intros polls st.
    destruct (sampling_window_keeps polls st) as [H1 [_ H2]]. tauto.
  - intros [m|]; reflexivity.
  - assert (Hstep : forall prev polls,
               (100 * Z.of_nat (length polls) <= B)%Z ->
               (forall m, prev = Some m -> percentage m) ->
               exists m, daily_steps_1_to_2 fl fmax py_float prev polls
                         = Some m /\ percentage m).
    { intros prev polls HB Hprev. unfold daily_steps_1_to_2.
      destruct (sampling_window_keeps polls (mkCbState [] false))
        as [H1 [H2 _]].
      apply mean_percentage; [exact H1 | lia | exact Hprev]. }
    assert (Hfold : forall days prev,
               Forall (fun polls => (100 * Z.of_nat (length polls) <= B)%Z)
                 days ->
               (forall m, prev = Some m -> percentage m) ->
               match fold_left (daily_steps_1_to_2 fl fmax py_float) days
                       prev with
               | None => days = [] /\ prev = None
               | Some m => percentage m
               end).
    { induction days as [|polls days IH]; intros prev Hdays Hprev.
      - cbn [fold_left]. destruct prev as [m|];
          [apply Hprev; reflexivity | split; reflexivity].
      - cbn [fold_left]. inversion Hdays as [|? ? Hp Hrest]; subst.
        destruct (Hstep prev polls Hp Hprev) as [m [Hm Hband]].
        specialize (IH (daily_steps_1_to_2 fl fmax py_float prev polls) Hrest).
        rewrite Hm in *.
        lapply IH; [|intros m' E; inversion E; subst; exact Hband].
        destruct (fold_left (daily_steps_1_to_2 fl fmax py_float) days
                    (Some m));
          [tauto | intros [_ Habs]; discriminate]. }
    intros days Hdays. specialize (Hfold days None Hdays).
    lapply Hfold; [|discriminate].
    destruct (fold_left (daily_steps_1_to_2 fl fmax py_float) days None);
      tauto.
Qed.

End RoundedMean.

Section RoundedMeanExample.
Import Py Fp FloatSpec Main5Float.
Local Open Scope Q_scope.

Lemma max_binary64_exact : inject_Z (2 ^ 53 - 1) <= max_binary64.
Proof. vm_compute. discriminate. Qed.

Lemma binary64_small_int (z : Z) :
  (0 <= z <= 2 ^ 53 - 1)%Z -> binary64 (inject_Z z) == inject_Z z.
Proof. intros H. apply binary64_int. lia. Qed.

Lemma main5_mean_moisture_in_range_witness :
  match fold_left
          (daily_steps_1_to_2 binary64 max_binary64 Runtime.dec_pyfloat)
          [Runtime.example_window; []] None with
  | None => [Runtime.example_window; []] = []
  | Some m => percentage m
  end.
Proof.
  apply (proj2 (proj2 (main5_mean_moisture_in_range binary64 max_binary64
                         (2 ^ 53 - 1) Runtime.dec_pyfloat binary64_mono
                         binary64_small_int max_binary64_exact))).
  repeat constructor; vm_compute; discriminate.
Defined.

(** The example window in double precision: the NaN, the infinity and 250
    are dropped, the mean of 40, 60 and 50 is kept over the empty window
    of the next day. *)
Lemma main5_mean_moisture_example :
  exists q,
    fold_left (daily_steps_1_to_2 binary64 max_binary64 Runtime.dec_pyfloat)
      [Runtime.example_window; []] None = Some (Finite q)
    /\ q == 50.
Proof.
  eexists. split; [vm_compute; reflexivity | vm_compute; reflexivity].
Qed.

End RoundedMeanExample.
